(* ===== verification/_CoqProject ===== *)
-Q . S2P
Prelude.v
Loading.v
Routes.v
Models.v
Api.v
ErrorInterceptor.v
Timers.v
Notification.v
Effects.v
Movimientos.v
Clientes.v
Cuentas.v
Constants.v
Dates.v
Reportes.v
Page.v
Drain.v
MovimientosPage.v
ClientesPage.v
CuentasPage.v
ReportesPage.v
Liveness.v
