(* ===== verification/Prelude.v ===== *)
(** * Verification of the bank-frontend console (JeremyTierra/bank-app)

    The repository is an Angular front end ([src/bank-frontend/src/app]) for
    a bank back office: four pages (customers, accounts, movements,
    reports), an HTTP client wrapper, two HTTP interceptors, a loading
    indicator and a notification holder.  The backend is not part of it.

    How the parts interact.  A page's view-model method changes its own
    fields and subscribes to a request of [ApiService]; the request passes
    the loading interceptor (which calls [LoadingService.show] when it
    starts and [hide] in its [finalize]) and the error interceptor (which
    rewrites a failure into [{status, message, error}]) before the
    subscriber's callbacks run; messages are shown by [mostrarMensaje] and
    cleared by a [setTimeout] callback.  The browser's timer queue, the
    [Date] operations and the router's matching are runtime behaviour, not
    code of the repository; they are modelled as the runtime behaves.

    Files, in dependency order, with what each models:
    - [Prelude.v] (this file): notations of [bank_scope], the JavaScript
      helpers every component uses (string truthiness, [includes],
      [toLowerCase], [reduce] sums), the hint databases [bank] and
      [bank_rw], generic list lemmas, the [Proper] instance of sums under
      permutation.
    - [Loading.v]: [services/loading.service.ts] ([LoadingService], its
      [show], [hide], [reset]), the [LoadingIndicator] typeclass interface
      with its laws, the abstract counter [Spec] it refines (C1-C4), and
      the spinner's template ([components/shared/loading-spinner]).
    - [Routes.v]: [app.routes.ts] and the router's first-match resolution
      with redirects (termination, C33), [HomeComponent.features] and
      their links, [AppComponent]'s one field.
    - [Models.v]: [models/models.ts] as records, and the JSON objects sent.
    - [Api.v]: [services/api.service.ts], every endpoint as its request.
    - [ErrorInterceptor.v]: [interceptors/error.interceptor.ts] (C5).
    - [Timers.v]: the browser's timer queue ([setTimeout], [clearTimeout],
      firing in due order, time passing).
    - [Notification.v]: [services/notification.service.ts] with the timer
      queue as a step relation: one timer at most (C6), a notification
      lasts its duration (C7), is hidden when it ends (C8); [hide] undoes
      [show].
    - [Effects.v]: the state-and-effects monad [Comp] in which the
      component methods are written (a thrown exception is [None]), the
      [HasMensaje] interface and the shared [mostrarMensaje] (C14); the
      predicates [comp_ok] (a property of the state kept by a method and
      all its callbacks) and [comp_bd] (the chains of requests a method
      starts have bounded length), with their lemmas along binds,
      branches and subscriptions.
    - [Movimientos.v], [Clientes.v], [Cuentas.v], [Reportes.v]: the four
      page components, one [Record state] of fields and one definition per
      method ([components/*/*.component.ts]): C9-C13, C15, C17-C22, C24,
      C26, C27, C29-C31, C34, C35, C37.  [Dates.v] models the [Date]
      operations the reports page uses.
    - [Constants.v]: [constants/app.constants.ts] and its relation to the
      components (C36).
    - [Page.v]: a page at run time, a step relation over the component,
      the loading indicator (through the interface only), the timer queue
      and the requests in flight; the answers may come in any order
      (C23); a message shown by any component is cleared by the timer of
      an earlier message (C25).  It also shows that a predicate on the
      component which every action keeps, together with every callback
      the action registers ([comp_ok] of [Effects.v]), holds in every
      reachable state.
    - [Drain.v]: the backend's answers alone ([backend_step]); when every
      action and timer starts chains of requests of bounded length, every
      sequence of answers from a reachable state is finite (a
      lexicographic measure on the numbers of requests in flight at each
      depth) and answering them all hides the spinner ([settles]).
    - [MovimientosPage.v], [ClientesPage.v], [CuentasPage.v],
      [ReportesPage.v]: the four pages run in that model: a double submit
      that posts a movement twice (C28), the edit mode of the accounts
      page (C16) and of the customers page (C38) consistent in every
      reachable state; and, as runs that document the findings, a message
      cleared early, a saved movement lost to a late answer of the first
      load, a report replaced by the late answer of an older request, and
      an account edit discarded by the completion of an earlier save.
    - [Liveness.v]: every action of the four pages starts at most two
      rounds of requests, so on every page the spinner goes off once the
      backend has answered (C32).

    Bounds and fuel.  [Dates.v] checks the calendar conversions by
    evaluation over the day numbers 0 to [DAY_MAX - 1] (1970-01-01 to
    2199-12-31); the report theorems assume the clock in that range, far
    beyond any date the page can be used on.  [Routes.navigate] follows
    at most [fuel] redirects; two rounds resolve every URL (C33).  No other
    definition needs fuel: every operation is structural.  The bound [D]
    of [Drain.v] is [2] for the four pages: a save or a deletion starts a
    request whose completion reloads the list, and a load's completion
    starts nothing.  Money and ages are [Z]: the rounding of IEEE doubles
    is not modelled, so the report totals (C15) are exact for whole
    amounts only, and no claim rests on the order of a floating-point
    sum.  Strings are byte strings: [toLowerCase] and [trim]
    are modelled on ASCII.  The time zone is a fixed offset (no
    daylight-saving changes).

    Not modelled: the HTML templates and styles (not under [src/]; the
    user's inputs are modelled from the specification as [input_*]
    actions), the styles of the spinner component, the environment files,
    the jest set-up and the test files, Angular's dependency injection
    and change detection, the PDF and JSON libraries (only what the
    components hand them is modelled), the [console.error] logging. *)

From stdpp Require Export base list strings decidable sets.
From Stdlib Require Export ZArith Lia Ascii String.

Declare Scope bank_scope.
Delimit Scope bank_scope with bank.
Open Scope Z_scope.

(** ** JavaScript truthiness and string helpers *)

(** [!s] on a string: true exactly on the empty string. *)
Definition str_falsy (s : string) : bool := String.eqb s "".

Notation "'!ₛ' s" := (str_falsy s) (at level 35, right associativity) : bank_scope.

(** [String.prototype.toLowerCase] on ASCII letters. *)
Definition lower_ascii (c : ascii) : ascii :=
  let n := nat_of_ascii c in
  if (65 <=? n)%nat && (n <=? 90)%nat then ascii_of_nat (n + 32) else c.

Fixpoint to_lower (s : string) : string :=
  match s with
  | EmptyString => EmptyString
  | String c s' => String (lower_ascii c) (to_lower s')
  end.

(** [String.prototype.includes]: [sub] occurs at some position of [s]. *)
Fixpoint includes (s sub : string) : bool :=
  String.prefix sub s ||
  match s with
  | EmptyString => false
  | String _ s' => includes s' sub
  end.

(** [arr.reduce((sum, x) => sum + f x, 0)] *)
Definition reduce_sum {A} (f : A -> Z) (l : list A) : Z :=
  fold_left (fun acc x => acc + f x) l 0.

Create HintDb bank.
Create Rewrite HintDb bank_rw.

(** ** Generic lemmas *)

Lemma str_falsy_true s : str_falsy s = true <-> s = ""%string.
Proof. unfold str_falsy. apply String.eqb_eq. Qed.

Lemma str_falsy_false s : str_falsy s = false <-> s <> ""%string.
Proof. unfold str_falsy. rewrite <- String.eqb_eq. destruct (String.eqb s ""); intuition congruence. Qed.

Lemma lower_ascii_idem c : lower_ascii (lower_ascii c) = lower_ascii c.
Proof. destruct c as [[] [] [] [] [] [] [] []]; reflexivity. Qed.

Lemma to_lower_idem s : to_lower (to_lower s) = to_lower s.
Proof. induction s as [|c s IH]; [reflexivity|]. simpl. rewrite lower_ascii_idem, IH. reflexivity. Qed.

Lemma str_falsy_to_lower s : str_falsy (to_lower s) = str_falsy s.
Proof. destruct s; reflexivity. Qed.

Lemma prefix_empty s : String.prefix "" s = true.
Proof. destruct s; reflexivity. Qed.

Lemma includes_empty s : includes s "" = true.
Proof. destruct s; reflexivity. Qed.

Lemma prefix_refl s : String.prefix s s = true.
Proof.
  induction s as [|c s IH]; [reflexivity|]. simpl.
  destruct (ascii_dec c c); [exact IH|congruence].
Qed.

Lemma includes_refl s : includes s s = true.
Proof. destruct s; [reflexivity|]. cbn [includes]. rewrite prefix_refl. reflexivity. Qed.

Lemma string_app_assoc (a b c : string) : (a +:+ b) +:+ c = a +:+ (b +:+ c).
Proof. induction a as [|x a IH]; [reflexivity|exact (f_equal (String x) IH)]. Qed.

Lemma string_app_nil_r (a : string) : a +:+ "" = a.
Proof. induction a as [|x a IH]; [reflexivity|exact (f_equal (String x) IH)]. Qed.

Lemma fold_left_add_shift {A} (f : A -> Z) l a :
  fold_left (fun acc x => acc + f x) l a = a + fold_left (fun acc x => acc + f x) l 0.
Proof.
  revert a. induction l as [|x l IH]; intros a; simpl; [lia|].
  rewrite (IH (a + f x)), (IH (0 + f x)). lia.
Qed.

Lemma reduce_sum_nil {A} (f : A -> Z) : reduce_sum f [] = 0.
Proof. reflexivity. Qed.

Lemma reduce_sum_cons {A} (f : A -> Z) x l :
  reduce_sum f (x :: l) = f x + reduce_sum f l.
Proof. unfold reduce_sum. simpl. rewrite fold_left_add_shift. lia. Qed.

Lemma reduce_sum_app {A} (f : A -> Z) l1 l2 :
  reduce_sum f (l1 ++ l2) = reduce_sum f l1 + reduce_sum f l2.
Proof.
  induction l1 as [|x l1 IH]; simpl; [reflexivity|].
  rewrite !reduce_sum_cons, IH. lia.
Qed.

Lemma reduce_sum_nonneg {A} (f : A -> Z) l :
  Forall (fun x => 0 <= f x) l -> 0 <= reduce_sum f l.
Proof.
  induction 1; [reflexivity|]. rewrite reduce_sum_cons. lia.
Qed.

Lemma reduce_sum_ext {A} (f g : A -> Z) l :
  (forall x, x ∈ l -> f x = g x) -> reduce_sum f l = reduce_sum g l.
Proof.
  induction l as [|x l IH]; intros H; [reflexivity|].
  rewrite !reduce_sum_cons, (H x), IH; [reflexivity| |]; set_solver.
Qed.

#[export] Instance reduce_sum_perm {A} (f : A -> Z) :
  Proper ((≡ₚ) ==> eq) (reduce_sum f).
Proof.
  intros l1 l2 Hp. induction Hp; rewrite ?reduce_sum_cons; lia.
Qed.

Lemma sublist_List_filter {A} (f : A -> bool) (l : list A) : sublist (List.filter f l) l.
Proof.
  induction l as [|x l IH]; simpl; [constructor|].
  destruct (f x); [apply sublist_skip|apply sublist_cons]; exact IH.
Qed.

Lemma elem_of_List_filter {A} (f : A -> bool) (l : list A) x :
  x ∈ List.filter f l <-> x ∈ l /\ f x = true.
Proof. rewrite !list_elem_of_In. apply filter_In. Qed.

(** The search getters of the pages: the whole list on an empty search
    box, otherwise the items the test accepts for the lower-cased text. *)
Lemma search_filter_spec {A} (test : string -> A -> bool) (b : string) (l : list A) :
  let r b := if str_falsy b then l else List.filter (test (to_lower b)) l in
  sublist (r b) l /\ (b = ""%string -> r b = l) /\
  (b <> ""%string -> forall x, x ∈ r b <-> x ∈ l /\ test (to_lower b) x = true) /\
  r (to_lower b) = r b.
Proof.
  intros r. unfold r. split; [|split; [|split]].
  - destruct (str_falsy b); [reflexivity|apply sublist_List_filter].
  - intros ->. reflexivity.
  - intros E x. apply str_falsy_false in E. rewrite E. apply elem_of_List_filter.
  - rewrite str_falsy_to_lower, to_lower_idem. reflexivity.
Qed.

#[export] Hint Resolve sublist_List_filter : bank.

#[export] Hint Rewrite @reduce_sum_nil @reduce_sum_cons @reduce_sum_app : bank_rw.
#[export] Hint Resolve includes_empty includes_refl prefix_empty : bank.

(** [bank_simp] rewrites with the database and closes arithmetic. *)
Ltac bank_simp := autorewrite with bank_rw in *; try lia.
