(* ===== verification/Loading.v ===== *)
(** The global loading indicator: [services/loading.service.ts].

    [LoadingIndicator] is the interface the HTTP layer ([Page.v]) relies on:
    an indicator that is started and finished once per request and is
    visible or not.  [LoadingIndicatorLaws] states what a client may assume:
    on well-formed states the indicator counts the started and unfinished
    requests and is visible exactly when that count is positive.

    [LoadingService] is the class of the source: the private field
    [loadingCount] and the signal [isLoading], with [show], [hide] and
    [reset].  [Spec] is the abstract counter it refines. *)

From S2P Require Import Prelude.

Class LoadingIndicator (T : Type) := {
  li_init : T;
  li_show : T -> T;
  li_hide : T -> T;
  li_visible : T -> bool
}.

Class LoadingIndicatorLaws (T : Type) `{!LoadingIndicator T} := {
  li_wf : T -> Prop;
  li_level : T -> nat;
  li_wf_init : li_wf li_init;
  li_level_init : li_level li_init = 0%nat;
  li_wf_show s : li_wf s -> li_wf (li_show s);
  li_wf_hide s : li_wf s -> li_wf (li_hide s);
  li_level_show s : li_wf s -> li_level (li_show s) = S (li_level s);
  li_level_hide s : li_wf s -> li_level (li_hide s) = pred (li_level s);
  li_visible_level s : li_wf s -> li_visible s = bool_decide (0 < li_level s)%nat
}.

(** The operations a client of the service can call, in sequence. *)
Inductive op := OShow | OHide | OReset.

(** ** The abstract specification: a counter of requests in flight *)
Module Spec.
Definition t := nat.
Definition init : t := 0%nat.
Definition show (n : t) : t := S n.
Definition hide (n : t) : t := pred n.
Definition reset (n : t) : t := 0%nat.
Definition visible (n : t) : bool := bool_decide (0 < n)%nat.
Definition step (o : op) (n : t) : t :=
  match o with OShow => show n | OHide => hide n | OReset => reset n end.
Definition run (os : list op) (n : t) : t := fold_left (fun n o => step o n) os n.
End Spec.

Module LoadingService.

Record t := mkLoading {
  loadingCount : Z;
  isLoading : bool
}.

(** [private loadingCount = 0; public isLoading = signal<boolean>(false);] *)
Definition init : t := mkLoading 0 false.

(** [this.loadingCount++; this.isLoading.set(true);] *)
Definition show (s : t) : t := mkLoading (loadingCount s + 1) true.

(** [this.loadingCount--; if (this.loadingCount <= 0) { ... = 0; set(false) }] *)
Definition hide (s : t) : t :=
  let c := loadingCount s - 1 in
  if c <=? 0 then mkLoading 0 false else mkLoading c (isLoading s).

(** [this.loadingCount = 0; this.isLoading.set(false);] *)
Definition reset (s : t) : t := mkLoading 0 false.

Definition step (o : op) (s : t) : t :=
  match o with OShow => show s | OHide => hide s | OReset => reset s end.

Definition run (os : list op) (s : t) : t := fold_left (fun s o => step o s) os s.

(** The invariant: the count is non-negative and the signal is its sign. *)
Definition wf (s : t) : Prop :=
  0 <= loadingCount s /\ isLoading s = bool_decide (0 < loadingCount s).

#[export] Instance wf_dec s : Decision (wf s).
Proof. unfold wf. apply _. Defined.

(** The abstraction function to [Spec]. *)
Definition abs (s : t) : Spec.t := Z.to_nat (loadingCount s).

Lemma show_wf s : wf s -> wf (show s).
Proof.
  intros [H1 H2]. unfold wf, show; simpl. split; [lia|].
  rewrite bool_decide_true; [reflexivity|lia].
Qed.

Lemma hide_wf s : wf s -> wf (hide s).
Proof.
  intros [H1 H2]. unfold wf, hide; cbv zeta.
  destruct (Z.leb_spec (loadingCount s - 1) 0); simpl.
  - split; [lia|]. reflexivity.
  - split; [lia|]. rewrite H2. apply bool_decide_ext. lia.
Qed.

Lemma reset_wf s : wf (reset s).
Proof. split; [simpl; lia|reflexivity]. Qed.

Lemma init_wf : wf init.
Proof. split; [simpl; lia|reflexivity]. Qed.

Lemma step_wf o s : wf s -> wf (step o s).
Proof. destruct o; [apply show_wf|apply hide_wf|intros; apply reset_wf]. Qed.

Lemma run_wf os s : wf s -> wf (run os s).
Proof.
  revert s. induction os as [|o os IH]; intros s Hs; simpl; [exact Hs|].
  apply IH, step_wf, Hs.
Qed.

Lemma abs_show s : wf s -> abs (show s) = Spec.show (abs s).
Proof. intros [H _]. unfold abs, show, Spec.show; simpl. lia. Qed.

Lemma abs_hide s : wf s -> abs (hide s) = Spec.hide (abs s).
Proof.
  intros [H _]. unfold abs, hide, Spec.hide; cbv zeta.
  destruct (Z.leb_spec (loadingCount s - 1) 0); simpl; lia.
Qed.

Lemma visible_abs s : wf s -> isLoading s = Spec.visible (abs s).
Proof.
  intros [H1 H2]. rewrite H2. unfold Spec.visible, abs.
  apply bool_decide_ext. lia.
Qed.

#[export] Instance indicator : LoadingIndicator t := {|
  li_init := init; li_show := show; li_hide := hide; li_visible := isLoading
|}.

#[export] Instance indicator_laws : LoadingIndicatorLaws t := {|
  li_wf := wf; li_level := abs;
  li_wf_init := init_wf; li_wf_show := show_wf; li_wf_hide := hide_wf;
  li_level_init := eq_refl;
  li_level_show := abs_show; li_level_hide := abs_hide;
  li_visible_level := visible_abs
|}.

Lemma abs_step o s : wf s -> abs (step o s) = Spec.step o (abs s).
Proof. destruct o; [apply abs_show|apply abs_hide|reflexivity]. Qed.

Lemma abs_run os s : wf s -> abs (run os s) = Spec.run os (abs s).
Proof.
  revert s. induction os as [|o os IH]; intros s Hs; [reflexivity|]. simpl.
  rewrite IH by (apply step_wf, Hs). rewrite abs_step by exact Hs. reflexivity.
Qed.

Lemma iter_show_wf n s : wf s -> wf (Nat.iter n show s).
Proof. intros Hs. induction n; [exact Hs|apply show_wf; exact IHn]. Qed.

Lemma iter_hide_wf k s : wf s -> wf (Nat.iter k hide s).
Proof. intros Hs. induction k; [exact Hs|apply hide_wf; exact IHk]. Qed.

Lemma abs_iter_show n s : wf s -> abs (Nat.iter n show s) = (n + abs s)%nat.
Proof.
  intros Hs. induction n as [|n IH]; [reflexivity|]. simpl.
  rewrite abs_show, IH by (apply iter_show_wf, Hs). reflexivity.
Qed.

Lemma abs_iter_hide k s : wf s -> abs (Nat.iter k hide s) = (abs s - k)%nat.
Proof.
  intros Hs. induction k as [|k IH]; [simpl; lia|]. simpl.
  rewrite abs_hide, IH by (apply iter_hide_wf, Hs). unfold Spec.hide. lia.
Qed.

(** ** Properties *)

(** C1: every state the service reaches from its initial state, through
    any sequence of [show], [hide] and [reset], satisfies the invariant:
    the counter is non-negative and [isLoading] is true exactly when it is
    positive. *)
Theorem reachable_wf (os : list op) : wf (run os init).
Proof. apply run_wf, init_wf. Qed.

(** C2: [LoadingService] refines the abstract counter: from a well-formed
    state, running any sequence of operations changes the count as the
    abstract counter does, and the signal is the abstract visibility. *)
Theorem loading_refines_spec (os : list op) (s : t) :
  wf s ->
  abs (run os s) = Spec.run os (abs s) /\
  isLoading (run os s) = Spec.visible (Spec.run os (abs s)).
Proof.
  intros Hs. rewrite <- abs_run by exact Hs. split; [reflexivity|].
  apply visible_abs, run_wf, Hs.
Qed.

Lemma loading_refines_spec_witness :
  wf init /\
  abs (run [OShow; OShow; OHide] init) = Spec.run [OShow; OShow; OHide] (abs init) /\
  isLoading (run [OShow; OShow; OHide] init) = true.
Proof.
  split; [apply init_wf|].
  destruct (loading_refines_spec [OShow; OShow; OHide] init init_wf) as [H1 H2].
  split; [exact H1|]. rewrite H2. reflexivity.
Defined.

(** C3: overlapping requests.  From a well-formed state, after [n] calls
    to [show] and then [k] calls to [hide], the indicator is visible
    exactly when fewer than [n] plus the requests already counted have
    finished: it stays visible until the last request in flight ends. *)
Theorem overlapping_requests (s : t) (n k : nat) :
  wf s ->
  isLoading (Nat.iter k hide (Nat.iter n show s)) = bool_decide (k < n + abs s)%nat.
Proof.
  intros Hs.
  rewrite visible_abs by (apply iter_hide_wf, iter_show_wf, Hs).
  rewrite abs_iter_hide, abs_iter_show by (apply Hs || apply iter_show_wf, Hs).
  unfold Spec.visible. apply bool_decide_ext. lia.
Qed.

Lemma overlapping_requests_witness :
  wf init /\
  isLoading (Nat.iter 1 hide (Nat.iter 2 show init)) = true /\
  isLoading (Nat.iter 2 hide (Nat.iter 2 show init)) = false.
Proof.
  split; [apply init_wf|].
  rewrite !(overlapping_requests init 2) by apply init_wf.
  split; reflexivity.
Defined.

(** C4: [hide] never leaves the counter negative, whatever the state it
    is called in (an unmatched [hide] is absorbed at zero), and [reset]
    hides the indicator unconditionally. *)
Theorem hide_nonneg (s : t) :
  0 <= loadingCount (hide s) /\ isLoading (reset s) = false.
Proof.
  split; [|reflexivity]. unfold hide; cbv zeta.
  destruct (Z.leb_spec (loadingCount s - 1) 0); simpl; lia.
Qed.

End LoadingService.

(** ** [components/shared/loading-spinner.component.ts]

    The spinner's template: [@if (loadingService.isLoading())] renders the
    overlay with the text "Cargando...", otherwise nothing. *)
Module LoadingSpinnerComponent.

Definition overlay (l : LoadingService.t) : option string :=
  if LoadingService.isLoading l then Some "Cargando..." else None.

Lemma overlay_shown l :
  LoadingService.wf l -> overlay l = Some "Cargando..."%string <-> 0 < LoadingService.loadingCount l.
Proof.
  intros [_ H]. unfold overlay. rewrite H.
  case_bool_decide; split; intros; try done; lia.
Qed.

End LoadingSpinnerComponent.
