(* ===== verification/Routes.v ===== *)
(** [app.routes.ts] and [components/home/home.component.ts]: navigation.

    The router matches the URL, split into its path segments, against the
    route table in order and takes the first route that matches:
    - a route with path [''] and [pathMatch: 'full'] matches the empty URL;
    - a route with a one-segment path and no children matches exactly that
      one segment (a longer URL is consumed only in part, and a route
      without children cannot consume the rest, so it does not match);
    - the wildcard [**] matches every URL.
    A [redirectTo] with an absolute target ([/home]) restarts the matching
    on the target.  [navigate] follows at most [fuel] redirects; each
    redirect of this table leads to a component route, so two rounds are
    enough for every URL (C33).

    [HomeComponent] has only its [features] array: the cards of the home
    page with their [routerLink]s; [AppComponent] only its [title]. *)

From S2P Require Import Prelude.

Open Scope Z_scope.

Module Routes.

(** The components the router can display. *)
Inductive page := PHome | PClientes | PCuentas | PMovimientos | PReportes.

#[export] Instance page_eq_dec : EqDecision page.
Proof. solve_decision. Defined.

Inductive target :=
  | RedirectTo (url : string)
  | ComponentRoute (p : page).

Record route := mkRoute { r_path : string; r_full : bool; r_target : target }.

(** [export const routes: Routes = [...]] *)
Definition routes : list route := [
  mkRoute "" true (RedirectTo "/home");
  mkRoute "home" false (ComponentRoute PHome);
  mkRoute "clientes" false (ComponentRoute PClientes);
  mkRoute "cuentas" false (ComponentRoute PCuentas);
  mkRoute "movimientos" false (ComponentRoute PMovimientos);
  mkRoute "reportes" false (ComponentRoute PReportes);
  mkRoute "**" false (RedirectTo "/home")
].

(** The segments of a URL path: the pieces between slashes, empty pieces
    dropped ([/a//b/] is [a], [b]). *)
Fixpoint split_aux (cur : string) (s : string) : list string :=
  match s with
  | EmptyString => if String.eqb cur "" then [] else [cur]
  | String c s' =>
      if Ascii.eqb c "/"%char then (if String.eqb cur "" then [] else [cur]) ++ split_aux "" s'
      else split_aux (cur +:+ String c "") s'
  end.

Definition segments (url : string) : list string := split_aux "" url.

(** Does route [r] match the URL [segs] as a whole? *)
Definition matches (r : route) (segs : list string) : bool :=
  if String.eqb (r_path r) "**" then true
  else if String.eqb (r_path r) "" then
    (if r_full r then bool_decide (segs = []) else true)
  else bool_decide (segs = [r_path r]).

Fixpoint first_match (rs : list route) (segs : list string) : option target :=
  match rs with
  | [] => None
  | r :: rs' => if matches r segs then Some (r_target r) else first_match rs' segs
  end.

(** Resolve [segs], following at most [fuel] redirects. *)
Fixpoint navigate (fuel : nat) (segs : list string) : option page :=
  match fuel with
  | O => None
  | S fuel' =>
      match first_match routes segs with
      | Some (ComponentRoute p) => Some p
      | Some (RedirectTo url) => navigate fuel' (segments url)
      | None => None
      end
  end.

(** The path of each page's route. *)
Definition page_path (p : page) : string :=
  match p with
  | PHome => "home" | PClientes => "clientes" | PCuentas => "cuentas"
  | PMovimientos => "movimientos" | PReportes => "reportes"
  end.

(** ** Lemmas *)

Lemma first_match_routes segs :
  (exists p, first_match routes segs = Some (ComponentRoute p)) \/
  first_match routes segs = Some (RedirectTo "/home").
Proof.
  unfold first_match, routes, matches. cbn [r_path r_full r_target String.eqb Ascii.eqb Bool.eqb].
  repeat (case_bool_decide; [eauto|]). right. reflexivity.
Qed.

Lemma first_match_other segs :
  (forall p, segs <> [page_path p]) -> first_match routes segs = Some (RedirectTo "/home").
Proof.
  intros Hne. unfold first_match, routes, matches.
  cbn [r_path r_full r_target String.eqb Ascii.eqb Bool.eqb].
  destruct (bool_decide (segs = [])); [reflexivity|].
  rewrite (bool_decide_false _ (Hne PHome)), (bool_decide_false _ (Hne PClientes)),
    (bool_decide_false _ (Hne PCuentas)), (bool_decide_false _ (Hne PMovimientos)),
    (bool_decide_false _ (Hne PReportes)).
  reflexivity.
Qed.

Lemma navigate_home n : navigate (S (S n)) ["home"] = Some PHome.
Proof. reflexivity. Qed.

(** ** Properties *)

(** C33: navigation terminates on every URL.  Two rounds of matching
    resolve any URL to a page, and more fuel changes nothing: the empty URL
    and every URL no component route matches redirect to the home page,
    and each page's own path displays that page. *)
Theorem navigate_total (segs : list string) (n : nat) :
  (2 <= n)%nat ->
  navigate n segs = navigate 2 segs /\ navigate 2 segs <> None /\
  ((forall p, segs <> [page_path p]) -> navigate 2 segs = Some PHome) /\
  (forall p, navigate 2 [page_path p] = Some p).
Proof.
  intros Hn. destruct n as [|[|n]]; [lia|lia|].
  split; [|split; [|split]].
  - cbn [navigate]. destruct (first_match_routes segs) as [[p ->] | ->]; reflexivity.
  - cbn [navigate]. destruct (first_match_routes segs) as [[p ->] | ->]; discriminate.
  - intros Hne. cbn [navigate]. rewrite first_match_other by exact Hne. reflexivity.
  - intros []; reflexivity.
Qed.

Lemma navigate_total_witness :
  (2 <= 5)%nat /\ navigate 5 (segments "/transferencias") = Some PHome.
Proof.
  split; [lia|].
  destruct (navigate_total (segments "/transferencias") 5) as (-> & _ & Hh & _); [lia|].
  apply Hh. intros []; discriminate.
Defined.

End Routes.

Module HomeComponent.
Import Routes.

Record feature := mkFeature { icon : string; title : string; description : string; link : string }.

(** [features = [...]] *)
Definition features : list feature := [
  mkFeature "group" "Clientes" "Gestiona la información de tus clientes de manera eficiente" "/clientes";
  mkFeature "account_balance" "Cuentas" "Administra cuentas de ahorro y corrientes" "/cuentas";
  mkFeature "swap_horiz" "Movimientos" "Realiza depósitos y retiros con control de límites" "/movimientos";
  mkFeature "assessment" "Reportes" "Genera reportes detallados y exporta a PDF" "/reportes"
].

(** The page each card is about, by its title. *)
Definition page_of_title (t : string) : option page :=
  if String.eqb t "Clientes" then Some PClientes
  else if String.eqb t "Cuentas" then Some PCuentas
  else if String.eqb t "Movimientos" then Some PMovimientos
  else if String.eqb t "Reportes" then Some PReportes
  else None.

(** Every card of the home page links to its page.  For each
    feature of [HomeComponent], its title names a page and its
    [routerLink], split and resolved by the router, displays that page. *)
Theorem features_link_to_pages :
  Forall (fun f => exists p, page_of_title (title f) = Some p /\
                           navigate 2 (segments (link f)) = Some p) features.
Proof. repeat constructor; eexists; split; reflexivity. Qed.

End HomeComponent.

(** [AppComponent]: the shell of the application.  Its class has one
    field; its template (navigation links, [router-outlet], the spinner)
    is not under [src/]. *)
Module AppComponent.

Record t := mkAppComponent { title : string }.

(** [title = 'Sistema Bancario'] *)
Definition init : t := mkAppComponent "Sistema Bancario".

End AppComponent.
