(* ===== verification/Models.v ===== *)
(** The data model: [models/models.ts] and the JavaScript values the
    components send and receive.

    Each TypeScript interface is a Record with the same field names.  An
    optional property ([clienteId?], [id?], [fecha?], [saldo?],
    [clienteNombre?]) is an [option]: [None] is the absent key.  The
    property [contrasena] of [Cliente] is typed [string] in the source, but
    [ClientesComponent.guardarCliente] deletes it from the object it sends
    ([delete (clienteActualizado as any).contrasena]), so at run time it can
    be absent too: it is an [option string] here.

    [jsval] and [jsobj] model the flat JSON objects that [HttpClient] sends
    as request bodies ([JSON.stringify] of the object, keys in insertion
    order, absent keys omitted) and the bodies of error responses. *)

From S2P Require Import Prelude.
From stdpp Require Import pretty.

Inductive jsval :=
  | JStr (s : string)
  | JNum (n : Z)
  | JBool (b : bool)
  | JNull.

#[export] Instance jsval_eq_dec : EqDecision jsval.
Proof. solve_decision. Defined.

Definition jsobj := list (string * jsval).

(** Property read [o.k]: the first binding of [k], [None] for [undefined]. *)
Fixpoint obj_get (o : jsobj) (k : string) : option jsval :=
  match o with
  | [] => None
  | (k', v) :: o' => if String.eqb k k' then Some v else obj_get o' k
  end.

(** [delete o.k] *)
Definition obj_delete (o : jsobj) (k : string) : jsobj :=
  List.filter (fun kv => negb (String.eqb k kv.1)) o.

(** Truthiness of a JavaScript value ([undefined] is [None]). *)
Definition js_truthy (v : option jsval) : bool :=
  match v with
  | Some (JStr s) => negb (str_falsy s)
  | Some (JNum n) => negb (Z.eqb n 0)
  | Some (JBool b) => b
  | Some JNull | None => false
  end.

(** [`${v}`]: the string conversion of a value in a template literal. *)
Definition js_to_string (v : option jsval) : string :=
  match v with
  | Some (JStr s) => s
  | Some (JNum n) => pretty n
  | Some (JBool b) => if b then "true" else "false"
  | Some JNull => "null"
  | None => "undefined"
  end.

(** Optional keys are written only when present. *)
Definition opt_field {A} (k : string) (f : A -> jsval) (o : option A) : jsobj :=
  match o with Some x => [(k, f x)] | None => [] end.

(** [interface Cliente] *)
Record Cliente := mkCliente {
  clienteId : option Z;
  nombre : string;
  genero : string;
  edad : Z;
  identificacion : string;
  direccion : string;
  telefono : string;
  contrasena : option string;
  estado : bool
}.

(** [interface Cuenta] *)
Record Cuenta := mkCuenta {
  id : option Z;
  numeroCuenta : string;
  tipoCuenta : string;
  saldoInicial : Z;
  cuenta_estado : bool;
  cuenta_clienteId : Z;
  clienteNombre : option string
}.

(** [interface Movimiento] *)
Record Movimiento := mkMovimiento {
  mov_id : option Z;
  fecha : option string;
  tipoMovimiento : string;
  valor : Z;
  saldo : option Z;
  mov_numeroCuenta : string
}.

(** [interface ReporteMovimiento] *)
Record ReporteMovimiento := mkReporte {
  rep_fecha : string;
  cliente : string;
  rep_numeroCuenta : string;
  tipo : string;
  rep_saldoInicial : Z;
  rep_estado : bool;
  movimiento : Z;
  saldoDisponible : Z
}.

(** Field names shared by several interfaces carry a prefix ([cuenta_],
    [mov_], [rep_]) because Rocq record projections share one namespace;
    the JSON keys below are the source's names. *)

Definition cliente_obj (c : Cliente) : jsobj :=
  opt_field "clienteId" JNum (clienteId c) ++
  [("nombre", JStr (nombre c)); ("genero", JStr (genero c));
   ("edad", JNum (edad c)); ("identificacion", JStr (identificacion c));
   ("direccion", JStr (direccion c)); ("telefono", JStr (telefono c))] ++
  opt_field "contrasena" JStr (contrasena c) ++
  [("estado", JBool (estado c))].

Definition cuenta_obj (c : Cuenta) : jsobj :=
  opt_field "id" JNum (id c) ++
  [("numeroCuenta", JStr (numeroCuenta c)); ("tipoCuenta", JStr (tipoCuenta c));
   ("saldoInicial", JNum (saldoInicial c)); ("estado", JBool (cuenta_estado c));
   ("clienteId", JNum (cuenta_clienteId c))] ++
  opt_field "clienteNombre" JStr (clienteNombre c).

Definition movimiento_obj (m : Movimiento) : jsobj :=
  opt_field "id" JNum (mov_id m) ++ opt_field "fecha" JStr (fecha m) ++
  [("tipoMovimiento", JStr (tipoMovimiento m)); ("valor", JNum (valor m))] ++
  opt_field "saldo" JNum (saldo m) ++
  [("numeroCuenta", JStr (mov_numeroCuenta m))].

(** ** Lemmas on objects *)

Lemma obj_get_app o1 o2 k :
  obj_get (o1 ++ o2) k = match obj_get o1 k with Some v => Some v | None => obj_get o2 k end.
Proof.
  induction o1 as [|[k' v] o1 IH]; [reflexivity|]. simpl.
  destruct (String.eqb k k'); [reflexivity|exact IH].
Qed.

Lemma obj_get_delete_eq o k : obj_get (obj_delete o k) k = None.
Proof.
  induction o as [|[k' v] o IH]; [reflexivity|]. unfold obj_delete. simpl.
  destruct (String.eqb k k') eqn:E; simpl; [exact IH|]. rewrite E. exact IH.
Qed.

Lemma obj_get_delete_ne o k k' : k <> k' -> obj_get (obj_delete o k) k' = obj_get o k'.
Proof.
  intros Hne. induction o as [|[k'' v] o IH]; [reflexivity|]. unfold obj_delete. simpl.
  destruct (String.eqb k k'') eqn:E; simpl.
  - apply String.eqb_eq in E. subst k''.
    destruct (String.eqb_spec k' k); [congruence|exact IH].
  - destruct (String.eqb k' k''); [reflexivity|exact IH].
Qed.

Lemma opt_field_get_other {A} k k' (f : A -> jsval) o :
  k <> k' -> obj_get (opt_field k f o) k' = None.
Proof.
  intros Hne. destruct o; simpl; [|reflexivity].
  destruct (String.eqb_spec k' k); congruence.
Qed.

#[export] Hint Rewrite obj_get_app obj_get_delete_eq : bank_rw.
