(* ===== verification/Api.v ===== *)
(** [services/api.service.ts]: the HTTP client wrapper.

    Each method of [ApiService] builds one request: a method, a URL under
    [baseUrl = '/api'], query parameters and a JSON body.  The response
    type is a phantom index, as in [this.http.get<Cliente[]>(...)]: the
    type parameter is not checked at run time, the backend may answer any
    value, and the page model in [Page.v] lets it.  Path ids are printed
    with [`${id}`], which is stdpp's [pretty] on [Z]. *)

From S2P Require Import Prelude Models.
From stdpp Require Import pretty.

Inductive http_method := GET | POST | PUT | DELETE.

#[export] Instance http_method_eq_dec : EqDecision http_method.
Proof. solve_decision. Defined.

Record http_request := mkRequest {
  req_method : http_method;
  req_url : string;
  req_params : list (string * string);
  req_body : option jsobj
}.

(** A request whose response the caller reads at type [A]. *)
Record api_call (A : Type) := mkCall { call_request : http_request }.
Arguments mkCall {A} _.
Arguments call_request {A} _.

Module ApiService.

Definition baseUrl : string := "/api".

Definition get_ {A} (path : string) : api_call A :=
  mkCall (mkRequest GET (baseUrl +:+ path) [] None).

(** ==================== CLIENTES ==================== *)
Definition getClientes : api_call (list Cliente) := get_ "/clientes".
Definition getCliente (i : Z) : api_call Cliente := get_ ("/clientes/" +:+ pretty i).
Definition createCliente (c : Cliente) : api_call Cliente :=
  mkCall (mkRequest POST (baseUrl +:+ "/clientes") [] (Some (cliente_obj c))).
Definition updateCliente (i : Z) (c : Cliente) : api_call Cliente :=
  mkCall (mkRequest PUT (baseUrl +:+ "/clientes/" +:+ pretty i) [] (Some (cliente_obj c))).
Definition deleteCliente (i : Z) : api_call unit :=
  mkCall (mkRequest DELETE (baseUrl +:+ "/clientes/" +:+ pretty i) [] None).

(** ==================== CUENTAS ==================== *)
Definition getCuentas : api_call (list Cuenta) := get_ "/cuentas".
Definition getCuenta (i : Z) : api_call Cuenta := get_ ("/cuentas/" +:+ pretty i).
Definition getCuentasByCliente (clienteId : Z) : api_call (list Cuenta) :=
  get_ ("/cuentas/cliente/" +:+ pretty clienteId).
Definition createCuenta (c : Cuenta) : api_call Cuenta :=
  mkCall (mkRequest POST (baseUrl +:+ "/cuentas") [] (Some (cuenta_obj c))).
Definition updateCuenta (i : Z) (c : Cuenta) : api_call Cuenta :=
  mkCall (mkRequest PUT (baseUrl +:+ "/cuentas/" +:+ pretty i) [] (Some (cuenta_obj c))).
Definition deleteCuenta (i : Z) : api_call unit :=
  mkCall (mkRequest DELETE (baseUrl +:+ "/cuentas/" +:+ pretty i) [] None).

(** ==================== MOVIMIENTOS ==================== *)
Definition getMovimientos : api_call (list Movimiento) := get_ "/movimientos".
Definition getMovimiento (i : Z) : api_call Movimiento := get_ ("/movimientos/" +:+ pretty i).
Definition getMovimientosByCuenta (cuentaId : Z) : api_call (list Movimiento) :=
  get_ ("/movimientos/cuenta/" +:+ pretty cuentaId).
Definition createMovimiento (m : Movimiento) : api_call Movimiento :=
  mkCall (mkRequest POST (baseUrl +:+ "/movimientos") [] (Some (movimiento_obj m))).
Definition updateMovimiento (i : Z) (m : Movimiento) : api_call Movimiento :=
  mkCall (mkRequest PUT (baseUrl +:+ "/movimientos/" +:+ pretty i) [] (Some (movimiento_obj m))).
Definition deleteMovimiento (i : Z) : api_call unit :=
  mkCall (mkRequest DELETE (baseUrl +:+ "/movimientos/" +:+ pretty i) [] None).

(** ==================== REPORTES ==================== *)
Definition getReporte (clienteId : Z) (fechaInicio fechaFin : string)
  : api_call (list ReporteMovimiento) :=
  mkCall (mkRequest GET (baseUrl +:+ "/reportes")
    [("clienteId", pretty clienteId); ("fechaInicio", fechaInicio); ("fechaFin", fechaFin)]
    None).

End ApiService.

(** ** Lemmas *)

Lemma append_inj_l (p s1 s2 : string) : p +:+ s1 = p +:+ s2 -> s1 = s2.
Proof.
  induction p as [|c p IH]; intros H; [exact H|].
  apply IH. simpl in H. injection H as H. exact H.
Qed.
