(* ===== verification/ErrorInterceptor.v ===== *)
(** [interceptors/error.interceptor.ts]: normalisation of failed requests.

    An [HttpErrorResponse] carries the status, the transport message
    ([error.message], e.g. "Http failure response for ...") and the body
    [error.error].  The body is an [ErrorEvent] for a failure raised on the
    client side, the parsed JSON object of an error response, a text body,
    or [null].  The interceptor rethrows [{status, message, error}] where
    [message] is ["Error: " + the event's message] for an [ErrorEvent] and
    otherwise [error.error?.message || error.message], converted to a
    string.  The [console.error] call is output only and is not modelled. *)

From S2P Require Import Prelude Models.

Inductive err_body :=
  | ErrorEventBody (message : string)
  | ObjectBody (o : jsobj)
  | TextBody (s : string)
  | NullBody.

Record HttpErrorResponse := mkHttpError {
  status : Z;
  error : err_body;
  message : string;
  url : option string
}.

(** The value the interceptor rethrows. *)
Record NormalizedError := mkNormalized {
  n_status : Z;
  n_message : string;
  n_error : err_body
}.

(** [error.error?.message]: the [message] property of the body, [undefined]
    for [null] and for a string (a primitive string has no such property). *)
Definition body_message (b : err_body) : option jsval :=
  match b with
  | ErrorEventBody m => Some (JStr m)
  | ObjectBody o => obj_get o "message"
  | TextBody _ | NullBody => None
  end.

(** The [catchError] handler of [errorInterceptor]. *)
Definition errorInterceptor (e : HttpErrorResponse) : NormalizedError :=
  let errorMessage :=
    match error e with
    | ErrorEventBody m => "Error: " +:+ m
    | b =>
        let backendMessage := body_message b in
        if js_truthy backendMessage then js_to_string backendMessage else message e
    end in
  mkNormalized (status e) errorMessage (error e).

(** [error.error.message] read by the view-models' error callbacks on the
    normalised error: [None] when [error.error] is [null], where the read
    throws a [TypeError]. *)
Definition raw_error_message (n : NormalizedError) : option string :=
  match n_error n with
  | NullBody => None
  | b => Some (js_to_string (body_message b))
  end.

(** C5: the interceptor's normalisation on each kind of failure: a
    client-side [ErrorEvent] becomes ["Error: " + its message]; a server
    response whose body has a non-empty string [message] yields that
    message; a failure whose body has no truthy [message] falls back to the
    transport message.  The status and the original body are passed on
    unchanged. *)
Theorem errorInterceptor_spec (e : HttpErrorResponse) :
  n_status (errorInterceptor e) = status e /\
  n_error (errorInterceptor e) = error e /\
  (forall m, error e = ErrorEventBody m -> n_message (errorInterceptor e) = "Error: " +:+ m) /\
  (forall o s, error e = ObjectBody o -> obj_get o "message" = Some (JStr s) ->
     s <> ""%string -> n_message (errorInterceptor e) = s) /\
  ((forall m, error e <> ErrorEventBody m) -> js_truthy (body_message (error e)) = false ->
     n_message (errorInterceptor e) = message e).
Proof.
  destruct e as [st b msg u]; unfold errorInterceptor; simpl.
  split; [reflexivity|]. split; [reflexivity|].
  split; [intros m ->; reflexivity|]. split.
  - intros o s -> Hget Hne. simpl. rewrite Hget. simpl.
    apply str_falsy_false in Hne. rewrite Hne. reflexivity.
  - intros Hnot Hfalse. destruct b as [m| | |]; [by destruct (Hnot m)| | |];
      simpl in *; rewrite ?Hfalse; reflexivity.
Qed.

Lemma errorInterceptor_spec_witness :
  (forall m, ObjectBody [("error", JStr "Bad Request")] <> ErrorEventBody m) /\
  js_truthy (body_message (ObjectBody [("error", JStr "Bad Request")])) = false /\
  n_message (errorInterceptor (mkHttpError 400 (ObjectBody [("error", JStr "Bad Request")])
                                 "Http failure response" None)) = "Http failure response"%string.
Proof.
  assert (Hn : forall m, ObjectBody [("error", JStr "Bad Request")] <> ErrorEventBody m)
    by (intros m; discriminate).
  split; [exact Hn|]. split; [reflexivity|].
  destruct (errorInterceptor_spec (mkHttpError 400 (ObjectBody [("error", JStr "Bad Request")])
                                     "Http failure response" None)) as (_ & _ & _ & _ & H).
  apply H; [exact Hn|reflexivity].
Defined.
