(* ===== verification/Timers.v ===== *)
(** The browser's timer queue, the runtime behind [setTimeout] and
    [clearTimeout] (not code of the repository).

    A queue has the current time [now] in milliseconds, the next timer id
    (ids start at 1, as the HTML standard requires: a returned id is never
    0, so it is truthy), and the pending timers in the order they were
    scheduled.  A negative delay counts as 0.  The next timer to fire is the
    first pending timer of least due time (timers with equal due times fire
    in scheduling order); firing it moves the clock to its due time and
    removes it.  Time may pass without a timer firing only up to the
    earliest due time ([advance]).  The callback type [C] is a parameter:
    each client stores what its callback does. *)

From S2P Require Import Prelude.

Section Timers.
Context {C : Type}.

Record timer := mkTimer { t_id : Z; t_due : Z; t_cb : C }.

Record queue := mkQueue { now : Z; next_id : Z; pending : list timer }.

Definition empty_queue (t0 : Z) : queue := mkQueue t0 1 [].

(** [const id = setTimeout(cb, delay)] *)
Definition setTimeout (cb : C) (delay : Z) (q : queue) : Z * queue :=
  let i := next_id q in
  (i, mkQueue (now q) (i + 1) (pending q ++ [mkTimer i (now q + Z.max 0 delay) cb])).

Definition remove_timer (i : Z) (l : list timer) : list timer :=
  List.filter (fun t => negb (Z.eqb (t_id t) i)) l.

(** [clearTimeout(id)]: no effect on an id that is not pending. *)
Definition clearTimeout (i : Z) (q : queue) : queue :=
  mkQueue (now q) (next_id q) (remove_timer i (pending q)).

(** The first pending timer of least due time. *)
Fixpoint earliest (l : list timer) : option timer :=
  match l with
  | [] => None
  | t :: l' =>
      match earliest l' with
      | Some t' => if t_due t' <? t_due t then Some t' else Some t
      | None => Some t
      end
  end.

(** Fire the next timer: its callback and the queue after it. *)
Definition fire (q : queue) : option (C * queue) :=
  match earliest (pending q) with
  | None => None
  | Some t => Some (t_cb t, mkQueue (Z.max (now q) (t_due t)) (next_id q)
                                    (remove_timer (t_id t) (pending q)))
  end.

(** Let time pass to [t] when no timer is due before [t]. *)
Definition advance (t : Z) (q : queue) : option queue :=
  if (now q <=? t) && forallb (fun tm => t <=? t_due tm) (pending q)
  then Some (mkQueue t (next_id q) (pending q)) else None.

(** ** Lemmas *)

Lemma earliest_in l t : earliest l = Some t -> In t l.
Proof.
  induction l as [|x l IH]; simpl; [discriminate|].
  destruct (earliest l) as [t'|] eqn:E.
  - destruct (t_due t' <? t_due x); intros [= <-]; [right; now apply IH|now left].
  - intros [= <-]. now left.
Qed.

Lemma earliest_none l : earliest l = None <-> l = [].
Proof.
  split; [|intros ->; reflexivity].
  destruct l as [|x l]; [reflexivity|]. simpl. destruct (earliest l); [|discriminate].
  destruct (_ <? _); discriminate.
Qed.

Lemma earliest_min l t : earliest l = Some t -> Forall (fun u => t_due t <= t_due u) l.
Proof.
  revert t. induction l as [|x l IH]; intros t; simpl; [discriminate|].
  destruct (earliest l) as [t'|] eqn:E.
  - specialize (IH t' eq_refl).
    destruct (Z.ltb_spec (t_due t') (t_due x)); intros [= <-]; constructor; try lia.
    + exact IH.
    + eapply Forall_impl; [exact IH|]. simpl. lia.
  - intros [= <-]. constructor; [lia|].
    apply earliest_none in E. subst l. constructor.
Qed.

Lemma remove_timer_app i l1 l2 :
  remove_timer i (l1 ++ l2) = remove_timer i l1 ++ remove_timer i l2.
Proof. unfold remove_timer. apply List.filter_app. Qed.

Lemma remove_timer_absent i l :
  Forall (fun t => t_id t <> i) l -> remove_timer i l = l.
Proof.
  induction 1 as [|t l Ht _ IH]; [reflexivity|]. unfold remove_timer in *. simpl.
  destruct (Z.eqb_spec (t_id t) i); [contradiction|]. simpl. rewrite IH. reflexivity.
Qed.

(** A property of every pending callback holds of the one that fires and
    of those left. *)
Lemma fire_Forall (P : C -> Prop) q cb q' :
  fire q = Some (cb, q') -> Forall (fun t => P (t_cb t)) (pending q) ->
  P cb /\ Forall (fun t => P (t_cb t)) (pending q').
Proof.
  unfold fire. destruct (earliest (pending q)) as [t|] eqn:E; [|discriminate].
  intros [= <- <-] Ht. apply earliest_in in E. rewrite Forall_forall in Ht. split.
  - apply Ht, list_elem_of_In, E.
  - simpl. unfold remove_timer. apply Forall_forall.
    intros x Hx. apply Ht. apply list_elem_of_In in Hx. apply list_elem_of_In.
    apply filter_In in Hx. exact (proj1 Hx).
Qed.

Lemma advance_pending t q q' : advance t q = Some q' -> pending q' = pending q.
Proof. unfold advance. destruct (_ && _); [|discriminate]. intros [= <-]. reflexivity. Qed.

End Timers.

Arguments timer : clear implicits.
Arguments queue : clear implicits.
