(* ===== verification/Notification.v ===== *)
(** [services/notification.service.ts]: the single-slot notification holder.

    The service has the signal [notification] (a notification or [null])
    and the private [timeoutId] of its auto-hide timer ([undefined] at
    first).  [show] clears the pending timer when [timeoutId] is truthy,
    sets the notification and schedules [hide] after [duration]
    milliseconds; [hide] empties the slot and, when [timeoutId] is truthy,
    clears the timer and sets [timeoutId = null].  The only callback the
    service schedules is [() => this.hide()] ([HideCb]).

    [world] pairs the service with the timer queue of [Timers.v];
    [nstep] is the step relation of the service in its environment: a call
    of [show] (or a wrapper) or of [hide], a timer firing, time passing. *)

From S2P Require Import Prelude Timers.
From stdpp Require Import relations.

Open Scope Z_scope.

Inductive notif_type := NSuccess | NError | NInfo | NWarning.

#[export] Instance notif_type_eq_dec : EqDecision notif_type.
Proof. solve_decision. Defined.

Record Notification := mkNotification {
  n_message : string;
  n_type : notif_type;
  duration : option Z
}.

Inductive NCallback := HideCb.

Module NotificationService.

Record t := mkService {
  notification : option Notification;
  timeoutId : option Z
}.

Record world := mkWorld { svc : t; timers : queue NCallback }.

Definition init (t0 : Z) : world := mkWorld (mkService None None) (empty_queue t0).

(** [if (this.timeoutId)]: [undefined], [null] and [0] are falsy. *)
Definition id_truthy (o : option Z) : bool :=
  match o with Some i => negb (Z.eqb i 0) | None => false end.

(** [if (this.timeoutId) { clearTimeout(this.timeoutId); ... }] *)
Definition clear_if_set (o : option Z) (q : queue NCallback) : queue NCallback :=
  match o with
  | Some i => if id_truthy (Some i) then clearTimeout i q else q
  | None => q
  end.

(** [hide()] *)
Definition hide (w : world) : world :=
  let s := svc w in
  mkWorld (mkService None (if id_truthy (timeoutId s) then None else timeoutId s))
          (clear_if_set (timeoutId s) (timers w)).

(** [show(message, type = 'info', duration = 5000)]; an argument
    [undefined] takes the default. *)
Definition show (message : string) (ty : option notif_type) (dur : option Z)
    (w : world) : world :=
  let ty := default NInfo ty in
  let dur := default 5000 dur in
  let q1 := clear_if_set (timeoutId (svc w)) (timers w) in
  let '(i, q2) := setTimeout HideCb dur q1 in
  mkWorld (mkService (Some (mkNotification message ty (Some dur))) (Some i)) q2.

Definition success (message : string) (dur : option Z) := show message (Some NSuccess) dur.
Definition error (message : string) (dur : option Z) := show message (Some NError) dur.
Definition info (message : string) (dur : option Z) := show message (Some NInfo) dur.
Definition warning (message : string) (dur : option Z) := show message (Some NWarning) dur.

(** The auto-hide timer fires: the queue removes it, then [hide] runs. *)
Definition fire_timer (w : world) : option world :=
  match fire (timers w) with
  | Some (HideCb, q) => Some (hide (mkWorld (svc w) q))
  | None => None
  end.

(** What the environment does on its own: a timer fires, time passes. *)
Inductive tick : world -> world -> Prop :=
  | TickFire w w' : fire_timer w = Some w' -> tick w w'
  | TickAdvance t w q : advance t (timers w) = Some q -> tick w (mkWorld (svc w) q).

Inductive nstep : world -> world -> Prop :=
  | StepShow m ty d w : nstep w (show m ty d w)
  | StepHide w : nstep w (hide w)
  | StepTick w w' : tick w w' -> nstep w w'.

(** The invariant: the slot is empty and no timer is pending, or the slot
    holds a notification and exactly one timer is pending, the one whose
    id is [timeoutId], due no earlier than now.  Ids are positive. *)
Definition wf (w : world) : Prop :=
  1 <= next_id (timers w) /\
  match timeoutId (svc w) with
  | None => notification (svc w) = None /\ pending (timers w) = []
  | Some i => 1 <= i < next_id (timers w) /\ notification (svc w) <> None /\
      exists due, now (timers w) <= due /\ pending (timers w) = [mkTimer i due HideCb]
  end.

Lemma notif_init_wf t0 : wf (init t0).
Proof. split; simpl; [lia|done]. Qed.

Lemma id_truthy_pos i : 1 <= i -> id_truthy (Some i) = true.
Proof. intros H. unfold id_truthy. destruct (Z.eqb_spec i 0); [lia|reflexivity]. Qed.

(** In a well-formed state, clearing the service's timer empties the
    pending list and keeps the clock and the id counter. *)
Lemma clear_if_set_wf w :
  wf w ->
  let q := clear_if_set (timeoutId (svc w)) (timers w) in
  now q = now (timers w) /\ next_id q = next_id (timers w) /\ pending q = [] /\
  id_truthy (timeoutId (svc w)) = bool_decide (timeoutId (svc w) <> None).
Proof.
  intros [Hn Hw]. simpl. destruct (timeoutId (svc w)) as [i|]; simpl.
  - destruct Hw as (Hi & _ & due & _ & Hp). destruct (Z.eqb_spec i 0); [lia|]. simpl.
    rewrite Hp. simpl. rewrite Z.eqb_refl. done.
  - destruct Hw as [_ Hp]. done.
Qed.

(** After [show] in a well-formed state, the pending timers are exactly
    the fresh one of the new notification. *)
Lemma show_pending m ty d w :
  wf w ->
  timeoutId (svc (show m ty d w)) = Some (next_id (timers w)) /\
  notification (svc (show m ty d w)) = Some (mkNotification m (default NInfo ty) (Some (default 5000 d))) /\
  now (timers (show m ty d w)) = now (timers w) /\
  next_id (timers (show m ty d w)) = next_id (timers w) + 1 /\
  pending (timers (show m ty d w)) =
    [mkTimer (next_id (timers w)) (now (timers w) + Z.max 0 (default 5000 d)) HideCb].
Proof.
  intros Hw. destruct (clear_if_set_wf w Hw) as (E1 & E2 & E3 & _).
  unfold show. simpl. rewrite E1, E2, E3. done.
Qed.

Lemma notif_show_wf m ty d w : wf w -> wf (show m ty d w).
Proof.
  intros Hw. destruct (show_pending m ty d w Hw) as (Hid & Hnot & Hnow & Hnext & Hp).
  destruct Hw as [Hn _]. split; [lia|]. rewrite Hid, Hnot, Hp, Hnow, Hnext.
  split; [lia|]. split; [discriminate|]. eexists. split; [|reflexivity]. lia.
Qed.

Lemma notif_hide_wf w : wf w -> wf (hide w).
Proof.
  intros Hw. destruct (clear_if_set_wf w Hw) as (E1 & E2 & E3 & E4).
  destruct Hw as [Hn _]. unfold hide, wf; simpl. rewrite E4, E2, E3.
  split; [exact Hn|]. case_bool_decide as Hc; [done|].
  destruct (timeoutId (svc w)); [congruence|done].
Qed.

Lemma advance_spec t (q q' : queue NCallback) :
  advance t q = Some q' ->
  now q <= t /\ Forall (fun tm => t <= t_due tm) (pending q) /\
  q' = mkQueue t (next_id q) (pending q).
Proof.
  unfold advance. destruct (Z.leb_spec (now q) t); simpl; [|discriminate].
  destruct (forallb _ _) eqn:E; [|discriminate]. intros [= <-].
  split; [lia|]. split; [|reflexivity].
  apply Forall_forall. intros x Hx. apply list_elem_of_In in Hx.
  eapply forallb_forall in E; [|exact Hx]. lia.
Qed.

(** Firing the single pending timer of a well-formed state. *)
Lemma fire_timer_single w i due :
  pending (timers w) = [mkTimer i due HideCb] ->
  timeoutId (svc w) = Some i -> 1 <= i ->
  fire_timer w = Some (mkWorld (mkService None None)
                         (mkQueue (Z.max (now (timers w)) due) (next_id (timers w)) [])).
Proof.
  intros Hp Hid Hi. unfold fire_timer, fire. rewrite Hp. simpl. rewrite Z.eqb_refl.
  unfold hide. simpl. rewrite Hid. simpl. destruct (Z.eqb_spec i 0); [lia|]. reflexivity.
Qed.

Lemma fire_timer_empty w : pending (timers w) = [] -> fire_timer w = None.
Proof. intros Hp. unfold fire_timer, fire. rewrite Hp. reflexivity. Qed.

Lemma tick_wf w w' : wf w -> tick w w' -> wf w'.
Proof.
  intros Hw Ht. destruct Ht as [w w' Hf|t w q Ha].
  - destruct Hw as [Hn Hw]. destruct (timeoutId (svc w)) as [i|] eqn:Ei.
    + destruct Hw as (Hi & _ & due & _ & Hp).
      rewrite (fire_timer_single w i due Hp Ei) in Hf by lia. injection Hf as <-.
      split; [exact Hn|done].
    + destruct Hw as [_ Hp]. by rewrite fire_timer_empty in Hf.
  - apply advance_spec in Ha as (Hle & Hall & ->). destruct Hw as [Hn Hw].
    split; [exact Hn|]. simpl. destruct (timeoutId (svc w)) as [i|]; [|exact Hw].
    destruct Hw as (Hi & Hnn & due & _ & Hp). split; [exact Hi|]. split; [exact Hnn|].
    exists due. split; [|exact Hp]. rewrite Hp in Hall. inversion Hall. simpl in *. lia.
Qed.

Lemma nstep_wf w w' : wf w -> nstep w w' -> wf w'.
Proof.
  intros Hw Hs. destruct Hs as [m ty d w|w|w w' Ht].
  - apply notif_show_wf, Hw.
  - apply notif_hide_wf, Hw.
  - exact (tick_wf w w' Hw Ht).
Qed.

Lemma clear_if_set_now o q : now (clear_if_set o q) = now q.
Proof. destruct o as [i|]; simpl; [destruct (negb _)|]; reflexivity. Qed.

Lemma tick_now_mono w w' : tick w w' -> now (timers w) <= now (timers w').
Proof.
  destruct 1 as [w w' Hf|t w q Ha].
  - unfold fire_timer, fire in Hf.
    destruct (earliest (pending (timers w))) as [tm|]; [|discriminate].
    destruct (t_cb tm). injection Hf as <-. unfold hide. simpl.
    rewrite clear_if_set_now. simpl. lia.
  - apply advance_spec in Ha as (Hle & _ & ->). simpl. exact Hle.
Qed.

(** ** Properties *)

(** C6: the notification service keeps at most one auto-hide timer: in
    every state reachable from the initial one, either the slot is empty
    and no timer is pending, or exactly one timer is pending and it is the
    one recorded in [timeoutId]. *)
Theorem notification_reachable_wf t0 w : rtc nstep (init t0) w -> wf w.
Proof.
  intros Hr. cut (forall w1 w2, rtc nstep w1 w2 -> wf w1 -> wf w2).
  - intros H. exact (H _ _ Hr (notif_init_wf t0)).
  - induction 1; eauto using nstep_wf.
Qed.

Lemma notification_reachable_wf_witness :
  rtc nstep (init 0) (show "Guardado" None None (init 0)) /\
  wf (show "Guardado" None None (init 0)).
Proof.
  split; [apply rtc_once, StepShow|].
  apply (notification_reachable_wf 0). apply rtc_once, StepShow.
Defined.

(** [hide] undoes [show].  From a well-formed state, showing a
    notification and hiding it leaves the slot empty, [timeoutId] reset
    and no timer pending, at the same time: the state the service starts
    in, whatever was shown before. *)
Theorem show_then_hide m ty d w :
  wf w ->
  svc (hide (show m ty d w)) = mkService None None /\
  pending (timers (hide (show m ty d w))) = [] /\
  now (timers (hide (show m ty d w))) = now (timers w).
Proof.
  intros Hw. destruct (show_pending m ty d w Hw) as (Hid & _ & Hnow & _ & _).
  destruct (clear_if_set_wf _ (notif_show_wf m ty d w Hw)) as (E1 & _ & E3 & E4).
  unfold hide; cbn [svc timers]. split; [|split].
  - rewrite E4, Hid, bool_decide_true by discriminate. reflexivity.
  - exact E3.
  - rewrite E1. exact Hnow.
Qed.

Lemma show_then_hide_witness :
  wf (show "Guardado" (Some NSuccess) None (init 0)) /\
  svc (hide (show "Cuenta creada" None (Some 3000) (show "Guardado" (Some NSuccess) None (init 0))))
    = mkService None None.
Proof.
  assert (Hw : wf (show "Guardado" (Some NSuccess) None (init 0))) by apply notif_show_wf, notif_init_wf.
  split; [exact Hw|]. apply (show_then_hide "Cuenta creada" None (Some 3000) _ Hw).
Defined.

(** [N] is displayed with its timer [i] due at [D], or the clock has
    reached [D]. *)
Definition shown_until (N : Notification) (i D : Z) (w : world) : Prop :=
  (notification (svc w) = Some N /\ timeoutId (svc w) = Some i /\ 1 <= i /\
   pending (timers w) = [mkTimer i D HideCb] /\ now (timers w) <= D) \/
  D <= now (timers w).

Lemma tick_shown_until N i D w w' :
  shown_until N i D w -> tick w w' -> shown_until N i D w'.
Proof.
  intros [(Hn & Hid & Hi & Hp & Hle)|Hge] Ht.
  - destruct Ht as [w w' Hf|t w q Ha].
    + rewrite (fire_timer_single w i D Hp Hid Hi) in Hf. injection Hf as <-.
      right. simpl. lia.
    + apply advance_spec in Ha as (Hle' & Hall & ->). left. simpl.
      rewrite Hp in Hall |- *. inversion Hall. simpl in *. repeat split; auto; lia.
  - right. apply tick_now_mono in Ht. lia.
Qed.

Lemma rtc_tick_shown_until N i D w w' :
  shown_until N i D w -> rtc tick w w' -> shown_until N i D w'.
Proof. intros H Hr. induction Hr; eauto using tick_shown_until. Qed.

(** C7: a shown notification lasts its whole duration.  After [show] in
    a well-formed state, as long as no other [show] or [hide] is called,
    the slot holds the new notification until the clock reaches the time
    of the call plus the duration: a timer of an earlier notification
    cannot hide it early, because [show] cleared it. *)
Theorem notification_lasts_duration m ty d w w' :
  wf w ->
  rtc tick (show m ty d w) w' ->
  now (timers w') < now (timers w) + Z.max 0 (default 5000 d) ->
  notification (svc w') = Some (mkNotification m (default NInfo ty) (Some (default 5000 d))).
Proof.
  intros Hw Hr Hlt. destruct (show_pending m ty d w Hw) as (Hid & Hnot & Hnow & _ & Hp).
  assert (Hs : shown_until (mkNotification m (default NInfo ty) (Some (default 5000 d)))
                 (next_id (timers w)) (now (timers w) + Z.max 0 (default 5000 d))
                 (show m ty d w)).
  { left. destruct Hw as [Hn _]. repeat split; auto; lia. }
  destruct (rtc_tick_shown_until _ _ _ _ _ Hs Hr) as [(Hn' & _)|Hge]; [exact Hn'|lia].
Qed.

Lemma notification_lasts_duration_witness :
  wf (init 0) /\ rtc tick (show "Guardado" (Some NSuccess) None (init 0))
                        (show "Guardado" (Some NSuccess) None (init 0)) /\
  now (timers (show "Guardado" (Some NSuccess) None (init 0))) < now (timers (init 0)) + Z.max 0 (default 5000 None) /\
  notification (svc (show "Guardado" (Some NSuccess) None (init 0))) =
    Some (mkNotification "Guardado" NSuccess (Some 5000)).
Proof.
  split; [apply notif_init_wf|]. split; [apply rtc_refl|]. split; [vm_compute; reflexivity|].
  apply (notification_lasts_duration "Guardado" (Some NSuccess) None (init 0)).
  - apply notif_init_wf.
  - apply rtc_refl.
  - vm_compute. reflexivity.
Defined.

(** C8: the auto-hide happens.  After [show] in a well-formed state, the
    next timer to fire is the new notification's: firing it empties the
    slot, leaves no timer pending, and happens at the time of the call
    plus the duration. *)
Theorem notification_auto_hides m ty d w :
  wf w ->
  exists w', fire_timer (show m ty d w) = Some w' /\
    notification (svc w') = None /\ pending (timers w') = [] /\
    now (timers w') = now (timers w) + Z.max 0 (default 5000 d).
Proof.
  intros Hw. destruct (show_pending m ty d w Hw) as (Hid & _ & Hnow & _ & Hp).
  destruct Hw as [Hn _].
  eexists. rewrite (fire_timer_single _ _ _ Hp Hid) by lia.
  split; [reflexivity|]. cbn [svc timers notification pending now]. rewrite Hnow.
  repeat split; lia.
Qed.

Lemma notification_auto_hides_witness :
  wf (init 0) /\
  exists w', fire_timer (show "Error" (Some NError) (Some 3000) (init 0)) = Some w' /\
    notification (svc w') = None /\ pending (timers w') = [] /\
    now (timers w') = 3000.
Proof.
  split; [apply notif_init_wf|].
  exact (notification_auto_hides "Error" (Some NError) (Some 3000) (init 0) (notif_init_wf 0)).
Defined.

End NotificationService.
