(* ===== verification/Effects.v ===== *)
(** The effects of a view-model method, and the monad the methods are
    written in.

    A method of a component reads and writes the component's fields, may
    throw (a [TypeError] when it reads a property of [null]), and starts
    asynchronous work: [apiService.x(...).subscribe({next, error})] and
    [setTimeout(cb, ms)].  [Comp S A] is a state monad over the component
    record [S] with a failure result ([None] is a thrown exception: the
    writes done before it stay, the rest of the method does not run) and
    the list of effects started, in program order.  [effect S] carries the
    callbacks as functions of the component state, so that the runtime in
    [Page.v] can run them when a response arrives or a timer fires.

    [HasMensaje] is the interface of the four components that show a
    transient message: the fields [mensaje] and [mensajeTipo].
    [mostrarMensaje] is the method they all define with the same body.

    [eff_ok] and [comp_ok] state that a predicate on the state is kept by
    a method and by every callback it registers, at every depth; the
    lemmas [comp_ok_*] build it along the method's binds, branches and
    subscriptions, and [Page.v] turns it into an invariant of every
    reachable state.  [eff_bd] and [comp_bd] bound the chains of requests
    a method starts (a completion that starts a request, whose completion
    starts another, ...); [Drain.v] uses the bound to show that the
    backend's answers come to an end. *)

From S2P Require Import Prelude Models Api ErrorInterceptor.

(** A file handed to the browser: the PDF of [exportarPDF] (its header
    fields, its table rows and its summary block) or the JSON of
    [exportarJSON].  The PDF and JSON libraries are not modelled: only
    what the component passes to them. *)
Inductive download :=
  | PdfDownload (filename : string) (cliente_nombre : string) (periodo : string * string)
      (rows : list ReporteMovimiento) (totalCreditos totalDebitos balance : Z)
  | JsonDownload (filename : string) (rows : list ReporteMovimiento).

#[warnings="-register-all"]
Inductive effect (S : Type) : Type :=
  | Subscribe (A : Type) (call : api_call A)
      (next : A -> S -> S * list (effect S))
      (error : NormalizedError -> S -> S * list (effect S))
  | SetTimeout (delay : Z) (callback : S -> S * list (effect S))
  | Download (d : download).

Arguments Subscribe {S A} _ _ _.
Arguments SetTimeout {S} _ _.
Arguments Download {S} _.

Definition Comp (S A : Type) : Type := S -> option A * S * list (effect S).

Definition ret {S A} (x : A) : Comp S A := fun s => (Some x, s, []).

Definition bind {S A B} (m : Comp S A) (f : A -> Comp S B) : Comp S B :=
  fun s =>
    match m s with
    | (Some x, s1, e1) => let '(r, s2, e2) := f x s1 in (r, s2, e1 ++ e2)
    | (None, s1, e1) => (None, s1, e1)
    end.

Notation "x <- m ;; k" := (bind m (fun x => k))
  (at level 100, m at next level, right associativity) : bank_scope.
Notation "m ;; k" := (bind m (fun _ => k))
  (at level 100, right associativity) : bank_scope.

Open Scope bank_scope.

Definition gets {S A} (f : S -> A) : Comp S A := fun s => (Some (f s), s, []).
Definition modify {S} (f : S -> S) : Comp S unit := fun s => (Some tt, f s, []).

(** The state after running [m] from [s], and the effects it started. *)
Definition final {S A} (m : Comp S A) (s : S) : S := snd (fst (m s)).
Definition started {S A} (m : Comp S A) (s : S) : list (effect S) := snd (m s).

(** An operation that throws when its result is [None] (a [RangeError] of
    [toISOString] on an invalid date). *)
Definition from_opt {S A} (o : option A) : Comp S A := fun s => (o, s, []).

(** Hand a file to the browser ([doc.save(...)], [link.click()]). *)
Definition download_ {S} (d : download) : Comp S unit := fun s => (Some tt, s, [Download d]).

(** A [TypeError]: reading a property of [null]. *)
Definition throw_TypeError {S A} : Comp S A := fun s => (None, s, []).

(** Run a callback to completion: its result is dropped, a thrown error
    ends it (RxJS reports it and the application goes on). *)
Definition exec {S} (m : Comp S unit) : S -> S * list (effect S) :=
  fun s => let '(_, s', es) := m s in (s', es).

(** [call.subscribe({ next: ..., error: ... })] *)
Definition subscribe {S A} (call : api_call A) (next : A -> Comp S unit)
    (error : NormalizedError -> Comp S unit) : Comp S unit :=
  fun s => (Some tt, s, [Subscribe call (fun a => exec (next a)) (fun e => exec (error e))]).

(** [setTimeout(() => ..., delay)] *)
Definition setTimeout_ {S} (delay : Z) (cb : Comp S unit) : Comp S unit :=
  fun s => (Some tt, s, [SetTimeout delay (exec cb)]).

Inductive msg_tipo := MSuccess | MError.

#[export] Instance msg_tipo_eq_dec : EqDecision msg_tipo.
Proof. solve_decision. Defined.

Class HasMensaje (S : Type) := {
  get_mensaje : S -> string;
  get_mensajeTipo : S -> msg_tipo;
  set_mensaje : string -> S -> S;
  set_mensajeTipo : msg_tipo -> S -> S
}.

Class HasMensajeLaws (S : Type) `{!HasMensaje S} := {
  get_set_mensaje m s : get_mensaje (set_mensaje m s) = m;
  get_set_mensajeTipo t s : get_mensajeTipo (set_mensajeTipo t s) = t;
  tipo_set_mensaje m s : get_mensajeTipo (set_mensaje m s) = get_mensajeTipo s;
  mensaje_set_tipo t s : get_mensaje (set_mensajeTipo t s) = get_mensaje s
}.

(** [mostrarMensaje(texto, tipo) { this.mensaje = texto; this.mensajeTipo = tipo;
    setTimeout(() => this.mensaje = '', 5000); }] *)
Definition mostrarMensaje {S} `{!HasMensaje S} (texto : string) (tipo : msg_tipo) : Comp S unit :=
  modify (set_mensaje texto) ;;
  modify (set_mensajeTipo tipo) ;;
  setTimeout_ 5000 (modify (set_mensaje "")).

(** [(error) => this.mostrarMensaje(prefijo + error.error.message, 'error')]:
    the callback throws before showing anything when [error.error] is
    [null]. *)
Definition mostrarErrorBackend {S} `{!HasMensaje S} (prefijo : string) (e : NormalizedError)
    : Comp S unit :=
  match raw_error_message e with
  | None => throw_TypeError
  | Some m => mostrarMensaje (prefijo +:+ m) MError
  end.

(** ** Lemmas: how the combinators run *)

Section CompLemmas.
Context {S : Type}.

Lemma bind_ret {A B} (x : A) (f : A -> Comp S B) s : bind (ret x) f s = f x s.
Proof. unfold bind, ret. destruct (f x s) as [[r s'] e]. reflexivity. Qed.

Lemma bind_some {A B} (m : Comp S A) (f : A -> Comp S B) s x s1 e1 :
  m s = (Some x, s1, e1) ->
  bind m f s = let '(r, s2, e2) := f x s1 in (r, s2, e1 ++ e2).
Proof. intros H. unfold bind. rewrite H. reflexivity. Qed.

Lemma bind_none {A B} (m : Comp S A) (f : A -> Comp S B) s s1 e1 :
  m s = (None, s1, e1) -> bind m f s = (None, s1, e1).
Proof. intros H. unfold bind. rewrite H. reflexivity. Qed.

Lemma bind_modify {B} (g : S -> S) (f : unit -> Comp S B) s :
  bind (modify g) f s = f tt (g s).
Proof. unfold bind, modify. destruct (f tt (g s)) as [[r s'] e]. reflexivity. Qed.

Lemma bind_gets {A B} (g : S -> A) (f : A -> Comp S B) s :
  bind (gets g) f s = f (g s) s.
Proof. unfold bind, gets. destruct (f (g s) s) as [[r s'] e]. reflexivity. Qed.

Lemma bind_subscribe {A B} (c : api_call A) n e (f : unit -> Comp S B) s :
  bind (subscribe c n e) f s =
    let '(r, s2, e2) := f tt s in
    (r, s2, Subscribe c (fun a => exec (n a)) (fun x => exec (e x)) :: e2).
Proof. unfold bind, subscribe. destruct (f tt s) as [[r s'] e']. reflexivity. Qed.

Lemma bind_setTimeout {B} d cb (f : unit -> Comp S B) s :
  bind (setTimeout_ d cb) f s =
    let '(r, s2, e2) := f tt s in (r, s2, SetTimeout d (exec cb) :: e2).
Proof. unfold bind, setTimeout_. destruct (f tt s) as [[r s'] e']. reflexivity. Qed.

Lemma bind_assoc {A B C} (m : Comp S A) (f : A -> Comp S B) (g : B -> Comp S C) s :
  bind (bind m f) g s = bind m (fun x => bind (f x) g) s.
Proof.
  unfold bind. destruct (m s) as [[[x|] s1] e1]; [|reflexivity].
  destruct (f x s1) as [[[y|] s2] e2]; [|reflexivity].
  destruct (g y s2) as [[r s3] e3]. by rewrite app_assoc.
Qed.
End CompLemmas.

Lemma mostrarMensaje_run {S} `{!HasMensaje S} texto tipo (s : S) :
  mostrarMensaje texto tipo s =
    (Some tt, set_mensajeTipo tipo (set_mensaje texto s),
     [SetTimeout 5000 (exec (modify (set_mensaje "")))]).
Proof. reflexivity. Qed.

(** The requests among a list of effects. *)
Fixpoint requests {S} (es : list (effect S)) : list http_request :=
  match es with
  | [] => []
  | Subscribe c _ _ :: es' => call_request c :: requests es'
  | SetTimeout _ _ :: es' | Download _ :: es' => requests es'
  end.

(** The files among a list of effects. *)
Fixpoint downloads {S} (es : list (effect S)) : list download :=
  match es with
  | [] => []
  | Download d :: es' => d :: downloads es'
  | _ :: es' => downloads es'
  end.

Lemma requests_app {S} (e1 e2 : list (effect S)) :
  requests (e1 ++ e2) = requests e1 ++ requests e2.
Proof. induction e1 as [|[] e1 IH]; simpl; rewrite ?IH; reflexivity. Qed.

Lemma downloads_app {S} (e1 e2 : list (effect S)) :
  downloads (e1 ++ e2) = downloads e1 ++ downloads e2.
Proof. induction e1 as [|[] e1 IH]; simpl; rewrite ?IH; reflexivity. Qed.

#[export] Hint Rewrite @bind_ret @bind_modify @bind_gets @bind_subscribe @bind_setTimeout
  @requests_app @downloads_app : bank_rw.

(** ** Invariants closed under callbacks

    A predicate [I] on the component's state is closed for a list of
    effects when every callback they carry, run on a state satisfying [I],
    gives a state satisfying [I] and starts effects that are closed in
    turn.  [eff_ok n] checks this to depth [n]; [comp_ok m] states it of a
    method [m] at every depth. *)
Section Closed.
Context {S : Type} (I : S -> Prop).

Fixpoint eff_ok (n : nat) (es : list (effect S)) : Prop :=
  match n with
  | O => True
  | Datatypes.S n' =>
      Forall (fun e =>
        match e with
        | Subscribe _ nx er =>
            (forall a s, I s -> I (fst (nx a s)) /\ eff_ok n' (snd (nx a s))) /\
            (forall x s, I s -> I (fst (er x s)) /\ eff_ok n' (snd (er x s)))
        | SetTimeout _ cb => forall s, I s -> I (fst (cb s)) /\ eff_ok n' (snd (cb s))
        | Download _ => True
        end) es
  end.

Definition cb_ok (f : S -> S * list (effect S)) : Prop :=
  forall n s, I s -> I (fst (f s)) /\ eff_ok n (snd (f s)).

Definition comp_ok {A} (m : Comp S A) : Prop :=
  forall n s, I s -> I (snd (fst (m s))) /\ eff_ok n (snd (m s)).

(** What closedness says of the first effect of a list. *)
Definition head_ok (e : effect S) : Prop :=
  match e with
  | Subscribe _ nx er => (forall a, cb_ok (nx a)) /\ (forall x, cb_ok (er x))
  | SetTimeout _ cb => cb_ok cb
  | Download _ => True
  end.

Lemma eff_ok_nil n : eff_ok n [].
Proof. destruct n; constructor. Qed.

Lemma eff_ok_app n e1 e2 : eff_ok n e1 -> eff_ok n e2 -> eff_ok n (e1 ++ e2).
Proof. destruct n; [trivial|]. apply Forall_app_2. Qed.

Lemma eff_ok_cons e es :
  (forall n, eff_ok n (e :: es)) -> head_ok e /\ forall n, eff_ok n es.
Proof.
  intros H. split.
  - destruct e as [A c nx er|d cb|d]; [split|..]; try exact Logic.I.
    + intros a n s Hs. exact (proj1 (Forall_inv (H (Datatypes.S n))) a s Hs).
    + intros x n s Hs. exact (proj2 (Forall_inv (H (Datatypes.S n))) x s Hs).
    + intros n s Hs. exact (Forall_inv (H (Datatypes.S n)) s Hs).
  - intros n. destruct n; [exact Logic.I|]. exact (Forall_inv_tail (H (Datatypes.S n))).
Qed.

Lemma cb_ok_exec m : comp_ok m -> cb_ok (exec m).
Proof.
  intros Hm n s Hs. unfold exec. specialize (Hm n s Hs).
  destruct (m s) as [[r s'] es]. exact Hm.
Qed.

Lemma comp_ok_ret {A} (x : A) : comp_ok (ret x).
Proof. intros n s Hs. split; [exact Hs|apply eff_ok_nil]. Qed.

Lemma comp_ok_gets {A} (f : S -> A) : comp_ok (gets f).
Proof. intros n s Hs. split; [exact Hs|apply eff_ok_nil]. Qed.

Lemma comp_ok_modify f : (forall s, I s -> I (f s)) -> comp_ok (modify f).
Proof. intros Hf n s Hs. split; [exact (Hf s Hs)|apply eff_ok_nil]. Qed.

Lemma comp_ok_from_opt {A} (o : option A) : comp_ok (from_opt o).
Proof. intros n s Hs. split; [exact Hs|apply eff_ok_nil]. Qed.

Lemma comp_ok_throw {A} : comp_ok (@throw_TypeError S A).
Proof. intros n s Hs. split; [exact Hs|apply eff_ok_nil]. Qed.

Lemma comp_ok_download d : comp_ok (download_ d).
Proof. intros [|n] s Hs; split; try exact Hs; [exact Logic.I|]. repeat constructor. Qed.

Lemma comp_ok_bind {A B} (m : Comp S A) (k : A -> Comp S B) :
  comp_ok m -> (forall x, comp_ok (k x)) -> comp_ok (bind m k).
Proof.
  intros Hm Hk n s Hs. unfold bind. specialize (Hm n s Hs).
  destruct (m s) as [[[x|] s1] e1]; simpl in Hm; destruct Hm as [H1 H2]; [|split; assumption].
  specialize (Hk x n s1 H1). destruct (k x s1) as [[r s2] e2]. simpl in *.
  destruct Hk as [H3 H4]. split; [exact H3|apply eff_ok_app; assumption].
Qed.

Lemma comp_ok_subscribe {A} (c : api_call A) nx er :
  (forall a, comp_ok (nx a)) -> (forall x, comp_ok (er x)) -> comp_ok (subscribe c nx er).
Proof.
  intros Hn He n s Hs. split; [exact Hs|]. destruct n as [|n]; [exact Logic.I|].
  constructor; [|constructor]. split.
  - intros a s' Hs'. exact (cb_ok_exec _ (Hn a) n s' Hs').
  - intros x s' Hs'. exact (cb_ok_exec _ (He x) n s' Hs').
Qed.

Lemma comp_ok_setTimeout d cb : comp_ok cb -> comp_ok (setTimeout_ d cb).
Proof.
  intros Hc n s Hs. split; [exact Hs|]. destruct n as [|n]; [exact Logic.I|].
  constructor; [|constructor]. intros s' Hs'. exact (cb_ok_exec _ Hc n s' Hs').
Qed.

Context `{!HasMensaje S}.
Hypothesis mensaje_ok : forall m s, I s -> I (set_mensaje m s).
Hypothesis tipo_ok : forall t s, I s -> I (set_mensajeTipo t s).

Lemma comp_ok_mostrarMensaje texto tipo : comp_ok (mostrarMensaje texto tipo).
Proof.
  unfold mostrarMensaje. apply comp_ok_bind; [apply comp_ok_modify, mensaje_ok|intros _].
  apply comp_ok_bind; [apply comp_ok_modify, tipo_ok|intros _].
  apply comp_ok_setTimeout, comp_ok_modify, mensaje_ok.
Qed.

Lemma comp_ok_mostrarErrorBackend prefijo e : comp_ok (mostrarErrorBackend prefijo e).
Proof.
  unfold mostrarErrorBackend. destruct (raw_error_message e);
    [apply comp_ok_mostrarMensaje|apply comp_ok_throw].
Qed.
End Closed.

#[export] Hint Resolve comp_ok_ret comp_ok_gets comp_ok_from_opt comp_ok_throw comp_ok_download
  comp_ok_mostrarMensaje comp_ok_mostrarErrorBackend : bank.

(** [comp_ok_solve] takes a method apart along its binds, branches and
    subscriptions and leaves the state updates to [auto]. *)
Ltac comp_ok_solve :=
  repeat first
    [ progress (intros; simpl)
    | apply comp_ok_bind
    | apply comp_ok_subscribe
    | apply comp_ok_setTimeout
    | apply comp_ok_modify
    | case_match ];
  auto with bank.

(** ** Depth of the request chains

    [eff_bd D n d es] bounds the chains of requests a list of effects
    starts: a subscription may appear only where [d] is positive, and its
    callbacks start effects bounded by [d - 1]; a timer's callback starts
    effects bounded by [D], the bound of a fresh start (a user action or a
    timer).  [n] is the nesting depth checked, as for [eff_ok];
    [comp_bd D d m] states the bound of a method at every nesting depth.
    The completion of a save starts a reload, whose completion starts
    nothing: such a method is bounded by [2]. *)
Section Depth.
Context {S : Type} (D : nat).

Fixpoint eff_bd (n d : nat) (es : list (effect S)) : Prop :=
  match n with
  | O => True
  | Datatypes.S n' =>
      Forall (fun e =>
        match e with
        | Subscribe _ nx er =>
            match d with
            | O => False
            | Datatypes.S d' =>
                (forall a s, eff_bd n' d' (snd (nx a s))) /\ (forall x s, eff_bd n' d' (snd (er x s)))
            end
        | SetTimeout _ cb => forall s, eff_bd n' D (snd (cb s))
        | Download _ => True
        end) es
  end.

Definition cb_bd (d : nat) (f : S -> S * list (effect S)) : Prop :=
  forall n s, eff_bd n d (snd (f s)).

Definition comp_bd {A} (d : nat) (m : Comp S A) : Prop :=
  forall n s, eff_bd n d (snd (m s)).

(** What the bound says of the first effect of a list. *)
Definition head_bd (d : nat) (e : effect S) : Prop :=
  match e with
  | Subscribe _ nx er =>
      match d with
      | O => False
      | Datatypes.S d' => (forall a, cb_bd d' (nx a)) /\ (forall x, cb_bd d' (er x))
      end
  | SetTimeout _ cb => cb_bd D cb
  | Download _ => True
  end.

Lemma eff_bd_nil n d : eff_bd n d [].
Proof. destruct n; constructor. Qed.

Lemma eff_bd_app n d e1 e2 : eff_bd n d e1 -> eff_bd n d e2 -> eff_bd n d (e1 ++ e2).
Proof. destruct n; [trivial|]. apply Forall_app_2. Qed.

Lemma eff_bd_mono n d d' es : (d <= d')%nat -> eff_bd n d es -> eff_bd n d' es.
Proof.
  revert d d' es. induction n as [|n IH]; intros d d' es Hd H; [exact Logic.I|].
  eapply Forall_impl; [exact H|]. intros [A c nx er|t cb|f]; [|trivial..].
  destruct d as [|d], d' as [|d']; [contradiction|contradiction|lia|].
  intros [Hn He]. split; intros; eapply IH; [|apply Hn| |apply He]; lia.
Qed.

Lemma eff_bd_cons d e es :
  (forall n, eff_bd n d (e :: es)) -> head_bd d e /\ forall n, eff_bd n d es.
Proof.
  intros H. split.
  - pose proof (fun n => Forall_inv (H (Datatypes.S n))) as He. simpl in He.
    destruct e as [A c nx er|t cb|f]; [|intros n s; exact (He n s)|exact Logic.I].
    destruct d as [|d]; [exact (He O)|].
    split; intros ? n s; [exact (proj1 (He n) _ s)|exact (proj2 (He n) _ s)].
  - intros n. destruct n; [exact Logic.I|]. exact (Forall_inv_tail (H (Datatypes.S n))).
Qed.

Lemma cb_bd_exec d m : comp_bd d m -> cb_bd d (exec m).
Proof. intros Hm n s. unfold exec. specialize (Hm n s). destruct (m s) as [[r s'] es]. exact Hm. Qed.

Lemma comp_bd_nil {A} d (m : Comp S A) : (forall s, snd (m s) = []) -> comp_bd d m.
Proof. intros Hm n s. rewrite Hm. apply eff_bd_nil. Qed.

Lemma comp_bd_bind {A B} d (m : Comp S A) (k : A -> Comp S B) :
  comp_bd d m -> (forall x, comp_bd d (k x)) -> comp_bd d (bind m k).
Proof.
  intros Hm Hk n s. unfold bind. specialize (Hm n s).
  destruct (m s) as [[[x|] s1] e1]; simpl in Hm; [|exact Hm].
  specialize (Hk x n s1). destruct (k x s1) as [[r s2] e2]. apply eff_bd_app; assumption.
Qed.

Lemma comp_bd_subscribe {A} d (c : api_call A) nx er :
  (forall a, comp_bd d (nx a)) -> (forall x, comp_bd d (er x)) ->
  comp_bd (Datatypes.S d) (subscribe c nx er).
Proof.
  intros Hn He n s. destruct n as [|n]; [exact Logic.I|].
  constructor; [|constructor]. split; intros ? s'; apply cb_bd_exec; auto.
Qed.

Lemma comp_bd_setTimeout d t cb : comp_bd D cb -> comp_bd d (setTimeout_ t cb).
Proof.
  intros Hc n s. destruct n as [|n]; [exact Logic.I|].
  constructor; [|constructor]. intros s'. exact (cb_bd_exec _ _ Hc n s').
Qed.

Lemma comp_bd_mono {A} d d' (m : Comp S A) : (d <= d')%nat -> comp_bd d m -> comp_bd d' m.
Proof. intros Hd Hm n s. exact (eff_bd_mono n d d' _ Hd (Hm n s)). Qed.

Lemma comp_bd_ret {A} d (x : A) : comp_bd d (ret x).
Proof. apply comp_bd_nil. reflexivity. Qed.

Lemma comp_bd_gets {A} d (f : S -> A) : comp_bd d (gets f).
Proof. apply comp_bd_nil. reflexivity. Qed.

Lemma comp_bd_modify d f : comp_bd d (modify f).
Proof. apply comp_bd_nil. reflexivity. Qed.

Lemma comp_bd_from_opt {A} d (o : option A) : comp_bd d (from_opt o).
Proof. apply comp_bd_nil. reflexivity. Qed.

Lemma comp_bd_throw {A} d : comp_bd d (@throw_TypeError S A).
Proof. apply comp_bd_nil. reflexivity. Qed.

Lemma comp_bd_download d f : comp_bd d (download_ f).
Proof. intros [|n] s; [exact Logic.I|]. repeat constructor. Qed.

Context `{!HasMensaje S}.

Lemma comp_bd_mostrarMensaje d texto tipo : comp_bd d (mostrarMensaje texto tipo).
Proof.
  unfold mostrarMensaje. apply comp_bd_bind; [apply comp_bd_modify|intros _].
  apply comp_bd_bind; [apply comp_bd_modify|intros _].
  apply comp_bd_setTimeout, comp_bd_modify.
Qed.

Lemma comp_bd_mostrarErrorBackend d prefijo e : comp_bd d (mostrarErrorBackend prefijo e).
Proof.
  unfold mostrarErrorBackend. destruct (raw_error_message e);
    [apply comp_bd_mostrarMensaje|apply comp_bd_throw].
Qed.
End Depth.

#[export] Hint Resolve comp_bd_ret comp_bd_gets comp_bd_modify comp_bd_from_opt comp_bd_throw
  comp_bd_download comp_bd_mostrarMensaje comp_bd_mostrarErrorBackend : bank.

(** [comp_bd_solve] takes a method apart as [comp_ok_solve] does; a
    subscription consumes one unit of the bound. *)
Ltac comp_bd_solve :=
  repeat first
    [ progress (intros; simpl)
    | apply comp_bd_bind
    | apply comp_bd_subscribe
    | apply comp_bd_setTimeout
    | case_match ];
  auto with bank.

(** C14: the view-models' error callbacks read the raw body
    [error.error.message], not the message the error interceptor computed.
    For a server error whose JSON body has no [message] field the
    interceptor falls back to the transport message, but the component
    shows [prefijo + "undefined"]; for a [null] body the callback throws
    before showing anything: the component's fields are unchanged and no
    timer is started. *)
Theorem mostrarErrorBackend_raw_body {S} `{HasMensajeLaws S} (prefijo : string)
    (e : HttpErrorResponse) (s : S) :
  (forall o, error e = ObjectBody o -> obj_get o "message" = None ->
     n_message (errorInterceptor e) = message e /\
     get_mensaje (final (mostrarErrorBackend prefijo (errorInterceptor e)) s) =
       prefijo +:+ "undefined") /\
  (error e = NullBody ->
     final (mostrarErrorBackend prefijo (errorInterceptor e)) s = s /\
     started (mostrarErrorBackend prefijo (errorInterceptor e)) s = []).
Proof.
  destruct e as [st b msg u]. unfold errorInterceptor, mostrarErrorBackend, raw_error_message.
  simpl. split.
  - intros o -> Hget. simpl. rewrite Hget. split; [reflexivity|].
    unfold final. rewrite mostrarMensaje_run. simpl.
    rewrite mensaje_set_tipo, get_set_mensaje. reflexivity.
  - intros ->. split; reflexivity.
Qed.

(** The two message fields on their own, as a pair: the smallest view-model
    with a message. *)
#[export] Instance pair_has_mensaje : HasMensaje (string * msg_tipo) := {|
  get_mensaje := fst; get_mensajeTipo := snd;
  set_mensaje m s := (m, snd s); set_mensajeTipo t s := (fst s, t)
|}.

#[export] Instance pair_has_mensaje_laws : HasMensajeLaws (string * msg_tipo).
Proof. split; reflexivity. Qed.

Lemma mostrarErrorBackend_raw_body_witness :
  let e := mkHttpError 500 (ObjectBody [("error", JStr "Internal")]) "Http failure" (Some "/api/cuentas") in
  (forall o, error e = ObjectBody o -> obj_get o "message" = None ->
     n_message (errorInterceptor e) = message e /\
     get_mensaje (final (mostrarErrorBackend "Error: " (errorInterceptor e)) ("", MSuccess)) =
       "Error: " +:+ "undefined") /\
  (error e = NullBody ->
     final (mostrarErrorBackend "Error: " (errorInterceptor e)) ("", MSuccess) = ("", MSuccess) /\
     started (mostrarErrorBackend "Error: " (errorInterceptor e)) ("", MSuccess) = []).
Proof. intros e. exact (mostrarErrorBackend_raw_body "Error: " e ("", MSuccess)). Defined.
