(* ===== verification/Movimientos.v ===== *)
(** [components/movimientos/movimientos.component.ts]: the movements page.

    The component's fields are the Record [state]; each method is a
    [Comp state unit] (or a function of the state for the getter
    [movimientosFiltrados]).  [eliminarMovimiento] takes the user's answer
    to [confirm(...)] as an argument.  The template is not part of the
    sources: [input_*] model its two-way bindings as the spec describes
    them (the type selector calls [onTipoMovimientoChange] on change). *)

From S2P Require Import Prelude Models Api ErrorInterceptor Effects.

Open Scope Z_scope.
Open Scope bank_scope.

Module Movimientos.

Record state := mkState {
  movimientos : list Movimiento;
  cuentas : list Cuenta;
  busqueda : string;
  mensaje : string;
  mensajeTipo : msg_tipo;
  nuevoMovimiento : Movimiento
}.

Definition set_movimientos v s :=
  mkState v (cuentas s) (busqueda s) (mensaje s) (mensajeTipo s) (nuevoMovimiento s).
Definition set_cuentas v s :=
  mkState (movimientos s) v (busqueda s) (mensaje s) (mensajeTipo s) (nuevoMovimiento s).
Definition set_busqueda v s :=
  mkState (movimientos s) (cuentas s) v (mensaje s) (mensajeTipo s) (nuevoMovimiento s).
Definition set_nuevoMovimiento v s :=
  mkState (movimientos s) (cuentas s) (busqueda s) (mensaje s) (mensajeTipo s) v.

#[export] Instance has_mensaje : HasMensaje state := {|
  get_mensaje := mensaje;
  get_mensajeTipo := mensajeTipo;
  set_mensaje v s := mkState (movimientos s) (cuentas s) (busqueda s) v (mensajeTipo s) (nuevoMovimiento s);
  set_mensajeTipo v s := mkState (movimientos s) (cuentas s) (busqueda s) (mensaje s) v (nuevoMovimiento s)
|}.

#[export] Instance has_mensaje_laws : HasMensajeLaws state.
Proof. split; reflexivity. Qed.

Definition set_valor (v : Z) (m : Movimiento) : Movimiento :=
  mkMovimiento (mov_id m) (fecha m) (tipoMovimiento m) v (saldo m) (mov_numeroCuenta m).
Definition set_tipoMovimiento (t : string) (m : Movimiento) : Movimiento :=
  mkMovimiento (mov_id m) (fecha m) t (valor m) (saldo m) (mov_numeroCuenta m).
Definition set_numeroCuenta (n : string) (m : Movimiento) : Movimiento :=
  mkMovimiento (mov_id m) (fecha m) (tipoMovimiento m) (valor m) (saldo m) n.

(** [{ tipoMovimiento: '', valor: 0, numeroCuenta: '' }] *)
Definition movimiento_vacio : Movimiento := mkMovimiento None None "" 0 None "".

(** The field initialisers. *)
Definition init : state := mkState [] [] "" "" MSuccess movimiento_vacio.

Definition cargarMovimientos : Comp state unit :=
  subscribe ApiService.getMovimientos
    (fun data => modify (set_movimientos data))
    (fun _ => mostrarMensaje "Error al cargar movimientos" MError).

Definition cargarCuentas : Comp state unit :=
  subscribe ApiService.getCuentas
    (fun data => modify (set_cuentas (List.filter cuenta_estado data)))
    (fun _ => mostrarMensaje "Error al cargar cuentas" MError).

Definition ngOnInit : Comp state unit := cargarMovimientos ;; cargarCuentas.

(** The test applied by the search filter to one movement. *)
Definition coincide (termino : string) (m : Movimiento) : bool :=
  includes (mov_numeroCuenta m) termino || includes (to_lower (tipoMovimiento m)) termino.

(** [get movimientosFiltrados()] *)
Definition movimientosFiltrados (s : state) : list Movimiento :=
  if str_falsy (busqueda s) then movimientos s
  else let termino := to_lower (busqueda s) in
       List.filter (coincide termino) (movimientos s).

Definition limpiarFormulario : Comp state unit :=
  modify (set_nuevoMovimiento movimiento_vacio).

Definition realizarMovimiento : Comp state unit :=
  m <- gets nuevoMovimiento ;;
  if str_falsy (mov_numeroCuenta m) || str_falsy (tipoMovimiento m) then
    mostrarMensaje "Complete todos los campos" MError
  else if Z.eqb (valor m) 0 then
    mostrarMensaje "El valor no puede ser cero" MError
  else
    subscribe (ApiService.createMovimiento m)
      (fun _ => mostrarMensaje "Movimiento realizado exitosamente" MSuccess ;;
                cargarMovimientos ;;
                limpiarFormulario)
      (mostrarErrorBackend "Error: ").

Definition onTipoMovimientoChange : Comp state unit :=
  m <- gets nuevoMovimiento ;;
  if String.eqb (tipoMovimiento m) "Retiro" || String.eqb (tipoMovimiento m) "Debito" then
    modify (set_nuevoMovimiento (set_valor (Z.abs (valor m) * -1) m))
  else if String.eqb (tipoMovimiento m) "Deposito" || String.eqb (tipoMovimiento m) "Credito" then
    modify (set_nuevoMovimiento (set_valor (Z.abs (valor m)) m))
  else ret tt.

Definition eliminarMovimiento (i : Z) (confirmado : bool) : Comp state unit :=
  if confirmado then
    subscribe (ApiService.deleteMovimiento i)
      (fun _ => mostrarMensaje "Movimiento eliminado" MSuccess ;; cargarMovimientos)
      (mostrarErrorBackend "Error: ")
  else ret tt.

(** The template's bindings: [[(ngModel)]="nuevoMovimiento.tipoMovimiento"
    (change)="onTipoMovimientoChange()"], the value and account inputs,
    and the search box. *)
Definition input_tipoMovimiento (t : string) : Comp state unit :=
  m <- gets nuevoMovimiento ;;
  modify (set_nuevoMovimiento (set_tipoMovimiento t m)) ;;
  onTipoMovimientoChange.

Definition input_valor (v : Z) : Comp state unit :=
  m <- gets nuevoMovimiento ;; modify (set_nuevoMovimiento (set_valor v m)).

Definition input_numeroCuenta (n : string) : Comp state unit :=
  m <- gets nuevoMovimiento ;; modify (set_nuevoMovimiento (set_numeroCuenta n m)).

Definition input_busqueda (b : string) : Comp state unit := modify (set_busqueda b).

(** ** Properties *)

Lemma onTipo_branches (s : state) :
  let m := nuevoMovimiento s in
  started onTipoMovimientoChange s = [] /\
  final onTipoMovimientoChange s =
    if String.eqb (tipoMovimiento m) "Retiro" || String.eqb (tipoMovimiento m) "Debito" then
      set_nuevoMovimiento (set_valor (Z.abs (valor m) * -1) m) s
    else if String.eqb (tipoMovimiento m) "Deposito" || String.eqb (tipoMovimiento m) "Credito" then
      set_nuevoMovimiento (set_valor (Z.abs (valor m)) m) s
    else s.
Proof.
  unfold onTipoMovimientoChange, final, started. rewrite bind_gets. simpl.
  destruct (_ || _); [done|]. destruct (_ || _); done.
Qed.

(** C9: the type selector forces the sign of the value.  For a
    withdrawal or a debit the value becomes [-|v|], strictly negative when
    [v] is not zero; for a deposit or a credit it becomes [|v|], strictly
    positive when [v] is not zero; for any other type nothing changes.
    The handler starts no request. *)
Theorem onTipoMovimientoChange_sign (s : state) :
  let m := nuevoMovimiento s in
  let v' := valor (nuevoMovimiento (final onTipoMovimientoChange s)) in
  started onTipoMovimientoChange s = [] /\
  ((tipoMovimiento m = "Retiro" \/ tipoMovimiento m = "Debito") ->
     v' = - Z.abs (valor m) /\ (valor m <> 0 -> v' < 0)) /\
  ((tipoMovimiento m = "Deposito" \/ tipoMovimiento m = "Credito") ->
     v' = Z.abs (valor m) /\ (valor m <> 0 -> 0 < v')) /\
  (~ In (tipoMovimiento m) ["Retiro"; "Debito"; "Deposito"; "Credito"] ->
     final onTipoMovimientoChange s = s).
Proof.
  destruct (onTipo_branches s) as [He Hf]. cbv zeta in *. rewrite Hf.
  split; [exact He|].
  destruct (String.eqb_spec (tipoMovimiento (nuevoMovimiento s)) "Retiro") as [E1|E1];
  destruct (String.eqb_spec (tipoMovimiento (nuevoMovimiento s)) "Debito") as [E2|E2];
  destruct (String.eqb_spec (tipoMovimiento (nuevoMovimiento s)) "Deposito") as [E3|E3];
  destruct (String.eqb_spec (tipoMovimiento (nuevoMovimiento s)) "Credito") as [E4|E4];
  rewrite ?E1, ?E2, ?E3, ?E4 in *; simpl; try congruence;
  repeat split; intros; try lia; try (destruct_or!; congruence);
  exfalso; match goal with H : ~ (_ \/ _) |- _ => apply H; tauto end.
Qed.

(** C10: a movement whose value is zero is rejected before any request:
    whatever the type and the account, [realizarMovimiento] starts no
    request, shows an error and leaves the form as it was. *)
Theorem realizarMovimiento_zero_rejected (s : state) :
  valor (nuevoMovimiento s) = 0 ->
  requests (started realizarMovimiento s) = [] /\
  mensajeTipo (final realizarMovimiento s) = MError /\
  nuevoMovimiento (final realizarMovimiento s) = nuevoMovimiento s.
Proof.
  intros H. unfold realizarMovimiento, final, started. rewrite bind_gets.
  destruct (_ || _); [done|]. rewrite H. done.
Qed.

Lemma realizarMovimiento_zero_rejected_witness :
  valor (nuevoMovimiento (set_nuevoMovimiento (mkMovimiento None None "Deposito" 0 None "478758") init)) = 0 /\
  requests (started realizarMovimiento
    (set_nuevoMovimiento (mkMovimiento None None "Deposito" 0 None "478758") init)) = [].
Proof.
  split; [reflexivity|].
  apply (realizarMovimiento_zero_rejected
    (set_nuevoMovimiento (mkMovimiento None None "Deposito" 0 None "478758") init)).
  reflexivity.
Defined.

(** C11: a complete form is submitted as one request.  When the account
    and the type are filled in and the value is not zero,
    [realizarMovimiento] leaves the fields unchanged and sends exactly one
    request, [POST /api/movimientos] with the form as body; when it
    succeeds, the callback shows the success message, reloads the whole
    list of movements and clears the form. *)
Theorem realizarMovimiento_submits (s : state) :
  let m := nuevoMovimiento s in
  mov_numeroCuenta m <> ""%string -> tipoMovimiento m <> ""%string -> valor m <> 0 ->
  final realizarMovimiento s = s /\
  requests (started realizarMovimiento s) = [call_request (ApiService.createMovimiento m)] /\
  Forall (fun e => match e with
    | Subscribe _ next _ => forall a s0,
        nuevoMovimiento (next a s0).1 = movimiento_vacio /\
        mensaje (next a s0).1 = "Movimiento realizado exitosamente"%string /\
        mensajeTipo (next a s0).1 = MSuccess /\
        requests (next a s0).2 = [call_request ApiService.getMovimientos]
    | SetTimeout _ _ | Download _ => True
    end) (started realizarMovimiento s).
Proof.
  intros m H1 H2 H3. unfold realizarMovimiento, final, started. rewrite bind_gets.
  apply str_falsy_false in H1, H2. subst m. rewrite H1, H2. simpl.
  destruct (Z.eqb_spec (valor (nuevoMovimiento s)) 0); [contradiction|].
  split; [reflexivity|]. split; [reflexivity|]. repeat constructor.
Qed.

Lemma realizarMovimiento_submits_witness :
  let s := set_nuevoMovimiento (mkMovimiento None None "Retiro" (-40) None "478758") init in
  requests (started realizarMovimiento s) =
    [call_request (ApiService.createMovimiento (mkMovimiento None None "Retiro" (-40) None "478758"))].
Proof.
  intros s.
  destruct (realizarMovimiento_submits s) as (_ & Hr & _);
    [discriminate|discriminate|discriminate|exact Hr].
Defined.



(** C13: the search is case-insensitive and keeps, in order, the
    movements that match.  The result is a sublist of the movements; with
    an empty search box it is the whole list; otherwise a movement is in
    it exactly when its account number contains the lower-cased search
    text or its lower-cased type does; and lower-casing the search text
    changes nothing. *)
Theorem movimientosFiltrados_spec (s : state) :
  sublist (movimientosFiltrados s) (movimientos s) /\
  (busqueda s = ""%string -> movimientosFiltrados s = movimientos s) /\
  (busqueda s <> ""%string -> forall x, x ∈ movimientosFiltrados s <->
     x ∈ movimientos s /\
     (includes (mov_numeroCuenta x) (to_lower (busqueda s)) = true \/
      includes (to_lower (tipoMovimiento x)) (to_lower (busqueda s)) = true)) /\
  movimientosFiltrados (set_busqueda (to_lower (busqueda s)) s) = movimientosFiltrados s.
Proof.
  destruct (search_filter_spec coincide (busqueda s) (movimientos s)) as (H1 & H2 & H3 & H4).
  split; [exact H1|]. split; [exact H2|]. split; [|exact H4].
  intros E x. rewrite (H3 E x). unfold coincide. rewrite orb_true_iff. reflexivity.
Qed.

(** The account number is compared with the lower-cased search text
    without being lower-cased itself: an account number with capital
    letters is never found by its own text. *)
Lemma search_misses_uppercase_account :
  movimientosFiltrados
    (set_busqueda "AB-1" (set_movimientos [mkMovimiento None None "Deposito" 5 None "AB-1"] init))
  = [].
Proof. vm_compute. reflexivity. Qed.

End Movimientos.
