(* ===== verification/Clientes.v ===== *)
(** [components/clientes/clientes.component.ts]: the customers page.

    The fields are the Record [state]; each method is a [Comp state unit],
    [validarCliente] a [Comp state bool] (it shows a message and answers),
    the getter [clientesFiltrados] a function of the state.
    [eliminarCliente] takes the user's answer to [confirm(...)].

    The password: [seleccionarCliente] copies the chosen customer into the
    form with an empty password; [validarCliente] demands a password only
    when creating; [guardarCliente] in edit mode sends a copy of the form
    from which the key [contrasena] is deleted when the password is absent,
    empty or blank ([!c.contrasena || c.contrasena.trim() === '']).
    [String.prototype.trim] is modelled on ASCII whitespace (tab, line
    feed, vertical tab, form feed, carriage return, space); the Unicode
    spaces it also strips are outside the byte strings of the model. *)

From stdpp Require Import pretty.
From S2P Require Import Prelude Models Api ErrorInterceptor Effects.

Open Scope Z_scope.

(** [c === ' ' || ...]: the ASCII characters [trim] strips. *)
Definition js_space (c : ascii) : bool :=
  let n := nat_of_ascii c in ((9 <=? n)%nat && (n <=? 13)%nat) || (n =? 32)%nat.

(** [s.trim() === '']: every character is whitespace. *)
Fixpoint trim_empty (s : string) : bool :=
  match s with
  | EmptyString => true
  | String c s' => js_space c && trim_empty s'
  end.

Module Clientes.

Record state := mkState {
  clientes : list Cliente;
  clienteSeleccionado : option Cliente;
  modoEdicion : bool;
  busqueda : string;
  mensaje : string;
  mensajeTipo : msg_tipo;
  nuevoCliente : Cliente
}.

Definition set_clientes v s := mkState v (clienteSeleccionado s) (modoEdicion s) (busqueda s)
  (mensaje s) (mensajeTipo s) (nuevoCliente s).
Definition set_busqueda v s := mkState (clientes s) (clienteSeleccionado s) (modoEdicion s) v
  (mensaje s) (mensajeTipo s) (nuevoCliente s).
Definition set_nuevoCliente v s := mkState (clientes s) (clienteSeleccionado s) (modoEdicion s)
  (busqueda s) (mensaje s) (mensajeTipo s) v.
(** The three fields of the edit mode, set together. *)
Definition set_edicion sel modo nuevo s :=
  mkState (clientes s) sel modo (busqueda s) (mensaje s) (mensajeTipo s) nuevo.

#[export] Instance has_mensaje : HasMensaje state := {|
  get_mensaje := mensaje;
  get_mensajeTipo := mensajeTipo;
  set_mensaje v s := mkState (clientes s) (clienteSeleccionado s) (modoEdicion s) (busqueda s)
                       v (mensajeTipo s) (nuevoCliente s);
  set_mensajeTipo v s := mkState (clientes s) (clienteSeleccionado s) (modoEdicion s) (busqueda s)
                       (mensaje s) v (nuevoCliente s)
|}.

#[export] Instance has_mensaje_laws : HasMensajeLaws state.
Proof. split; reflexivity. Qed.

Definition set_contrasena (p : option string) (c : Cliente) : Cliente :=
  mkCliente (clienteId c) (nombre c) (genero c) (edad c) (identificacion c) (direccion c)
            (telefono c) p (estado c).

(** [inicializarCliente()] *)
Definition inicializarCliente : Cliente := mkCliente None "" "" 0 "" "" "" (Some "") true.

(** The field initialisers. *)
Definition init : state := mkState [] None false "" "" MSuccess inicializarCliente.

(** [cargarClientes()]: this error callback reads the normalised
    [error.message]. *)
Definition cargarClientes : Comp state unit :=
  subscribe ApiService.getClientes
    (fun data => modify (set_clientes data))
    (fun e => mostrarMensaje ("Error al cargar clientes: " +:+ n_message e) MError).

Definition ngOnInit : Comp state unit := cargarClientes.

(** The test applied by the search filter to one customer. *)
Definition coincide (termino : string) (c : Cliente) : bool :=
  includes (to_lower (nombre c)) termino || includes (identificacion c) termino ||
  includes (telefono c) termino.

(** [get clientesFiltrados()] *)
Definition clientesFiltrados (s : state) : list Cliente :=
  if str_falsy (busqueda s) then clientes s
  else List.filter (coincide (to_lower (busqueda s))) (clientes s).

(** [seleccionarCliente(cliente)]: two copies of the customer; the form's
    copy gets an empty password. *)
Definition seleccionarCliente (c : Cliente) : Comp state unit :=
  modify (set_edicion (Some c) true (set_contrasena (Some "") c)).

(** [cancelar()] *)
Definition cancelar : Comp state unit := modify (set_edicion None false inicializarCliente).

(** [!this.nuevoCliente.contrasena]: [undefined] and [''] are falsy. *)
Definition contrasena_falsy (p : option string) : bool :=
  match p with None => true | Some p => str_falsy p end.

(** [!c.contrasena || c.contrasena.trim() === ''] *)
Definition contrasena_blank (p : option string) : bool :=
  match p with None => true | Some p => str_falsy p || trim_empty p end.

(** [validarCliente()] *)
Definition validarCliente : Comp state bool :=
  c <- gets nuevoCliente ;;
  if str_falsy (nombre c) || str_falsy (identificacion c) || str_falsy (telefono c) then
    mostrarMensaje "Por favor complete todos los campos obligatorios" MError ;; ret false
  else
    modo <- gets modoEdicion ;;
    if negb modo && contrasena_falsy (contrasena c) then
      mostrarMensaje "La contraseña es obligatoria para crear un cliente" MError ;; ret false
    else ret true.

(** [this.modoEdicion && this.clienteSeleccionado?.clienteId]: the id of
    the customer to update, when the test is truthy. *)
Definition id_a_actualizar (s : state) : option Z :=
  if modoEdicion s then
    match clienteSeleccionado s with
    | Some c => match clienteId c with Some i => if Z.eqb i 0 then None else Some i | None => None end
    | None => None
    end
  else None.

(** [{ ...this.nuevoCliente }] with [delete clienteActualizado.contrasena]
    when the password is blank. *)
Definition cliente_actualizado (c : Cliente) : Cliente :=
  if contrasena_blank (contrasena c) then set_contrasena None c else c.

(** [guardarCliente()] *)
Definition guardarCliente : Comp state unit :=
  ok <- validarCliente ;;
  if negb ok then ret tt else
  s <- gets (fun s => s) ;;
  match id_a_actualizar s with
  | Some i =>
      subscribe (ApiService.updateCliente i (cliente_actualizado (nuevoCliente s)))
        (fun _ => mostrarMensaje "Cliente actualizado exitosamente" MSuccess ;;
                  cargarClientes ;; cancelar)
        (mostrarErrorBackend "Error al actualizar: ")
  | None =>
      subscribe (ApiService.createCliente (nuevoCliente s))
        (fun _ => mostrarMensaje "Cliente creado exitosamente" MSuccess ;;
                  cargarClientes ;; cancelar)
        (mostrarErrorBackend "Error al crear: ")
  end.

(** [eliminarCliente(id)], with the answer to [confirm]. *)
Definition eliminarCliente (i : Z) (confirmado : bool) : Comp state unit :=
  if confirmado then
    subscribe (ApiService.deleteCliente i)
      (fun _ => mostrarMensaje "Cliente eliminado exitosamente" MSuccess ;; cargarClientes)
      (mostrarErrorBackend "Error al eliminar: ")
  else ret tt.

(** The template's bindings: the form's inputs write [nuevoCliente], the
    search box writes [busqueda]. *)
Definition input_nuevoCliente (c : Cliente) : Comp state unit := modify (set_nuevoCliente c).
Definition input_busqueda (b : string) : Comp state unit := modify (set_busqueda b).

(** ** Lemmas *)

(** The required fields are filled in: [nombre], [identificacion],
    [telefono]. *)
Definition requeridos_ok (c : Cliente) : bool :=
  negb (str_falsy (nombre c) || str_falsy (identificacion c) || str_falsy (telefono c)).

Lemma requeridos_ok_intro c :
  nombre c <> ""%string -> identificacion c <> ""%string -> telefono c <> ""%string ->
  requeridos_ok c = true.
Proof.
  intros H1 H2 H3. unfold requeridos_ok.
  apply str_falsy_false in H1, H2, H3. rewrite H1, H2, H3. reflexivity.
Qed.

Lemma trim_empty_forallb p : trim_empty p = forallb js_space (list_ascii_of_string p).
Proof. induction p as [|c p IH]; [reflexivity|]. simpl. rewrite IH. reflexivity. Qed.

Lemma validarCliente_true s :
  requeridos_ok (nuevoCliente s) = true ->
  (negb (modoEdicion s) && contrasena_falsy (contrasena (nuevoCliente s))) = false ->
  validarCliente s = (Some true, s, []).
Proof.
  unfold requeridos_ok, validarCliente. intros H1 H2. rewrite bind_gets.
  apply negb_true_iff in H1. rewrite H1, bind_gets, H2. reflexivity.
Qed.

Lemma validarCliente_false s :
  requeridos_ok (nuevoCliente s) = false \/
  (negb (modoEdicion s) && contrasena_falsy (contrasena (nuevoCliente s))) = true ->
  exists texto, validarCliente s =
    (Some false, set_mensajeTipo MError (set_mensaje texto s),
     [SetTimeout 5000 (exec (modify (set_mensaje "")))]).
Proof.
  unfold requeridos_ok, validarCliente. intros H. rewrite bind_gets.
  destruct (_ || _) eqn:E1; [eexists; reflexivity|].
  rewrite bind_gets. destruct H as [H|H]; [discriminate|]. rewrite H. eexists; reflexivity.
Qed.

Lemma guardarCliente_valid s :
  requeridos_ok (nuevoCliente s) = true ->
  (negb (modoEdicion s) && contrasena_falsy (contrasena (nuevoCliente s))) = false ->
  guardarCliente s =
    match id_a_actualizar s with
    | Some i =>
        subscribe (ApiService.updateCliente i (cliente_actualizado (nuevoCliente s)))
          (fun _ => mostrarMensaje "Cliente actualizado exitosamente" MSuccess ;;
                    cargarClientes ;; cancelar)
          (mostrarErrorBackend "Error al actualizar: ") s
    | None =>
        subscribe (ApiService.createCliente (nuevoCliente s))
          (fun _ => mostrarMensaje "Cliente creado exitosamente" MSuccess ;;
                    cargarClientes ;; cancelar)
          (mostrarErrorBackend "Error al crear: ") s
    end.
Proof.
  intros H1 H2. unfold guardarCliente.
  rewrite (bind_some _ _ _ _ _ _ (validarCliente_true s H1 H2)). simpl.
  rewrite bind_gets. destruct (id_a_actualizar s); reflexivity.
Qed.

Lemma obj_get_cliente_contrasena c :
  obj_get (cliente_obj c) "contrasena" = option_map JStr (contrasena c).
Proof. destruct c as [[i|] n g e id d t [p|] st]; reflexivity. Qed.

Lemma contrasena_blank_falsy p : contrasena_falsy p = true -> contrasena_blank p = true.
Proof. destruct p as [p|]; [simpl; intros ->|]; reflexivity. Qed.

Lemma guardarCliente_update_run s i :
  requeridos_ok (nuevoCliente s) = true -> id_a_actualizar s = Some i ->
  final guardarCliente s = s /\
  requests (started guardarCliente s) =
    [call_request (ApiService.updateCliente i (cliente_actualizado (nuevoCliente s)))].
Proof.
  intros H1 H2.
  assert (Hm : modoEdicion s = true).
  { unfold id_a_actualizar in H2. destruct (modoEdicion s); [reflexivity|discriminate]. }
  unfold final, started. rewrite guardarCliente_valid by (rewrite ?Hm; assumption || reflexivity).
  rewrite H2. split; reflexivity.
Qed.

Lemma guardarCliente_create_run s :
  requeridos_ok (nuevoCliente s) = true -> modoEdicion s = false ->
  contrasena_falsy (contrasena (nuevoCliente s)) = false ->
  final guardarCliente s = s /\
  requests (started guardarCliente s) = [call_request (ApiService.createCliente (nuevoCliente s))].
Proof.
  intros H1 Hm H3. unfold final, started.
  rewrite guardarCliente_valid by (rewrite ?Hm, ?H3; assumption || reflexivity).
  unfold id_a_actualizar. rewrite Hm. split; reflexivity.
Qed.

(** ** Properties *)

(** C26: an invalid form is refused without a request.  When a required
    field ([nombre], [identificacion], [telefono]) is empty, or when a new
    customer (not in edit mode) has no password, [guardarCliente] sends
    nothing, shows an error and keeps the form. *)
Theorem guardarCliente_rejects (s : state) :
  requeridos_ok (nuevoCliente s) = false \/
  (modoEdicion s = false /\ contrasena_falsy (contrasena (nuevoCliente s)) = true) ->
  requests (started guardarCliente s) = [] /\
  mensajeTipo (final guardarCliente s) = MError /\
  nuevoCliente (final guardarCliente s) = nuevoCliente s.
Proof.
  intros H. destruct (validarCliente_false s) as [texto Hv].
  { destruct H as [H|[H1 H2]]; [left; exact H|right; rewrite H1, H2; reflexivity]. }
  unfold guardarCliente, final, started. rewrite (bind_some _ _ _ _ _ _ Hv). simpl.
  repeat split.
Qed.

Lemma guardarCliente_rejects_witness :
  requeridos_ok (nuevoCliente (set_nuevoCliente (mkCliente None "Ana" "F" 30 "0102" "Quito" "0991" (Some "") true) init)) = true /\
  requests (started guardarCliente
    (set_nuevoCliente (mkCliente None "Ana" "F" 30 "0102" "Quito" "0991" (Some "") true) init)) = [].
Proof.
  split; [reflexivity|].
  apply (guardarCliente_rejects
    (set_nuevoCliente (mkCliente None "Ana" "F" 30 "0102" "Quito" "0991" (Some "") true) init)).
  right. split; reflexivity.
Defined.

(** C27: updating a customer leaves a blank password out of the payload.
    In edit mode with a selected customer whose id [i] is not [0] and the
    name, identification and phone filled in, [guardarCliente] changes no
    field and sends exactly [PUT /api/clientes/i]; the body has no
    [contrasena] key when the password is absent or consists of
    whitespace characters only (none at all included), and carries the
    password otherwise. *)
Theorem guardarCliente_update (s : state) (c0 : Cliente) (i : Z) :
  nombre (nuevoCliente s) <> ""%string -> identificacion (nuevoCliente s) <> ""%string ->
  telefono (nuevoCliente s) <> ""%string ->
  modoEdicion s = true -> clienteSeleccionado s = Some c0 -> clienteId c0 = Some i -> i <> 0 ->
  final guardarCliente s = s /\
  (exists body, requests (started guardarCliente s) =
     [mkRequest PUT ("/api/clientes/" +:+ pretty i) [] (Some body)] /\
   obj_get body "contrasena" =
     match contrasena (nuevoCliente s) with
     | Some p => if forallb js_space (list_ascii_of_string p) then None else Some (JStr p)
     | None => None
     end).
Proof.
  intros Hn Hid Ht Hm Hsel Hc Hi.
  assert (Hu : id_a_actualizar s = Some i).
  { unfold id_a_actualizar. rewrite Hm, Hsel, Hc. destruct (Z.eqb_spec i 0); [lia|reflexivity]. }
  destruct (guardarCliente_update_run s i (requeridos_ok_intro _ Hn Hid Ht) Hu) as [Hf Hr].
  split; [exact Hf|]. rewrite Hr. eexists. split; [reflexivity|].
  rewrite obj_get_cliente_contrasena. unfold cliente_actualizado, contrasena_blank.
  destruct (nuevoCliente s) as [ci n g e id d t [p|] est]; cbn [contrasena]; [|reflexivity].
  rewrite <- trim_empty_forallb. destruct (str_falsy p) eqn:E.
  - apply str_falsy_true in E. subst p. reflexivity.
  - simpl. destruct (trim_empty p); reflexivity.
Qed.

Lemma guardarCliente_update_witness :
  let c := mkCliente (Some 7) "Ana" "F" 30 "0102" "Quito" "0991" (Some "  ") true in
  let s := set_edicion (Some c) true c init in
  final guardarCliente s = s /\
  exists body, requests (started guardarCliente s) =
     [mkRequest PUT ("/api/clientes/" +:+ pretty 7) [] (Some body)] /\
   obj_get body "contrasena" = None.
Proof.
  intros c s.
  destruct (guardarCliente_update s c 7) as (Hf & body & Hr & Hb);
    [discriminate|discriminate|discriminate|reflexivity|reflexivity|reflexivity|lia|].
  split; [exact Hf|]. exists body. split; [exact Hr|exact Hb].
Defined.

(** Editing a customer without retyping the password keeps it.
    From any state, after [seleccionarCliente c] for a customer with a
    truthy id [i] and the required fields, [guardarCliente] sends exactly
    [PUT /api/clientes/i] whose body has no [contrasena] key (the backend
    keeps the stored password) and whose other fields are [c]'s. *)
Theorem edit_then_save_keeps_password (s : state) (c : Cliente) (i : Z) :
  clienteId c = Some i -> i <> 0 -> requeridos_ok c = true ->
  let s' := final (seleccionarCliente c) s in
  requests (started guardarCliente s') =
    [call_request (ApiService.updateCliente i (set_contrasena None c))] /\
  (forall body, req_body (call_request (ApiService.updateCliente i (set_contrasena None c))) = Some body ->
     obj_get body "contrasena" = None /\ obj_get body "nombre" = Some (JStr (nombre c))).
Proof.
  intros Hi Hnz Hr s'.
  assert (Hid : id_a_actualizar s' = Some i).
  { unfold id_a_actualizar. simpl. rewrite Hi. destruct (Z.eqb_spec i 0); [contradiction|reflexivity]. }
  destruct (guardarCliente_update_run s' i Hr Hid) as [_ Hq]. split.
  - rewrite Hq. reflexivity.
  - intros body Hb. injection Hb as <-. rewrite obj_get_cliente_contrasena.
    split; [reflexivity|]. destruct c as [[j|] n g e d a t p st]; reflexivity.
Qed.

Lemma edit_then_save_keeps_password_witness :
  let c := mkCliente (Some 7) "Ana" "F" 30 "0102" "Quito" "0991" (Some "secreta") true in
  requests (started guardarCliente (final (seleccionarCliente c) init)) =
    [call_request (ApiService.updateCliente 7 (set_contrasena None c))].
Proof.
  intros c. destruct (edit_then_save_keeps_password init c 7) as [Hq _];
    [reflexivity|discriminate|reflexivity|exact Hq].
Defined.

(** C29: a password of spaces is accepted when creating.  [validarCliente]
    tests [!contrasena] without [trim], so a new customer whose password is
    non-empty but only whitespace passes validation and the password is
    sent as typed, while [guardarCliente] in edit mode treats the same
    password as blank and leaves it out. *)
Theorem blank_password_on_create (s : state) (p : string) :
  requeridos_ok (nuevoCliente s) = true -> modoEdicion s = false ->
  contrasena (nuevoCliente s) = Some p -> p <> ""%string ->
  requests (started guardarCliente s) = [call_request (ApiService.createCliente (nuevoCliente s))] /\
  (forall body, req_body (call_request (ApiService.createCliente (nuevoCliente s))) = Some body ->
     obj_get body "contrasena" = Some (JStr p)) /\
  (trim_empty p = true -> contrasena_blank (contrasena (nuevoCliente s)) = true).
Proof.
  intros H1 Hm Hp Hne. apply str_falsy_false in Hne.
  destruct (guardarCliente_create_run s H1 Hm) as [_ Hq]; [rewrite Hp; exact Hne|].
  split; [exact Hq|]. split.
  - intros body Hb. injection Hb as <-. rewrite obj_get_cliente_contrasena, Hp. reflexivity.
  - intros Ht. rewrite Hp. simpl. rewrite Ht, orb_true_r. reflexivity.
Qed.

Lemma blank_password_on_create_witness :
  let c := mkCliente None "Ana" "F" 30 "0102" "Quito" "0991" (Some "   ") true in
  let s := set_nuevoCliente c init in
  trim_empty "   " = true /\
  requests (started guardarCliente s) = [call_request (ApiService.createCliente c)].
Proof.
  intros c s. split; [reflexivity|].
  destruct (blank_password_on_create s "   ") as [Hq _];
    [reflexivity|reflexivity|reflexivity|discriminate|exact Hq].
Defined.

(** C34: the customer search is case-insensitive on the name and keeps,
    in order, the customers that match.  The result is a sublist of the
    customers; with an empty search box it is the whole list; otherwise a
    customer is in it exactly when its lower-cased name, its
    identification or its phone contains the lower-cased search text; and
    lower-casing the search text changes nothing. *)
Theorem clientesFiltrados_spec (s : state) :
  sublist (clientesFiltrados s) (clientes s) /\
  (busqueda s = ""%string -> clientesFiltrados s = clientes s) /\
  (busqueda s <> ""%string -> forall x, x ∈ clientesFiltrados s <->
     x ∈ clientes s /\
     (includes (to_lower (nombre x)) (to_lower (busqueda s)) = true \/
      includes (identificacion x) (to_lower (busqueda s)) = true \/
      includes (telefono x) (to_lower (busqueda s)) = true)) /\
  clientesFiltrados (set_busqueda (to_lower (busqueda s)) s) = clientesFiltrados s.
Proof.
  destruct (search_filter_spec coincide (busqueda s) (clientes s)) as (H1 & H2 & H3 & H4).
  split; [exact H1|]. split; [exact H2|]. split; [|exact H4].
  intros E x. rewrite (H3 E x). unfold coincide. rewrite !orb_true_iff. tauto.
Qed.

End Clientes.
