(* ===== verification/Cuentas.v ===== *)
(** [components/cuentas/cuentas.component.ts]: the accounts page.

    The fields are the Record [state]; each method is a [Comp state unit],
    the getter [cuentasFiltradas] a function of the state.
    [eliminarCuenta] takes the user's answer to [confirm(...)].
    [guardarCuenta] checks the three required fields (account number,
    type, customer id), then updates the selected account when the page is
    in edit mode and the selected account has a truthy id, and creates an
    account otherwise; in both cases the body is the whole form
    [nuevaCuenta], which [seleccionarCuenta] copied from a row of the list. *)

From stdpp Require Import pretty.
From S2P Require Import Prelude Models Api ErrorInterceptor Effects.

Open Scope Z_scope.

Module Cuentas.

Record state := mkState {
  cuentas : list Cuenta;
  clientes : list Cliente;
  cuentaSeleccionada : option Cuenta;
  modoEdicion : bool;
  busqueda : string;
  mensaje : string;
  mensajeTipo : msg_tipo;
  nuevaCuenta : Cuenta
}.

Definition set_cuentas v s := mkState v (clientes s) (cuentaSeleccionada s) (modoEdicion s)
  (busqueda s) (mensaje s) (mensajeTipo s) (nuevaCuenta s).
Definition set_clientes v s := mkState (cuentas s) v (cuentaSeleccionada s) (modoEdicion s)
  (busqueda s) (mensaje s) (mensajeTipo s) (nuevaCuenta s).
Definition set_busqueda v s := mkState (cuentas s) (clientes s) (cuentaSeleccionada s)
  (modoEdicion s) v (mensaje s) (mensajeTipo s) (nuevaCuenta s).
Definition set_nuevaCuenta v s := mkState (cuentas s) (clientes s) (cuentaSeleccionada s)
  (modoEdicion s) (busqueda s) (mensaje s) (mensajeTipo s) v.
(** The three fields of the edit mode, set together. *)
Definition set_edicion sel modo nueva s :=
  mkState (cuentas s) (clientes s) sel modo (busqueda s) (mensaje s) (mensajeTipo s) nueva.

#[export] Instance has_mensaje : HasMensaje state := {|
  get_mensaje := mensaje;
  get_mensajeTipo := mensajeTipo;
  set_mensaje v s := mkState (cuentas s) (clientes s) (cuentaSeleccionada s) (modoEdicion s)
                       (busqueda s) v (mensajeTipo s) (nuevaCuenta s);
  set_mensajeTipo v s := mkState (cuentas s) (clientes s) (cuentaSeleccionada s) (modoEdicion s)
                       (busqueda s) (mensaje s) v (nuevaCuenta s)
|}.

#[export] Instance has_mensaje_laws : HasMensajeLaws state.
Proof. split; reflexivity. Qed.

(** [inicializarCuenta()] *)
Definition inicializarCuenta : Cuenta := mkCuenta None "" "" 0 true 0 None.

(** The field initialisers. *)
Definition init : state := mkState [] [] None false "" "" MSuccess inicializarCuenta.

(** [cargarCuentas()]: this error callback reads the normalised
    [error.message]. *)
Definition cargarCuentas : Comp state unit :=
  subscribe ApiService.getCuentas
    (fun data => modify (set_cuentas data))
    (fun e => mostrarMensaje ("Error al cargar cuentas: " +:+ n_message e) MError).

(** [cargarClientes()]: only the active customers. *)
Definition cargarClientes : Comp state unit :=
  subscribe ApiService.getClientes
    (fun data => modify (set_clientes (List.filter estado data)))
    (fun _ => mostrarMensaje "Error al cargar clientes" MError).

Definition ngOnInit : Comp state unit := cargarCuentas ;; cargarClientes.

(** The test applied by the search filter to one account;
    [c.clienteNombre?.toLowerCase()...] is [undefined], falsy, without a
    name. *)
Definition coincide (termino : string) (c : Cuenta) : bool :=
  includes (numeroCuenta c) termino ||
  match clienteNombre c with Some n => includes (to_lower n) termino | None => false end ||
  includes (to_lower (tipoCuenta c)) termino.

(** [get cuentasFiltradas()] *)
Definition cuentasFiltradas (s : state) : list Cuenta :=
  if str_falsy (busqueda s) then cuentas s
  else List.filter (coincide (to_lower (busqueda s))) (cuentas s).

(** [seleccionarCuenta(cuenta)]: two copies of the row. *)
Definition seleccionarCuenta (c : Cuenta) : Comp state unit :=
  modify (set_edicion (Some c) true c).

(** [cancelar()] *)
Definition cancelar : Comp state unit := modify (set_edicion None false inicializarCuenta).

(** [!numeroCuenta || !tipoCuenta || !clienteId] *)
Definition requeridos_faltan (c : Cuenta) : bool :=
  str_falsy (numeroCuenta c) || str_falsy (tipoCuenta c) || Z.eqb (cuenta_clienteId c) 0.

(** [this.modoEdicion && this.cuentaSeleccionada?.id]: the id of the
    account to update, when the test is truthy. *)
Definition id_a_actualizar (s : state) : option Z :=
  if modoEdicion s then
    match cuentaSeleccionada s with
    | Some c => match id c with Some i => if Z.eqb i 0 then None else Some i | None => None end
    | None => None
    end
  else None.

(** [guardarCuenta()] *)
Definition guardarCuenta : Comp state unit :=
  s <- gets (fun s => s) ;;
  if requeridos_faltan (nuevaCuenta s) then
    mostrarMensaje "Complete todos los campos obligatorios" MError
  else
    match id_a_actualizar s with
    | Some i =>
        subscribe (ApiService.updateCuenta i (nuevaCuenta s))
          (fun _ => mostrarMensaje "Cuenta actualizada exitosamente" MSuccess ;;
                    cargarCuentas ;; cancelar)
          (mostrarErrorBackend "Error: ")
    | None =>
        subscribe (ApiService.createCuenta (nuevaCuenta s))
          (fun _ => mostrarMensaje "Cuenta creada exitosamente" MSuccess ;;
                    cargarCuentas ;; cancelar)
          (mostrarErrorBackend "Error: ")
    end.

(** [eliminarCuenta(id)], with the answer to [confirm]. *)
Definition eliminarCuenta (i : Z) (confirmado : bool) : Comp state unit :=
  if confirmado then
    subscribe (ApiService.deleteCuenta i)
      (fun _ => mostrarMensaje "Cuenta eliminada exitosamente" MSuccess ;; cargarCuentas)
      (mostrarErrorBackend "Error: ")
  else ret tt.

(** The template's bindings: the form's inputs write [nuevaCuenta], the
    search box writes [busqueda]. *)
Definition input_nuevaCuenta (c : Cuenta) : Comp state unit := modify (set_nuevaCuenta c).
Definition input_busqueda (b : string) : Comp state unit := modify (set_busqueda b).

(** ** Lemmas *)

Lemma guardarCuenta_valid s :
  requeridos_faltan (nuevaCuenta s) = false ->
  final guardarCuenta s = s /\
  requests (started guardarCuenta s) =
    [match id_a_actualizar s with
     | Some i => call_request (ApiService.updateCuenta i (nuevaCuenta s))
     | None => call_request (ApiService.createCuenta (nuevaCuenta s))
     end].
Proof.
  intros H. unfold guardarCuenta, final, started. rewrite bind_gets, H.
  destruct (id_a_actualizar s); split; reflexivity.
Qed.

Lemma obj_get_cuenta_clienteNombre c :
  obj_get (cuenta_obj c) "clienteNombre" = option_map JStr (clienteNombre c).
Proof. destruct c as [[i|] n t b e k [m|]]; reflexivity. Qed.

(** ** Properties *)

(** C30: an incomplete account is refused without a request.  When the
    account number or the type is empty or the customer id is [0],
    [guardarCuenta] sends nothing, shows an error and keeps the form and
    the edit mode. *)
Theorem guardarCuenta_rejects (s : state) :
  numeroCuenta (nuevaCuenta s) = ""%string \/ tipoCuenta (nuevaCuenta s) = ""%string \/
  cuenta_clienteId (nuevaCuenta s) = 0 ->
  requests (started guardarCuenta s) = [] /\
  mensajeTipo (final guardarCuenta s) = MError /\
  nuevaCuenta (final guardarCuenta s) = nuevaCuenta s /\
  modoEdicion (final guardarCuenta s) = modoEdicion s.
Proof.
  intros Hc. assert (H : requeridos_faltan (nuevaCuenta s) = true).
  { unfold requeridos_faltan. destruct Hc as [-> | [-> | ->]]; rewrite ?orb_true_r; reflexivity. }
  unfold guardarCuenta, final, started. rewrite bind_gets, H. repeat split.
Qed.

Lemma guardarCuenta_rejects_witness :
  let s := set_nuevaCuenta (mkCuenta None "478758" "Ahorros" 100 true 0 None) init in
  cuenta_clienteId (nuevaCuenta s) = 0 /\ requests (started guardarCuenta s) = [].
Proof.
  intros s. split; [reflexivity|].
  apply (guardarCuenta_rejects s). right; right; reflexivity.
Defined.

(** C31: the display-only customer name is sent when an account is
    updated.  From any state, after [seleccionarCuenta c] for a row with a
    truthy id [i] and the required fields, [guardarCuenta] sends exactly
    [PUT /api/cuentas/i] with the whole row as body, so the body carries
    [clienteNombre] whenever the row had one, although the data model
    marks the name as display-only. *)
Theorem update_sends_clienteNombre (s : state) (c : Cuenta) (i : Z) :
  id c = Some i -> i <> 0 -> requeridos_faltan c = false ->
  let s' := final (seleccionarCuenta c) s in
  requests (started guardarCuenta s') = [call_request (ApiService.updateCuenta i c)] /\
  (forall body, req_body (call_request (ApiService.updateCuenta i c)) = Some body ->
     obj_get body "clienteNombre" = option_map JStr (clienteNombre c)).
Proof.
  intros Hi Hnz Hr s'.
  assert (Hid : id_a_actualizar s' = Some i).
  { unfold id_a_actualizar. simpl. rewrite Hi. destruct (Z.eqb_spec i 0); [contradiction|reflexivity]. }
  destruct (guardarCuenta_valid s' Hr) as [_ Hq]. rewrite Hid in Hq. split; [exact Hq|].
  intros body Hb. injection Hb as <-. apply obj_get_cuenta_clienteNombre.
Qed.

Lemma update_sends_clienteNombre_witness :
  let c := mkCuenta (Some 3) "478758" "Ahorros" 2000 true 1 (Some "Jose Lema") in
  requests (started guardarCuenta (final (seleccionarCuenta c) init)) =
    [call_request (ApiService.updateCuenta 3 c)] /\
  obj_get (cuenta_obj c) "clienteNombre" = Some (JStr "Jose Lema").
Proof.
  intros c. destruct (update_sends_clienteNombre init c 3) as [Hq Hb];
    [reflexivity|discriminate|reflexivity|].
  split; [exact Hq|apply Hb; reflexivity].
Defined.

(** C24: the account search keeps, in order, the accounts that match.
    The result is a sublist of the accounts; with an empty search box it
    is the whole list; otherwise an account is in it exactly when its
    number contains the lower-cased search text, or it has a customer
    name whose lower-cased form contains it, or its lower-cased type does
    (an account without a customer name is matched on the other two
    fields only); and lower-casing the search text changes nothing. *)
Theorem cuentasFiltradas_spec (s : state) :
  sublist (cuentasFiltradas s) (cuentas s) /\
  (busqueda s = ""%string -> cuentasFiltradas s = cuentas s) /\
  (busqueda s <> ""%string -> forall x, x ∈ cuentasFiltradas s <->
     x ∈ cuentas s /\
     (includes (numeroCuenta x) (to_lower (busqueda s)) = true \/
      (exists n, clienteNombre x = Some n /\ includes (to_lower n) (to_lower (busqueda s)) = true) \/
      includes (to_lower (tipoCuenta x)) (to_lower (busqueda s)) = true)) /\
  cuentasFiltradas (set_busqueda (to_lower (busqueda s)) s) = cuentasFiltradas s.
Proof.
  destruct (search_filter_spec coincide (busqueda s) (cuentas s)) as (H1 & H2 & H3 & H4).
  split; [exact H1|]. split; [exact H2|]. split; [|exact H4].
  intros E x. rewrite (H3 E x). unfold coincide. rewrite !orb_true_iff.
  destruct (clienteNombre x) as [n|].
  - split; intros [Hx Hm]; (split; [exact Hx|]); [|destruct Hm as [Hm|[(n' & [= <-] & Hm)|Hm]]];
      [destruct Hm as [[Hm|Hm]|Hm]; [left|right; left; exists n|right; right]|..]; auto.
  - split; intros [Hx Hm]; (split; [exact Hx|]); [|destruct Hm as [Hm|[(n' & Hn & _)|Hm]]];
      [destruct Hm as [[Hm|Hm]|Hm]; [left|discriminate|right; right]|..]; auto; discriminate.
Qed.

(** C35: a deletion is sent only after the confirmation.  When the user
    cancels the dialog, [eliminarCuenta] changes nothing and starts
    nothing; when the user confirms, it changes no field and sends exactly
    [DELETE /api/cuentas/i] without a body, and on success shows
    "Cuenta eliminada exitosamente" and reloads the accounts with
    [GET /api/cuentas]. *)
Theorem eliminarCuenta_spec (s : state) (i : Z) :
  final (eliminarCuenta i false) s = s /\ started (eliminarCuenta i false) s = [] /\
  final (eliminarCuenta i true) s = s /\
  requests (started (eliminarCuenta i true) s) =
    [mkRequest DELETE ("/api/cuentas/" +:+ pretty i) [] None] /\
  Forall (fun e => match e with
    | Subscribe _ next _ => forall a s0,
        mensaje (next a s0).1 = "Cuenta eliminada exitosamente"%string /\
        mensajeTipo (next a s0).1 = MSuccess /\
        requests (next a s0).2 = [mkRequest GET "/api/cuentas" [] None]
    | SetTimeout _ _ | Download _ => True
    end) (started (eliminarCuenta i true) s).
Proof. repeat split; repeat constructor. Qed.

End Cuentas.
