(* ===== verification/Constants.v ===== *)
(** [constants/app.constants.ts]: the application's constant tables, and
    how the components relate to them.

    The file declares the account types, the movement types, the genders,
    validation limits, message texts and the message duration.  No
    component imports it: the components repeat some values as literals
    (the four movement types of [onTipoMovimientoChange], the 5000 ms of
    [mostrarMensaje], two message texts of [validarCliente]) and apply none
    of the validation limits.  The theorems below relate the tables to the
    component models. *)

From stdpp Require Import pretty.
From S2P Require Import Prelude Models Api Effects Movimientos Clientes Cuentas.

Open Scope Z_scope.

Module AppConstants.

(** [TIPOS_CUENTA], [TIPOS_MOVIMIENTO], [GENEROS] *)
Definition TIPOS_CUENTA : list string := ["Ahorros"; "Corriente"].
Definition TIPOS_MOVIMIENTO : list string := ["Deposito"; "Retiro"; "Credito"; "Debito"].
Definition GENEROS : list string := ["Masculino"; "Femenino"; "Otro"].

(** [VALIDACIONES] *)
Record validaciones := mkValidaciones {
  EDAD_MINIMA : Z; EDAD_MAXIMA : Z;
  TELEFONO_MIN_LENGTH : Z; TELEFONO_MAX_LENGTH : Z;
  IDENTIFICACION_MIN_LENGTH : Z; IDENTIFICACION_MAX_LENGTH : Z;
  PASSWORD_MIN_LENGTH : Z; SALDO_MINIMO : Z; MONTO_MINIMO_TRANSACCION : Z
}.

Definition VALIDACIONES : validaciones := mkValidaciones 18 120 7 15 5 20 4 0 1.

(** [MENSAJES]: an object of two objects of strings.  [EDAD_INVALIDA] is
    a template literal that prints the two age limits of [VALIDACIONES]. *)
Record mensajes_error := mkMensajesError {
  CAMPOS_REQUERIDOS : string; EDAD_INVALIDA : string; PASSWORD_REQUERIDA : string;
  SALDO_INSUFICIENTE : string; MONTO_INVALIDO : string; CONFIRMACION : string
}.

Record mensajes_exito := mkMensajesExito {
  CREADO : string; ACTUALIZADO : string; ELIMINADO : string; GUARDADO : string
}.

Record mensajes := mkMensajes { ERROR : mensajes_error; EXITO : mensajes_exito }.

Definition MENSAJES : mensajes := mkMensajes
  (mkMensajesError
     "Por favor complete todos los campos obligatorios"
     ("La edad debe estar entre " +:+ pretty (EDAD_MINIMA VALIDACIONES) +:+ " y " +:+
      pretty (EDAD_MAXIMA VALIDACIONES) +:+ " años")
     "La contraseña es obligatoria para crear un cliente"
     "Saldo insuficiente para realizar la operación"
     "El monto debe ser mayor a cero"
     "¿Está seguro de realizar esta operación?")
  (mkMensajesExito
     "Registro creado exitosamente"
     "Registro actualizado exitosamente"
     "Registro eliminado exitosamente"
     "Cambios guardados exitosamente").

(** [APP_CONFIG] *)
Record app_config := mkAppConfig {
  DURACION_MENSAJE : Z; DEBOUNCE_SEARCH : Z; ITEMS_POR_PAGINA : Z; MAX_FILE_SIZE : Z
}.

Definition APP_CONFIG : app_config := mkAppConfig 5000 300 10 5242880.

(** ** Lemmas *)

(** The template literal prints the limits 18 and 120. *)
Lemma edad_invalida_text :
  EDAD_INVALIDA (ERROR MENSAJES) = "La edad debe estar entre 18 y 120 años"%string.
Proof. vm_compute. reflexivity. Qed.

Lemma input_tipo_final t s :
  final (Movimientos.input_tipoMovimiento t) s =
  final Movimientos.onTipoMovimientoChange
    (Movimientos.set_nuevoMovimiento
       (Movimientos.set_tipoMovimiento t (Movimientos.nuevoMovimiento s)) s).
Proof.
  unfold Movimientos.input_tipoMovimiento, final. rewrite bind_gets, bind_modify.
  destruct (Movimientos.onTipoMovimientoChange _) as [[r s'] e]. reflexivity.
Qed.

(** A customer form with its age and gender replaced. *)
Definition with_edad_genero (e : Z) (g : string) (c : Cliente) : Cliente :=
  mkCliente (clienteId c) (nombre c) g e (identificacion c) (direccion c) (telefono c)
            (contrasena c) (estado c).

(** An account form with its type and initial balance replaced. *)
Definition with_tipo_saldo (t : string) (b : Z) (c : Cuenta) : Cuenta :=
  mkCuenta (id c) (numeroCuenta c) t b (cuenta_estado c) (cuenta_clienteId c) (clienteNombre c).

(** ** Properties *)

(** Every movement type of [TIPOS_MOVIMIENTO] gets a sign.  Choosing
    any of the four types in the form of a movement with a non-zero value
    keeps the magnitude and makes the value negative exactly for
    "Retiro" and "Debito": the component's handler covers the whole
    table. *)
Theorem tipos_movimiento_signed (s : Movimientos.state) (t : string) :
  In t TIPOS_MOVIMIENTO -> valor (Movimientos.nuevoMovimiento s) <> 0 ->
  let v' := valor (Movimientos.nuevoMovimiento (final (Movimientos.input_tipoMovimiento t) s)) in
  Z.abs v' = Z.abs (valor (Movimientos.nuevoMovimiento s)) /\ (v' < 0 <-> t = "Retiro" \/ t = "Debito").
Proof.
  intros Hin Hv v'. subst v'. rewrite input_tipo_final.
  destruct (Movimientos.onTipo_branches
    (Movimientos.set_nuevoMovimiento (Movimientos.set_tipoMovimiento t (Movimientos.nuevoMovimiento s)) s))
    as [_ ->].
  simpl in Hin. destruct_or! Hin; try contradiction; subst t; simpl.
  all: split; [lia|]; split; intros H;
    first [lia | (destruct_or! H; discriminate) | (left; reflexivity) | (right; reflexivity)].
Qed.

Lemma tipos_movimiento_signed_witness :
  let s := Movimientos.set_nuevoMovimiento (mkMovimiento None None "" 40 None "478758")
             Movimientos.init in
  In "Retiro" TIPOS_MOVIMIENTO /\
  valor (Movimientos.nuevoMovimiento (final (Movimientos.input_tipoMovimiento "Retiro") s)) = -40.
Proof.
  intros s. split; [simpl; tauto|].
  destruct (tipos_movimiento_signed s "Retiro") as [Habs Hneg];
    [simpl; tauto|discriminate|].
  set (v := valor (Movimientos.nuevoMovimiento (final (Movimientos.input_tipoMovimiento "Retiro") s))) in *.
  assert (Hlt : v < 0) by (apply Hneg; left; reflexivity).
  assert (H40 : valor (Movimientos.nuevoMovimiento s) = 40) by reflexivity.
  rewrite H40 in Habs. lia.
Defined.

(** C36: the validation limits of [VALIDACIONES], [GENEROS] and
    [TIPOS_CUENTA] are not applied.  A new customer whose required fields
    and password are filled in is sent whatever its age and gender, below
    [EDAD_MINIMA] or outside [GENEROS] included; an account whose
    required fields are filled in is sent whatever its type and initial
    balance, outside [TIPOS_CUENTA] or below [SALDO_MINIMO] included. *)
Theorem validaciones_not_enforced (sc : Clientes.state) (sa : Cuentas.state)
    (e : Z) (g t : string) (b : Z) :
  Clientes.requeridos_ok (Clientes.nuevoCliente sc) = true -> Clientes.modoEdicion sc = false ->
  Clientes.contrasena_falsy (contrasena (Clientes.nuevoCliente sc)) = false ->
  Cuentas.requeridos_faltan (Cuentas.nuevaCuenta sa) = false -> t <> ""%string ->
  requests (started Clientes.guardarCliente
              (Clientes.set_nuevoCliente (with_edad_genero e g (Clientes.nuevoCliente sc)) sc)) =
    [call_request (ApiService.createCliente (with_edad_genero e g (Clientes.nuevoCliente sc)))] /\
  exists r, requests (started Cuentas.guardarCuenta
              (Cuentas.set_nuevaCuenta (with_tipo_saldo t b (Cuentas.nuevaCuenta sa)) sa)) = [r] /\
    req_body r = Some (cuenta_obj (with_tipo_saldo t b (Cuentas.nuevaCuenta sa))).
Proof.
  intros H1 H2 H3 H4 Ht. split.
  - apply Clientes.guardarCliente_create_run; assumption.
  - destruct (Cuentas.guardarCuenta_valid
      (Cuentas.set_nuevaCuenta (with_tipo_saldo t b (Cuentas.nuevaCuenta sa)) sa)) as [_ Hq].
    + unfold Cuentas.requeridos_faltan in *. simpl.
      apply str_falsy_false in Ht. rewrite Ht.
      apply orb_false_iff in H4 as [H4 H5]. apply orb_false_iff in H4 as [H4 _].
      rewrite H4, H5. reflexivity.
    + rewrite Hq. eexists. split; [reflexivity|].
      destruct (Cuentas.id_a_actualizar _); reflexivity.
Qed.

Lemma validaciones_not_enforced_witness :
  let sc := Clientes.set_nuevoCliente
              (mkCliente None "Ana" "Femenino" 30 "0102" "Quito" "0991" (Some "1234") true)
              Clientes.init in
  let sa := Cuentas.set_nuevaCuenta (mkCuenta None "478758" "Ahorros" 100 true 1 None)
              Cuentas.init in
  5 < EDAD_MINIMA VALIDACIONES /\ ~ In "X" GENEROS /\
  -100 < SALDO_MINIMO VALIDACIONES /\ ~ In "Plazo" TIPOS_CUENTA /\
  requests (started Clientes.guardarCliente
              (Clientes.set_nuevoCliente (with_edad_genero 5 "X" (Clientes.nuevoCliente sc)) sc)) =
    [call_request (ApiService.createCliente (with_edad_genero 5 "X" (Clientes.nuevoCliente sc)))].
Proof.
  intros sc sa. split; [reflexivity|]. split; [simpl; intuition discriminate|].
  split; [reflexivity|]. split; [simpl; intuition discriminate|].
  destruct (validaciones_not_enforced sc sa 5 "X" "Plazo" (-100)) as [Hc _];
    [reflexivity|reflexivity|reflexivity|reflexivity|discriminate|exact Hc].
Defined.

End AppConstants.
