(* ===== verification/Dates.v ===== *)
(** The JavaScript [Date] operations used by [ReportesComponent].

    A [Date] is its time value, milliseconds since 1970-01-01T00:00:00Z,
    or [None] for an invalid date (NaN).  The browser's time zone is a
    fixed offset [off] in milliseconds east of UTC (a zone at UTC-5 has
    [off = -18000000]); daylight-saving changes are not modelled.

    - [new Date("YYYY-MM-DD")] is UTC midnight of that day (date-only
      forms are UTC, ECMA-262 21.4.3.2), [parse_date_only];
    - [new Date("YYYY-MM-DDTHH:mm:ss")] is that local time (date-time forms
      without an offset are local), [parse_local];
    - [d.setHours(0, 0, 0, 0)] is the local midnight of [d]'s local day,
      [local_midnight];
    - [d.toISOString()] prints the UTC date and time, and throws a
      [RangeError] on an invalid date, [toISOString];
    - [s.split('T')[0]] is [before_T].

    Only the form an [<input type="date">] produces is parsed: four digits
    of year, two of month, two of day, and a real calendar date; anything
    else is an invalid date.  Day numbers are converted to and from the
    proleptic Gregorian calendar by the civil-day algorithms
    [days_from_civil] and [civil_from_days] (floor division throughout). *)

From S2P Require Import Prelude.

Open Scope Z_scope.

Definition MS_PER_DAY : Z := 86400000.

(** ** Calendar *)

Definition days_from_civil (y m d : Z) : Z :=
  let y := if m <=? 2 then y - 1 else y in
  let era := y / 400 in
  let yoe := y - era * 400 in
  let mp := (m + 9) mod 12 in
  let doy := (153 * mp + 2) / 5 + d - 1 in
  let doe := yoe * 365 + yoe / 4 - yoe / 100 + doy in
  era * 146097 + doe - 719468.

Definition civil_from_days (z : Z) : Z * Z * Z :=
  let z := z + 719468 in
  let era := z / 146097 in
  let doe := z - era * 146097 in
  let yoe := (doe - doe / 1460 + doe / 36524 - doe / 146096) / 365 in
  let y := yoe + era * 400 in
  let doy := doe - (365 * yoe + yoe / 4 - yoe / 100) in
  let mp := (5 * doy + 2) / 153 in
  let d := doy - (153 * mp + 2) / 5 + 1 in
  let m := if mp <? 10 then mp + 3 else mp - 9 in
  (if m <=? 2 then y + 1 else y, m, d).

Definition is_leap (y : Z) : bool :=
  (Z.eqb (y mod 4) 0 && negb (Z.eqb (y mod 100) 0)) || Z.eqb (y mod 400) 0.

Definition days_in_month (y m : Z) : Z :=
  if Z.eqb m 2 then (if is_leap y then 29 else 28)
  else if Z.eqb m 4 || Z.eqb m 6 || Z.eqb m 9 || Z.eqb m 11 then 30 else 31.

Definition valid_date (y m d : Z) : bool :=
  (1 <=? m) && (m <=? 12) && (1 <=? d) && (d <=? days_in_month y m).

(** ** Printing *)

Definition digit (n : Z) : ascii := ascii_of_nat (48 + Z.to_nat n).

(** The [k] low decimal digits of [n], with leading zeros. *)
Fixpoint pad (k : nat) (n : Z) : string :=
  match k with
  | O => ""
  | S k' => pad k' (n / 10) +:+ String (digit (n mod 10)) ""
  end.

Definition year_str (y : Z) : string :=
  if (0 <=? y) && (y <=? 9999) then pad 4 y
  else (if y <? 0 then "-" else "+") +:+ pad 6 (Z.abs y).

Definition date_str (day : Z) : string :=
  let '(y, m, d) := civil_from_days day in
  year_str y +:+ "-" +:+ pad 2 m +:+ "-" +:+ pad 2 d.

(** [Date.prototype.toISOString]: [None] is the [RangeError] thrown for an
    invalid date or a time value beyond 8.64e15 ms. *)
Definition toISOString (t : option Z) : option string :=
  match t with
  | None => None
  | Some t =>
      if 8640000000000000 <? Z.abs t then None else
      let msd := t mod MS_PER_DAY in
      Some (date_str (t / MS_PER_DAY) +:+ "T" +:+ pad 2 (msd / 3600000) +:+ ":" +:+
            pad 2 (msd / 60000 mod 60) +:+ ":" +:+ pad 2 (msd / 1000 mod 60) +:+ "." +:+
            pad 3 (msd mod 1000) +:+ "Z")
  end.

(** [s.split('T')[0]] *)
Fixpoint before_T (s : string) : string :=
  match s with
  | EmptyString => EmptyString
  | String c s' => if Ascii.eqb c "T"%char then EmptyString else String c (before_T s')
  end.

(** ** Parsing *)

Definition digit_val (c : ascii) : option Z :=
  let n := nat_of_ascii c in
  if (48 <=? n)%nat && (n <=? 57)%nat then Some (Z.of_nat n - 48) else None.

(** Read exactly [k] decimal digits. *)
Fixpoint read_digits (k : nat) (acc : Z) (s : string) : option (Z * string) :=
  match k with
  | O => Some (acc, s)
  | S k' =>
      match s with
      | String c s' =>
          match digit_val c with
          | Some v => read_digits k' (acc * 10 + v) s'
          | None => None
          end
      | EmptyString => None
      end
  end.

Definition read_char (c : ascii) (s : string) : option string :=
  match s with
  | String c' s' => if Ascii.eqb c c' then Some s' else None
  | EmptyString => None
  end.

(** "YYYY-MM-DD" followed by the rest of the string. *)
Definition read_ymd (s : string) : option (Z * Z * Z * string) :=
  match read_digits 4 0 s with
  | Some (y, s) =>
    match read_char "-" s with
    | Some s =>
      match read_digits 2 0 s with
      | Some (m, s) =>
        match read_char "-" s with
        | Some s =>
          match read_digits 2 0 s with
          | Some (d, s) => if valid_date y m d then Some (y, m, d, s) else None
          | None => None
          end
        | None => None
        end
      | None => None
      end
    | None => None
    end
  | None => None
  end.

(** [new Date("YYYY-MM-DD")]: UTC midnight. *)
Definition parse_date_only (s : string) : option Z :=
  match read_ymd s with
  | Some (y, m, d, EmptyString) => Some (days_from_civil y m d * MS_PER_DAY)
  | _ => None
  end.

(** [new Date("YYYY-MM-DDTHH:mm:ss")]: local time in the zone [off]. *)
Definition read_hms (s : string) : option (Z * Z * Z) :=
  match read_char "T" s with
  | Some s =>
    match read_digits 2 0 s with
    | Some (hh, s) =>
      match read_char ":" s with
      | Some s =>
        match read_digits 2 0 s with
        | Some (mi, s) =>
          match read_char ":" s with
          | Some s =>
            match read_digits 2 0 s with
            | Some (ss, EmptyString) =>
                if (hh <=? 23) && (mi <=? 59) && (ss <=? 59) then Some (hh, mi, ss) else None
            | _ => None
            end
          | None => None
          end
        | None => None
        end
      | None => None
      end
    | None => None
    end
  | None => None
  end.

Definition parse_local (off : Z) (s : string) : option Z :=
  match read_ymd s with
  | Some (y, m, d, rest) =>
      match read_hms rest with
      | Some (hh, mi, ss) =>
          Some (days_from_civil y m d * MS_PER_DAY + hh * 3600000 + mi * 60000 + ss * 1000 - off)
      | None => None
      end
  | None => None
  end.

(** [a > b] on dates: false when either is invalid (a comparison with NaN). *)
Definition date_gt (a b : option Z) : bool :=
  match a, b with Some x, Some y => y <? x | _, _ => false end.

(** The local day number of the instant [t], and [setHours(0,0,0,0)]. *)
Definition local_day (off t : Z) : Z := (t + off) / MS_PER_DAY.
Definition local_midnight (off t : Z) : Z := local_day off t * MS_PER_DAY - off.

(** ** Lemmas *)

Lemma date_gt_some a b : date_gt (Some a) (Some b) = true <-> b < a.
Proof. simpl. apply Z.ltb_lt. Qed.

Lemma local_midnight_le off t : local_midnight off t <= t.
Proof.
  unfold local_midnight, local_day, MS_PER_DAY.
  pose proof (Z.mul_div_le (t + off) 86400000). lia.
Qed.

Lemma local_midnight_gt off t : t < local_midnight off t + MS_PER_DAY.
Proof.
  unfold local_midnight, local_day, MS_PER_DAY.
  pose proof (Z.mod_pos_bound (t + off) 86400000).
  pose proof (Z.div_mod (t + off) 86400000). lia.
Qed.

Lemma read_digits_app k acc s r v rest :
  read_digits k acc s = Some (v, rest) -> read_digits k acc (s +:+ r) = Some (v, rest +:+ r).
Proof.
  revert acc s. induction k as [|k IH]; intros acc s; simpl.
  - intros [= <- <-]. reflexivity.
  - destruct s as [|c s]; [discriminate|]. simpl.
    destruct (digit_val c); [apply IH|discriminate].
Qed.

Lemma digit_val_bound c v : digit_val c = Some v -> 0 <= v <= 9.
Proof.
  unfold digit_val. destruct (_ && _) eqn:E; [|discriminate]. intros [= <-].
  apply andb_true_iff in E as [E1 E2]. apply Nat.leb_le in E1, E2. lia.
Qed.

Lemma read_digits_bound k acc s v rest :
  0 <= acc -> read_digits k acc s = Some (v, rest) -> 0 <= v < (acc + 1) * 10 ^ Z.of_nat k.
Proof.
  revert acc s. induction k as [|k IH]; intros acc s Hacc; simpl.
  - intros [= <- _]. lia.
  - destruct s as [|c s]; [discriminate|].
    destruct (digit_val c) as [dv|] eqn:Ed; [|discriminate]. intros H.
    apply digit_val_bound in Ed. apply IH in H; [|lia].
    rewrite Nat2Z.inj_succ, Z.pow_succ_r by lia. nia.
Qed.

Lemma read_char_app c s r rest : read_char c s = Some rest -> read_char c (s +:+ r) = Some (rest +:+ r).
Proof.
  destruct s as [|c' s]; simpl; [discriminate|]. destruct (Ascii.eqb c c'); [|discriminate].
  intros [= <-]. reflexivity.
Qed.

Ltac read_step E :=
  match goal with
  | |- context [read_digits ?k ?a ?x] =>
      destruct (read_digits k a x) as [[? ?]|] eqn:E; cbv beta iota; [|discriminate]
  | |- context [read_char ?c ?x] =>
      destruct (read_char c x) as [?|] eqn:E; cbv beta iota; [|discriminate]
  end.

Lemma read_ymd_app s r y m d rest :
  read_ymd s = Some (y, m, d, rest) -> read_ymd (s +:+ r) = Some (y, m, d, rest +:+ r).
Proof.
  unfold read_ymd.
  read_step E1. rewrite (read_digits_app _ _ _ _ _ _ E1). cbv beta iota.
  read_step E2. rewrite (read_char_app _ _ _ _ E2). cbv beta iota.
  read_step E3. rewrite (read_digits_app _ _ _ _ _ _ E3). cbv beta iota.
  read_step E4. rewrite (read_char_app _ _ _ _ E4). cbv beta iota.
  read_step E5. rewrite (read_digits_app _ _ _ _ _ _ E5). cbv beta iota.
  destruct (valid_date _ _ _); [|discriminate]. intros [= <- <- <- <-]. reflexivity.
Qed.

Lemma read_ymd_bounds s y m d rest :
  read_ymd s = Some (y, m, d, rest) -> 0 <= y <= 9999 /\ 1 <= m <= 12 /\ 1 <= d <= 31.
Proof.
  unfold read_ymd. read_step E1. read_step E2. read_step E3. read_step E4. read_step E5.
  destruct (valid_date _ _ _) eqn:V; [|discriminate]. intros [= <- <- <- <-].
  apply read_digits_bound in E1; [|lia]. simpl in E1.
  unfold valid_date, days_in_month in V.
  repeat match goal with H : (_ && _) = true |- _ => apply andb_true_iff in H as [? ?] end.
  repeat match goal with H : (_ <=? _) = true |- _ => apply Z.leb_le in H end.
  repeat split; try lia.
  match goal with H : _ <= (if _ then _ else _) |- _ => revert H end.
  repeat (destruct (_ =? _) || destruct (_ || _) || destruct (is_leap _)); lia.
Qed.

Lemma days_from_civil_bound y m d :
  0 <= y <= 9999 -> 1 <= m <= 12 -> 1 <= d <= 31 ->
  -800000 <= days_from_civil y m d <= 3000000.
Proof.
  intros Hy Hm Hd. unfold days_from_civil.
  destruct (Z.leb_spec m 2); Z.div_mod_to_equations; lia.
Qed.

(** What [new Date(fecha)] and [new Date(fecha + 'T...')] give for the
    same valid date: UTC midnight, and the local midnight and local
    23:59:59 of that day. *)
Lemma read_hms_start : read_hms ("" +:+ "T00:00:00") = Some (0, 0, 0).
Proof. vm_compute. reflexivity. Qed.

Lemma read_hms_end : read_hms ("" +:+ "T23:59:59") = Some (23, 59, 59).
Proof. vm_compute. reflexivity. Qed.

Lemma parse_local_of_date off s t :
  parse_date_only s = Some t ->
  parse_local off (s +:+ "T00:00:00") = Some (t - off) /\
  parse_local off (s +:+ "T23:59:59") = Some (t + 86399000 - off) /\
  -800000 * MS_PER_DAY <= t <= 3000000 * MS_PER_DAY.
Proof.
  unfold parse_date_only. destruct (read_ymd s) as [[[[y m] d] rest]|] eqn:E; [|discriminate].
  destruct rest; [|discriminate]. intros [= <-].
  pose proof (read_ymd_bounds _ _ _ _ _ E) as (Hy & Hm & Hd).
  pose proof (days_from_civil_bound y m d Hy Hm Hd).
  unfold parse_local. rewrite !(read_ymd_app _ _ _ _ _ _ E). cbv beta iota.
  rewrite read_hms_start, read_hms_end.
  repeat split; try f_equal; unfold MS_PER_DAY in *; lia.
Qed.

(** ** Printing then parsing a date gives it back *)

Arguments digit : simpl never.

Fixpoint has_T (s : string) : bool :=
  match s with
  | EmptyString => false
  | String c s' => Ascii.eqb c "T"%char || has_T s'
  end.

Lemma digit_facts n : 0 <= n <= 9 -> digit_val (digit n) = Some n /\ Ascii.eqb (digit n) "T"%char = false.
Proof.
  intros Hn. rewrite <- (Z2Nat.id n) by lia.
  assert (Hk : (Z.to_nat n < 10)%nat) by lia. revert Hk. generalize (Z.to_nat n) as k.
  intros k Hk. do 10 (destruct k as [|k]; [split; reflexivity|]). lia.
Qed.

Lemma has_T_app s r : has_T (s +:+ r) = has_T s || has_T r.
Proof. induction s as [|c s IH]; simpl; [reflexivity|]. rewrite IH, orb_assoc. reflexivity. Qed.

Lemma has_T_pad k n : has_T (pad k n) = false.
Proof.
  revert n. induction k as [|k IH]; intros n; [reflexivity|]. cbn [pad].
  rewrite has_T_app, IH. cbn [has_T orb].
  rewrite (proj2 (digit_facts (n mod 10) ltac:(pose proof (Z.mod_pos_bound n 10); lia))).
  reflexivity.
Qed.

Lemma before_T_app s r : has_T s = false -> before_T (s +:+ String "T" r) = s.
Proof.
  induction s as [|c s IH]; simpl; [reflexivity|].
  destruct (Ascii.eqb c "T"%char); [discriminate|]. intros H. simpl. rewrite IH; done.
Qed.

Lemma read_digits_split k j acc s :
  read_digits (k + j) acc s =
    match read_digits k acc s with Some (v, s') => read_digits j v s' | None => None end.
Proof.
  revert acc s. induction k as [|k IH]; intros acc s; [reflexivity|]. simpl.
  destruct s as [|c s]; [reflexivity|]. destruct (digit_val c); [apply IH|reflexivity].
Qed.

Lemma read_digits_pad k n acc r :
  0 <= n < 10 ^ Z.of_nat k ->
  read_digits k acc (pad k n +:+ r) = Some (acc * 10 ^ Z.of_nat k + n, r).
Proof.
  revert n acc r. induction k as [|k IH]; intros n acc r Hn.
  - simpl in *. f_equal. f_equal. lia.
  - rewrite Nat2Z.inj_succ, Z.pow_succ_r in * by lia.
    replace (S k) with (k + 1)%nat by lia. rewrite read_digits_split.
    replace (k + 1)%nat with (S k) by lia. cbn [pad]. rewrite string_app_assoc.
    pose proof (Z.mod_pos_bound n 10 ltac:(lia)). pose proof (Z.div_mod n 10 ltac:(lia)).
    rewrite IH by (split; [apply Z.div_pos|apply Z.div_lt_upper_bound]; lia).
    change (String (digit (n mod 10)) "" +:+ r) with (String (digit (n mod 10)) r).
    cbn [read_digits]. rewrite (proj1 (digit_facts (n mod 10) ltac:(lia))).
    cbn [read_digits]. f_equal. f_equal. nia.
Qed.

Lemma pad_nil k n : pad k n = pad k n +:+ "".
Proof. symmetry. apply string_app_nil_r. Qed.

Lemma has_T_cons c s : has_T (String c s) = Ascii.eqb c "T"%char || has_T s.
Proof. reflexivity. Qed.

Lemma read_char_same c r : read_char c (String c r) = Some r.
Proof. unfold read_char. rewrite Ascii.eqb_refl. reflexivity. Qed.

Lemma read_ymd_pad y m d r :
  0 <= y < 10000 -> 0 <= m < 100 -> 0 <= d < 100 ->
  read_ymd (pad 4 y +:+ String "-" (pad 2 m +:+ String "-" (pad 2 d +:+ r))) =
    if valid_date y m d then Some (y, m, d, r) else None.
Proof.
  intros Hy Hm Hd. unfold read_ymd.
  rewrite read_digits_pad by (simpl; lia). cbv beta iota. rewrite read_char_same. cbv beta iota.
  rewrite read_digits_pad by (simpl; lia). cbv beta iota. rewrite read_char_same. cbv beta iota.
  rewrite read_digits_pad by (simpl; lia). cbv beta iota.
  rewrite !Z.mul_0_l, !Z.add_0_l. reflexivity.
Qed.

(** The calendar identities, checked on every day from 1970-01-01 to
    2199-12-31 (day numbers 0 to 84005): converting a day number to a
    date and back gives the day, the date is a real date, and its year has
    four digits. *)
Fixpoint zseq (start : Z) (n : nat) : list Z :=
  match n with O => [] | S n' => start :: zseq (start + 1) n' end.

Definition civil_ok (z : Z) : bool :=
  let '(y, m, d) := civil_from_days z in
  Z.eqb (days_from_civil y m d) z && valid_date y m d && (0 <=? y) && (y <=? 9999).

Definition DAY_MAX : Z := 84006.

Lemma civil_ok_all : forallb civil_ok (zseq 0 (Z.to_nat DAY_MAX)) = true.
Proof. vm_compute. reflexivity. Qed.

Lemma zseq_In a n z : a <= z < a + Z.of_nat n -> In z (zseq a n).
Proof.
  revert a. induction n as [|n IH]; intros a H; simpl; [lia|].
  destruct (Z.eq_dec a z); [left; exact e|right; apply IH; lia].
Qed.

Lemma civil_ok_range z : 0 <= z < DAY_MAX -> civil_ok z = true.
Proof.
  intros H. eapply forallb_forall; [exact civil_ok_all|]. apply zseq_In.
  rewrite Z2Nat.id by (unfold DAY_MAX; lia). lia.
Qed.

Lemma days_in_month_le y m : days_in_month y m <= 31.
Proof. unfold days_in_month. repeat (destruct (_ =? _) || destruct (_ || _) || destruct (is_leap _)); lia. Qed.

(** Printing a day as "YYYY-MM-DD" and parsing it back gives the day. *)
Lemma date_str_roundtrip z :
  0 <= z < DAY_MAX ->
  parse_date_only (date_str z) = Some (z * MS_PER_DAY) /\ has_T (date_str z) = false.
Proof.
  intros Hz. pose proof (civil_ok_range z Hz) as H. unfold civil_ok, date_str in *.
  destruct (civil_from_days z) as [[y m] d].
  repeat match goal with K : (_ && _) = true |- _ => apply andb_true_iff in K as [? ?] end.
  repeat match goal with K : (_ <=? _) = true |- _ => apply Z.leb_le in K end.
  match goal with K : (days_from_civil _ _ _ =? _) = true |- _ => apply Z.eqb_eq in K end.
  match goal with K : valid_date _ _ _ = true |- _ => rename K into Hv end.
  pose proof Hv as Hv'. unfold valid_date in Hv'.
  repeat match goal with K : (_ && _) = true |- _ => apply andb_true_iff in K as [? ?] end.
  repeat match goal with K : (_ <=? _) = true |- _ => apply Z.leb_le in K end.
  pose proof (days_in_month_le y m).
  assert (Hs : year_str y +:+ "-" +:+ pad 2 m +:+ "-" +:+ pad 2 d =
               pad 4 y +:+ String "-" (pad 2 m +:+ String "-" (pad 2 d +:+ ""))).
  { unfold year_str. replace ((0 <=? y) && (y <=? 9999)) with true
      by (symmetry; apply andb_true_iff; split; apply Z.leb_le; lia). reflexivity. }
  rewrite Hs. split.
  - unfold parse_date_only. rewrite read_ymd_pad by lia. rewrite Hv. f_equal. f_equal. lia.
  - repeat rewrite ?has_T_app, ?has_T_cons, ?has_T_pad. reflexivity.
Qed.

(** [formatearFecha]'s expression on a time value between 1970 and 2199:
    the UTC date of that instant. *)
Lemma before_T_toISOString t :
  0 <= t < DAY_MAX * MS_PER_DAY ->
  option_map before_T (toISOString (Some t)) = Some (date_str (t / MS_PER_DAY)).
Proof.
  intros Ht. unfold toISOString.
  replace (8640000000000000 <? Z.abs t) with false
    by (symmetry; apply Z.ltb_ge; unfold DAY_MAX, MS_PER_DAY in *; lia).
  simpl. f_equal.
  assert (Hd : 0 <= t / MS_PER_DAY < DAY_MAX).
  { unfold MS_PER_DAY in *. split; [apply Z.div_pos; lia|apply Z.div_lt_upper_bound; lia]. }
  exact (before_T_app _ _ (proj2 (date_str_roundtrip _ Hd))).
Qed.
