(* ===== verification/Reportes.v ===== *)
(** [components/reportes/reportes.component.ts]: the statement report.

    The fields are the Record [state].  The methods that read the clock
    ([new Date()]) take the time of the call [now] (ms since the epoch) and
    the browser's zone offset [off] as arguments; [Dates.v] models the
    [Date] operations.  [generarReporte] validates the form (client and
    both dates present, start not after end, no date after today's local
    midnight), then sets [cargando], turns the two dates into the instants
    [fecha + 'T00:00:00'] and [fecha + 'T23:59:59'] in local time, and
    requests the report.  The getters [totalCreditos] and [totalDebitos]
    are the sums the PDF summary shows.  The exports refuse an empty report
    and otherwise hand one file to the browser. *)

From S2P Require Import Prelude Models Api ErrorInterceptor Effects Dates.
From stdpp Require Import pretty.

Open Scope Z_scope.
Open Scope bank_scope.

Module Reportes.

Record state := mkState {
  clientes : list Cliente;
  reporteData : list ReporteMovimiento;
  clienteSeleccionado : option Z;
  fechaInicio : string;
  fechaFin : string;
  mensaje : string;
  mensajeTipo : msg_tipo;
  cargando : bool
}.

Definition set_clientes v s := mkState v (reporteData s) (clienteSeleccionado s)
  (fechaInicio s) (fechaFin s) (mensaje s) (mensajeTipo s) (cargando s).
Definition set_reporteData v s := mkState (clientes s) v (clienteSeleccionado s)
  (fechaInicio s) (fechaFin s) (mensaje s) (mensajeTipo s) (cargando s).
Definition set_clienteSeleccionado v s := mkState (clientes s) (reporteData s) v
  (fechaInicio s) (fechaFin s) (mensaje s) (mensajeTipo s) (cargando s).
Definition set_fechaInicio v s := mkState (clientes s) (reporteData s) (clienteSeleccionado s)
  v (fechaFin s) (mensaje s) (mensajeTipo s) (cargando s).
Definition set_fechaFin v s := mkState (clientes s) (reporteData s) (clienteSeleccionado s)
  (fechaInicio s) v (mensaje s) (mensajeTipo s) (cargando s).
Definition set_cargando v s := mkState (clientes s) (reporteData s) (clienteSeleccionado s)
  (fechaInicio s) (fechaFin s) (mensaje s) (mensajeTipo s) v.

#[export] Instance has_mensaje : HasMensaje state := {|
  get_mensaje := mensaje;
  get_mensajeTipo := mensajeTipo;
  set_mensaje v s := mkState (clientes s) (reporteData s) (clienteSeleccionado s)
    (fechaInicio s) (fechaFin s) v (mensajeTipo s) (cargando s);
  set_mensajeTipo v s := mkState (clientes s) (reporteData s) (clienteSeleccionado s)
    (fechaInicio s) (fechaFin s) (mensaje s) v (cargando s)
|}.

#[export] Instance has_mensaje_laws : HasMensajeLaws state.
Proof. split; reflexivity. Qed.

(** The field initialisers. *)
Definition init : state := mkState [] [] None "" "" "" MSuccess false.

(** [formatearFecha(fecha) { return fecha.toISOString().split('T')[0]; }] *)
Definition formatearFecha (t : Z) : option string :=
  option_map before_T (toISOString (Some t)).

(** [hace30Dias.setDate(hoy.getDate() - 30)]: thirty local days earlier,
    the same local time (the offset is fixed). *)
Definition setFechasPorDefecto (now : Z) : Comp state unit :=
  let hace30Dias := now - 30 * MS_PER_DAY in
  ff <- from_opt (formatearFecha now) ;;
  modify (set_fechaFin ff) ;;
  fi <- from_opt (formatearFecha hace30Dias) ;;
  modify (set_fechaInicio fi).

Definition cargarClientes : Comp state unit :=
  subscribe ApiService.getClientes
    (fun data => modify (set_clientes (List.filter estado data)))
    (fun _ => mostrarMensaje "Error al cargar clientes" MError).

Definition ngOnInit (now : Z) : Comp state unit :=
  cargarClientes ;; setFechasPorDefecto now.

(** [!this.clienteSeleccionado]: [null] and [0] are falsy. *)
Definition sel_falsy (o : option Z) : bool :=
  match o with Some i => Z.eqb i 0 | None => true end.

(** The [next] and [error] callbacks of the report request. *)
Definition reporte_next (data : list ReporteMovimiento) : Comp state unit :=
  modify (set_reporteData data) ;;
  modify (set_cargando false) ;;
  if Nat.eqb (length data) 0 then
    mostrarMensaje "No se encontraron movimientos en el rango de fechas especificado" MError
  else mostrarMensaje "Reporte generado exitosamente" MSuccess.

Definition reporte_error (e : NormalizedError) : Comp state unit :=
  modify (set_cargando false) ;;
  mostrarErrorBackend "Error al generar reporte: " e.

Definition generarReporte (now off : Z) : Comp state unit :=
  s <- gets (fun s => s) ;;
  let fi := fechaInicio s in
  let ff := fechaFin s in
  if sel_falsy (clienteSeleccionado s) || str_falsy fi || str_falsy ff then
    mostrarMensaje "Por favor complete todos los campos" MError
  else if date_gt (parse_date_only fi) (parse_date_only ff) then
    mostrarMensaje "La fecha de inicio no puede ser posterior a la fecha de fin" MError
  else
    let hoy := local_midnight off now in
    if date_gt (parse_date_only fi) (Some hoy) || date_gt (parse_date_only ff) (Some hoy) then
      mostrarMensaje "Las fechas no pueden ser futuras" MError
    else
      modify (set_cargando true) ;;
      fechaInicioISO <- from_opt (toISOString (parse_local off (fi +:+ "T00:00:00"))) ;;
      fechaFinISO <- from_opt (toISOString (parse_local off (ff +:+ "T23:59:59"))) ;;
      subscribe (ApiService.getReporte (default 0 (clienteSeleccionado s)) fechaInicioISO fechaFinISO)
        reporte_next reporte_error.

(** The sums over a list of rows. *)
Definition total_creditos (l : list ReporteMovimiento) : Z :=
  reduce_sum movimiento (List.filter (fun r => 0 <? movimiento r) l).
Definition total_debitos (l : list ReporteMovimiento) : Z :=
  reduce_sum (fun r => Z.abs (movimiento r)) (List.filter (fun r => movimiento r <? 0) l).

(** [get totalCreditos()] and [get totalDebitos()] *)
Definition totalCreditos (s : state) : Z := total_creditos (reporteData s).
Definition totalDebitos (s : state) : Z := total_debitos (reporteData s).

(** [this.clientes.find(c => c.clienteId === Number(this.clienteSeleccionado))] *)
Definition cliente_seleccionado (s : state) : option Cliente :=
  let key := default 0 (clienteSeleccionado s) in
  List.find (fun c => match clienteId c with Some i => Z.eqb i key | None => false end)
    (clientes s).

Definition exportarPDF (now : Z) : Comp state unit :=
  s <- gets (fun s => s) ;;
  if Nat.eqb (length (reporteData s)) 0 then
    mostrarMensaje "No hay datos para exportar" MError
  else
    let cliente := cliente_seleccionado s in
    (* [cliente?.nombre || 'N/A'] in the header, [cliente?.nombre] in the file name *)
    let nombre_o := option_map nombre cliente in
    let cabecera := match nombre_o with
                    | Some n => if str_falsy n then "N/A" else n
                    | None => "N/A" end in
    let archivo := "reporte-" +:+ default "undefined" nombre_o +:+ "-" +:+ pretty now +:+ ".pdf" in
    download_ (PdfDownload archivo cabecera (fechaInicio s, fechaFin s) (reporteData s)
                 (totalCreditos s) (totalDebitos s) (totalCreditos s - totalDebitos s)) ;;
    mostrarMensaje "PDF descargado exitosamente" MSuccess.

Definition exportarJSON (now : Z) : Comp state unit :=
  s <- gets (fun s => s) ;;
  if Nat.eqb (length (reporteData s)) 0 then
    mostrarMensaje "No hay datos para exportar" MError
  else
    download_ (JsonDownload ("reporte-" +:+ pretty now +:+ ".json") (reporteData s)) ;;
    mostrarMensaje "JSON descargado exitosamente" MSuccess.

(** The template's bindings: the customer select and the two date
    inputs. *)
Definition input_clienteSeleccionado (i : option Z) : Comp state unit :=
  modify (set_clienteSeleccionado i).
Definition input_fechaInicio (f : string) : Comp state unit := modify (set_fechaInicio f).
Definition input_fechaFin (f : string) : Comp state unit := modify (set_fechaFin f).

(** ** The report totals *)

Lemma total_creditos_cons r l :
  total_creditos (r :: l) = (if 0 <? movimiento r then movimiento r else 0) + total_creditos l.
Proof.
  unfold total_creditos. simpl. destruct (0 <? movimiento r); [|reflexivity].
  rewrite reduce_sum_cons. reflexivity.
Qed.

Lemma total_debitos_cons r l :
  total_debitos (r :: l) = (if movimiento r <? 0 then Z.abs (movimiento r) else 0) + total_debitos l.
Proof.
  unfold total_debitos. simpl. destruct (movimiento r <? 0); [|reflexivity].
  rewrite reduce_sum_cons. reflexivity.
Qed.

#[local] Hint Rewrite total_creditos_cons total_debitos_cons : bank_rw.

(** C15: the report summary adds up.  Total credits and total debits are
    non-negative, and the balance the PDF prints, credits minus debits,
    is the sum of all the signed movements of the report. *)
Theorem report_totals (l : list ReporteMovimiento) :
  0 <= total_creditos l /\ 0 <= total_debitos l /\
  total_creditos l - total_debitos l = reduce_sum movimiento l.
Proof.
  induction l as [|r l IH]; [done|]. bank_simp.
  destruct (Z.ltb_spec 0 (movimiento r)), (Z.ltb_spec (movimiento r) 0); lia.
Qed.

Lemma report_totals_example :
  let l := map (fun v => mkReporte "2026-01-05" "Ana" "478758" "Ahorros" 0 true v 0)
             [100; -40; 25; -10] in
  total_creditos l = 125 /\ total_debitos l = 50 /\ total_creditos l - total_debitos l = 75.
Proof. vm_compute. repeat split; discriminate. Qed.

#[export] Instance total_creditos_perm : Proper ((≡ₚ) ==> eq) total_creditos.
Proof.
  intros l1 l2 Hp. induction Hp; bank_simp.
Qed.

#[export] Instance total_debitos_perm : Proper ((≡ₚ) ==> eq) total_debitos.
Proof.
  intros l1 l2 Hp. induction Hp; bank_simp.
Qed.

(** The totals do not depend on the order in which the backend
    returns the rows: two reports that are permutations of each other
    have the same credits, debits and balance. *)
Theorem report_totals_perm (s1 s2 : state) :
  reporteData s1 ≡ₚ reporteData s2 ->
  totalCreditos s1 = totalCreditos s2 /\ totalDebitos s1 = totalDebitos s2.
Proof. intros Hp. unfold totalCreditos, totalDebitos. rewrite Hp. done. Qed.

Lemma report_totals_perm_witness :
  let r v := mkReporte "2026-01-05" "Ana" "478758" "Ahorros" 0 true v 0 in
  reporteData (set_reporteData [r 100; r (-40)] init) ≡ₚ reporteData (set_reporteData [r (-40); r 100] init) /\
  totalCreditos (set_reporteData [r 100; r (-40)] init) = totalCreditos (set_reporteData [r (-40); r 100] init).
Proof.
  intros r. assert (Hp : reporteData (set_reporteData [r 100; r (-40)] init) ≡ₚ
                         reporteData (set_reporteData [r (-40); r 100] init)) by apply Permutation_swap.
  split; [exact Hp|]. exact (proj1 (report_totals_perm _ _ Hp)).
Defined.

(** ** Validation of the form *)

(** The report is rejected before any request when [rejected] holds. *)
Definition rejected_ok (m : Comp state unit) (s : state) : Prop :=
  requests (started m s) = [] /\ mensajeTipo (final m s) = MError /\
  cargando (final m s) = cargando s /\ reporteData (final m s) = reporteData s.

Lemma mostrar_error_rejected texto s : rejected_ok (mostrarMensaje texto MError) s.
Proof. unfold rejected_ok, final, started. rewrite mostrarMensaje_run. done. Qed.

(** C17: the form is validated before the report is requested.  When no
    client is selected, a date is missing, the start date is after the
    end date, or either date is after today's local midnight,
    [generarReporte] sends no request, shows an error, and leaves
    [cargando] and the report as they were. *)
Theorem generarReporte_rejects (now off : Z) (s : state) :
  (sel_falsy (clienteSeleccionado s) = true \/ fechaInicio s = ""%string \/
   fechaFin s = ""%string \/
   (exists a b, parse_date_only (fechaInicio s) = Some a /\
                parse_date_only (fechaFin s) = Some b /\ b < a) \/
   (exists a, parse_date_only (fechaInicio s) = Some a /\ local_midnight off now < a) \/
   (exists b, parse_date_only (fechaFin s) = Some b /\ local_midnight off now < b)) ->
  rejected_ok (generarReporte now off) s.
Proof.
  intros Hcases. unfold rejected_ok, generarReporte, final, started. rewrite bind_gets.
  cbv zeta.
  destruct (sel_falsy _ || str_falsy _ || str_falsy _) eqn:E1;
    [apply mostrar_error_rejected|].
  apply orb_false_iff in E1 as [E1 E3]. apply orb_false_iff in E1 as [E1 E2].
  apply str_falsy_false in E2, E3.
  destruct (date_gt _ _) eqn:E4; [apply mostrar_error_rejected|].
  destruct (date_gt _ (Some _) || date_gt _ (Some _)) eqn:E5; [apply mostrar_error_rejected|].
  exfalso. apply orb_false_iff in E5 as [E5 E6].
  destruct Hcases as [H|[H|[H|[(a & b & Ha & Hb & Hlt)|[(a & Ha & Hlt)|(b & Hb & Hlt)]]]]].
  - congruence.
  - contradiction.
  - contradiction.
  - rewrite Ha, Hb in E4. simpl in E4. apply Z.ltb_ge in E4. lia.
  - rewrite Ha in E5. simpl in E5. apply Z.ltb_ge in E5. lia.
  - rewrite Hb in E6. simpl in E6. apply Z.ltb_ge in E6. lia.
Qed.

Lemma generarReporte_rejects_witness :
  let s := set_clienteSeleccionado (Some 1)
             (set_fechaInicio "2026-02-01" (set_fechaFin "2026-01-01" init)) in
  parse_date_only (fechaInicio s) = Some 1769904000000 /\
  parse_date_only (fechaFin s) = Some 1767225600000 /\
  rejected_ok (generarReporte 1770000000000 0) s.
Proof.
  intros s. split; [vm_compute; reflexivity|]. split; [vm_compute; reflexivity|].
  apply generarReporte_rejects. right. right. right. left.
  exists 1769904000000, 1767225600000. vm_compute. repeat split; reflexivity.
Defined.

Lemma parse_nonempty x t : parse_date_only x = Some t -> str_falsy x = false.
Proof. intros H. apply str_falsy_false. intros ->. discriminate. Qed.

(** The checks of [generarReporte] all pass. *)
Lemma generarReporte_checks_pass now off s i a b :
  clienteSeleccionado s = Some i -> i <> 0 ->
  parse_date_only (fechaInicio s) = Some a -> parse_date_only (fechaFin s) = Some b ->
  a <= b -> a <= local_midnight off now -> b <= local_midnight off now ->
  generarReporte now off s =
    (modify (set_cargando true) ;;
     fechaInicioISO <- from_opt (toISOString (parse_local off (fechaInicio s +:+ "T00:00:00"))) ;;
     fechaFinISO <- from_opt (toISOString (parse_local off (fechaFin s +:+ "T23:59:59"))) ;;
     subscribe (ApiService.getReporte i fechaInicioISO fechaFinISO) reporte_next reporte_error) s.
Proof.
  intros Hsel Hi Ha Hb Hab Ha' Hb'. unfold generarReporte. rewrite bind_gets. cbv zeta.
  rewrite Hsel, (parse_nonempty _ _ Ha), (parse_nonempty _ _ Hb), Ha, Hb. simpl.
  destruct (Z.eqb_spec i 0); [contradiction|]. simpl.
  replace (b <? a) with false by (symmetry; apply Z.ltb_ge; lia).
  replace (local_midnight off now <? a) with false by (symmetry; apply Z.ltb_ge; lia).
  replace (local_midnight off now <? b) with false by (symmetry; apply Z.ltb_ge; lia).
  reflexivity.
Qed.

(** C18: east of UTC, today cannot be chosen.  In a time zone ahead of
    UTC, when the end date is today's local date, [new Date(fechaFin)] is
    UTC midnight, which is later than local midnight: [generarReporte]
    rejects the form with "Las fechas no pueden ser futuras" and sends no
    request, although no date is in the future. *)
Theorem today_rejected_east_of_utc (now off : Z) (s : state) (i a : Z) :
  0 < off < MS_PER_DAY ->
  clienteSeleccionado s = Some i -> i <> 0 ->
  parse_date_only (fechaInicio s) = Some a ->
  parse_date_only (fechaFin s) = Some (local_day off now * MS_PER_DAY) ->
  a <= local_day off now * MS_PER_DAY - off ->
  rejected_ok (generarReporte now off) s /\
  mensaje (final (generarReporte now off) s) = "Las fechas no pueden ser futuras"%string.
Proof.
  intros Hoff Hsel Hi Ha Hb Hle.
  unfold rejected_ok, generarReporte, final, started. rewrite bind_gets. cbv zeta.
  rewrite Hsel, (parse_nonempty _ _ Ha), (parse_nonempty _ _ Hb), Ha, Hb. simpl.
  destruct (Z.eqb_spec i 0); [contradiction|]. simpl.
  replace (local_day off now * MS_PER_DAY <? a) with false by (symmetry; apply Z.ltb_ge; lia).
  unfold local_midnight.
  replace (local_day off now * MS_PER_DAY - off <? local_day off now * MS_PER_DAY) with true
    by (symmetry; apply Z.ltb_lt; lia).
  rewrite orb_true_r. done.
Qed.

Lemma today_rejected_east_of_utc_witness :
  let now := 1768471200000 in   (* 2026-01-15T10:00:00Z *)
  let s := set_clienteSeleccionado (Some 1)
             (set_fechaInicio "2026-01-01" (set_fechaFin "2026-01-15" init)) in
  0 < 3600000 < MS_PER_DAY /\
  parse_date_only (fechaFin s) = Some (local_day 3600000 now * MS_PER_DAY) /\
  mensaje (final (generarReporte now 3600000) s) = "Las fechas no pueden ser futuras"%string.
Proof.
  intros now s. split; [vm_compute; split; reflexivity|]. split; [vm_compute; reflexivity|].
  apply (today_rejected_east_of_utc now 3600000 s 1 1767225600000);
    try (vm_compute; reflexivity); try discriminate.
  vm_compute. split; reflexivity.
Defined.

(** [setFechasPorDefecto] writes the UTC dates of [now] and of thirty
    days before. *)
Lemma setFechasPorDefecto_final now s :
  30 * MS_PER_DAY <= now < DAY_MAX * MS_PER_DAY ->
  final (setFechasPorDefecto now) s =
    set_fechaInicio (date_str (now / MS_PER_DAY - 30))
      (set_fechaFin (date_str (now / MS_PER_DAY)) s).
Proof.
  intros Hn. unfold setFechasPorDefecto, final, formatearFecha. cbv zeta.
  rewrite (before_T_toISOString now) by (unfold MS_PER_DAY in *; lia).
  rewrite (before_T_toISOString (now - 30 * MS_PER_DAY)) by (unfold MS_PER_DAY in *; lia).
  replace ((now - 30 * MS_PER_DAY) / MS_PER_DAY) with (now / MS_PER_DAY - 30).
  - reflexivity.
  - unfold MS_PER_DAY. replace (now - 30 * 86400000) with (now + (-30) * 86400000) by lia.
    rewrite Z.div_add by lia. lia.
Qed.

(** C19: west of UTC, the default dates are rejected in the evening.
    [setFechasPorDefecto] writes UTC dates; in a time zone behind UTC,
    once the UTC date has moved to the next day the default end date is
    local tomorrow, and [generarReporte] on the page's own defaults
    rejects the form with "Las fechas no pueden ser futuras". *)
Theorem default_dates_rejected_west_of_utc (now off : Z) (s : state) (i : Z) :
  - MS_PER_DAY < off < 0 ->
  30 * MS_PER_DAY <= now < DAY_MAX * MS_PER_DAY ->
  local_day off now < now / MS_PER_DAY ->
  clienteSeleccionado s = Some i -> i <> 0 ->
  let s' := final (setFechasPorDefecto now) s in
  rejected_ok (generarReporte now off) s' /\
  mensaje (final (generarReporte now off) s') = "Las fechas no pueden ser futuras"%string.
Proof.
  intros Hoff Hnow Hday Hsel Hi s'. subst s'. rewrite setFechasPorDefecto_final by exact Hnow.
  set (u := now / MS_PER_DAY).
  assert (Hu : 30 <= u < DAY_MAX).
  { unfold u, MS_PER_DAY, DAY_MAX in *. split; [apply Z.div_le_lower_bound|apply Z.div_lt_upper_bound]; lia. }
  destruct (date_str_roundtrip u ltac:(lia)) as [Hb _].
  destruct (date_str_roundtrip (u - 30) ltac:(lia)) as [Ha _].
  assert (HL : u - 1 <= local_day off now).
  { unfold local_day, u, MS_PER_DAY in *.
    assert (now / 86400000 - 1 = (now - 86400000) / 86400000) as ->.
    { replace (now - 86400000) with (now + (-1) * 86400000) by lia. rewrite Z.div_add; lia. }
    apply Z.div_le_mono; lia. }
  unfold rejected_ok, generarReporte, final, started. rewrite bind_gets. cbv zeta.
  cbn [fechaInicio fechaFin clienteSeleccionado set_fechaInicio set_fechaFin].
  rewrite Hsel, (parse_nonempty _ _ Ha), (parse_nonempty _ _ Hb), Ha, Hb. simpl.
  destruct (Z.eqb_spec i 0); [contradiction|]. simpl.
  replace (u * MS_PER_DAY <? (u - 30) * MS_PER_DAY) with false
    by (symmetry; apply Z.ltb_ge; unfold MS_PER_DAY; lia).
  unfold local_midnight.
  replace (local_day off now * MS_PER_DAY - off <? u * MS_PER_DAY) with true
    by (symmetry; apply Z.ltb_lt; unfold MS_PER_DAY in *; nia).
  rewrite orb_true_r. done.
Qed.

Lemma default_dates_rejected_west_of_utc_witness :
  let now := 1768528800000 in   (* 2026-01-16T02:00:00Z, 21:00 at UTC-5 *)
  - MS_PER_DAY < -18000000 < 0 /\
  30 * MS_PER_DAY <= now < DAY_MAX * MS_PER_DAY /\
  local_day (-18000000) now < now / MS_PER_DAY /\
  mensaje (final (generarReporte now (-18000000))
             (final (setFechasPorDefecto now) (set_clienteSeleccionado (Some 1) init)))
    = "Las fechas no pueden ser futuras"%string.
Proof.
  intros now. split; [vm_compute; split; reflexivity|].
  split; [vm_compute; split; [discriminate|reflexivity]|].
  split; [vm_compute; reflexivity|].
  apply (default_dates_rejected_west_of_utc now (-18000000) _ 1);
    try (vm_compute; reflexivity); try discriminate.
  - vm_compute. split; reflexivity.
  - vm_compute. split; [discriminate|reflexivity].
Defined.

Lemma toISOString_some t : Z.abs t <= 8640000000000000 -> exists str, toISOString (Some t) = Some str.
Proof.
  intros H. unfold toISOString. replace (8640000000000000 <? Z.abs t) with false
    by (symmetry; apply Z.ltb_ge; lia). eexists. reflexivity.
Qed.

(** C20: a valid form requests the report of the whole local days.
    With a client selected and valid dates, start not after end and
    neither after today's local midnight, [generarReporte] sets
    [cargando] and sends exactly one request, for that client, from the
    local midnight of the start day to 23:59:59 local time of the end
    day, both printed in UTC. *)
Theorem generarReporte_request (now off : Z) (s : state) (i a b : Z) :
  - MS_PER_DAY <= off <= MS_PER_DAY ->
  clienteSeleccionado s = Some i -> i <> 0 ->
  parse_date_only (fechaInicio s) = Some a -> parse_date_only (fechaFin s) = Some b ->
  a <= b -> b <= local_midnight off now ->
  cargando (final (generarReporte now off) s) = true /\
  exists desde hasta,
    toISOString (Some (a - off)) = Some desde /\
    toISOString (Some (b + 86399000 - off)) = Some hasta /\
    requests (started (generarReporte now off) s) =
      [call_request (ApiService.getReporte i desde hasta)].
Proof.
  intros Hoff Hsel Hi Ha Hb Hab Hb'. unfold final, started.
  rewrite (generarReporte_checks_pass now off s i a b) by (auto; lia).
  destruct (parse_local_of_date off _ _ Ha) as (Ha1 & _ & Hra).
  destruct (parse_local_of_date off _ _ Hb) as (_ & Hb2 & Hrb).
  destruct (toISOString_some (a - off)) as [desde Hd]; [unfold MS_PER_DAY in *; lia|].
  destruct (toISOString_some (b + 86399000 - off)) as [hasta Hh]; [unfold MS_PER_DAY in *; lia|].
  rewrite bind_modify. unfold bind at 1, from_opt at 1. rewrite Ha1, Hd.
  unfold bind at 1, from_opt at 1. rewrite Hb2, Hh.
  split; [reflexivity|]. exists desde, hasta. done.
Qed.

Lemma generarReporte_request_witness :
  let s := set_clienteSeleccionado (Some 1)
             (set_fechaInicio "2026-01-01" (set_fechaFin "2026-01-14" init)) in
  requests (started (generarReporte 1768471200000 (-18000000)) s) =
    [call_request (ApiService.getReporte 1 "2026-01-01T05:00:00.000Z" "2026-01-15T04:59:59.000Z")] /\
  cargando (final (generarReporte 1768471200000 (-18000000)) s) = true.
Proof.
  intros s.
  destruct (generarReporte_request 1768471200000 (-18000000) s 1 1767225600000 1768348800000)
    as (Hc & desde & hasta & Hd & Hh & Hr);
    try (vm_compute; reflexivity); try discriminate.
  - vm_compute. split; discriminate.
  - vm_compute in Hd, Hh. injection Hd as <-. injection Hh as <-. split; assumption.
Defined.

(** C21: the report's [next] callback stores the rows and clears
    [cargando].  An empty result shows "No se encontraron movimientos..."
    with the type ['error'] (the same channel as a failure); a non-empty
    one shows "Reporte generado exitosamente" with the type
    ['success']. *)
Theorem reporte_next_spec (data : list ReporteMovimiento) (s : state) :
  let s' := final (reporte_next data) s in
  reporteData s' = data /\ cargando s' = false /\
  (data = [] -> mensaje s' = "No se encontraron movimientos en el rango de fechas especificado"%string /\
                mensajeTipo s' = MError) /\
  (data <> [] -> mensaje s' = "Reporte generado exitosamente"%string /\ mensajeTipo s' = MSuccess).
Proof.
  unfold reporte_next, final. rewrite !bind_modify.
  destruct data as [|r data]; simpl; (split; [reflexivity|]); (split; [reflexivity|]);
    split; intros H; try congruence; done.
Qed.

(** C22: the exports refuse an empty report and otherwise hand one file
    to the browser.  With no rows, [exportarPDF] and [exportarJSON]
    produce no file and show "No hay datos para exportar" as an error;
    with rows, the PDF carries the rows, the totals and a balance equal
    to the sum of the signed movements, and the JSON file carries the
    rows unchanged. *)
Theorem exports_spec (now : Z) (s : state) :
  (reporteData s = [] ->
     downloads (started (exportarPDF now) s) = [] /\
     downloads (started (exportarJSON now) s) = [] /\
     mensaje (final (exportarPDF now) s) = "No hay datos para exportar"%string /\
     mensajeTipo (final (exportarJSON now) s) = MError) /\
  (reporteData s <> [] ->
     (exists archivo nombre,
        downloads (started (exportarPDF now) s) =
          [PdfDownload archivo nombre (fechaInicio s, fechaFin s) (reporteData s)
             (totalCreditos s) (totalDebitos s) (reduce_sum movimiento (reporteData s))]) /\
     (exists archivo, downloads (started (exportarJSON now) s) = [JsonDownload archivo (reporteData s)])).
Proof.
  unfold exportarPDF, exportarJSON, final, started. rewrite !bind_gets.
  split.
  - intros H. rewrite H. done.
  - intros H. destruct (Nat.eqb_spec (length (reporteData s)) 0) as [E|E].
    { destruct (reporteData s); [contradiction|discriminate]. }
    pose proof (report_totals (reporteData s)) as (_ & _ & Hbal).
    unfold totalCreditos, totalDebitos. rewrite <- Hbal. split; eexists; [eexists|]; reflexivity.
Qed.

(** C37: [formatearFecha] and the date parser are inverse on whole days.
    For every instant from 1970 to the end of 2199, [formatearFecha]
    prints a date without a time part, and [new Date] of that date is the
    UTC midnight of the instant's UTC day: formatting keeps the UTC day,
    not the local one. *)
Theorem formatearFecha_roundtrip (t : Z) :
  0 <= t < DAY_MAX * MS_PER_DAY ->
  exists fecha, formatearFecha t = Some fecha /\ has_T fecha = false /\
    parse_date_only fecha = Some (t / MS_PER_DAY * MS_PER_DAY).
Proof.
  intros Ht. unfold formatearFecha. rewrite before_T_toISOString by exact Ht.
  assert (Hd : 0 <= t / MS_PER_DAY < DAY_MAX).
  { split; [apply Z.div_pos; unfold MS_PER_DAY in *; lia|].
    apply Z.div_lt_upper_bound; unfold MS_PER_DAY, DAY_MAX in *; lia. }
  destruct (date_str_roundtrip _ Hd) as [Hp Hh].
  eexists. split; [reflexivity|]. split; assumption.
Qed.

Lemma formatearFecha_roundtrip_witness :
  0 <= 1768528800000 < DAY_MAX * MS_PER_DAY /\
  formatearFecha 1768528800000 = Some "2026-01-16"%string /\
  parse_date_only "2026-01-16" = Some (1768528800000 / MS_PER_DAY * MS_PER_DAY).
Proof.
  assert (Ht : 0 <= 1768528800000 < DAY_MAX * MS_PER_DAY) by (unfold DAY_MAX, MS_PER_DAY; lia).
  split; [exact Ht|].
  destruct (formatearFecha_roundtrip _ Ht) as (fecha & Hf & _ & Hp).
  assert (Hv : formatearFecha 1768528800000 = Some "2026-01-16"%string) by (vm_compute; reflexivity).
  rewrite Hv in Hf. injection Hf as <-. split; [reflexivity|exact Hp].
Defined.

End Reportes.
