(* ===== verification/Page.v ===== *)
(** A page at run time: one view-model with the HTTP layer and the timers.

    A [world] holds the component's fields, the loading indicator, the
    browser's timer queue (callbacks are functions of the component state,
    as [effect] stores them), the requests in flight with the callbacks
    their subscribers registered, and the files handed to the browser.

    Running the effects a method started ([launch]), in program order:
    - [Subscribe]: the request goes through the interceptor chain.  The
      chain is [loadingInterceptor] outside and [errorInterceptor] inside
      (the order the specification gives; the application configuration
      that registers them is not under [src/]).  The loading interceptor
      calls [show] when the request starts ([loadingInterceptor], lines
      13-17) and the request joins the in-flight list;
    - [SetTimeout]: the callback joins the timer queue;
    - [Download]: the file is recorded.

    The steps of the page ([step]):
    - the user calls a method of the component ([SAction]);
    - the backend answers a request in flight ([SRespond]): the
      subscriber's [next] runs, then the observable completes and the
      [finalize] of the loading interceptor calls [hide];
    - a request fails ([SFail]): [errorInterceptor] rewrites the error, the
      subscriber's [error] runs with it, then [finalize] calls [hide];
    - a timer fires ([SFire]) or time passes ([SAdvance]).
    Any request in flight may be answered first: the backend's order is not
    constrained.

    The section is generic in the component (its state [S] and its
    actions) and in the loading indicator: the theorems use only the
    [LoadingIndicatorLaws] of [Loading.v], which [LoadingService] meets. *)

From S2P Require Import Prelude Loading Models Api ErrorInterceptor Timers Effects.
From stdpp Require Import relations.

Open Scope Z_scope.

Section Page.
Context {S : Type} {action : Type} (run_action : action -> Comp S unit).
Context {T : Type} `{LoadingIndicatorLaws T}.

(** A callback as [effect] stores it. *)
Definition callback : Type := S -> S * list (effect S).

(** A request in flight: its number, the call, and the subscriber's
    callbacks.  The response type is the call's. *)
Record inflight := mkInflight {
  p_id : nat;
  p_A : Type;
  p_call : api_call p_A;
  p_next : p_A -> callback;
  p_error : NormalizedError -> callback
}.

Record world := mkWorld {
  comp : S;
  loading : T;
  timers : queue callback;
  requests_in_flight : list inflight;
  next_req : nat;
  files : list download
}.

Definition init (s0 : S) (t0 : Z) : world := mkWorld s0 li_init (empty_queue t0) [] 0 [].

Definition set_comp (s : S) (w : world) : world :=
  mkWorld s (loading w) (timers w) (requests_in_flight w) (next_req w) (files w).

Definition set_timers (q : queue callback) (w : world) : world :=
  mkWorld (comp w) (loading w) q (requests_in_flight w) (next_req w) (files w).

Definition set_in_flight (l : list inflight) (w : world) : world :=
  mkWorld (comp w) (loading w) (timers w) l (next_req w) (files w).

(** [finalize(() => loadingService.hide())] *)
Definition finalize_hide (w : world) : world :=
  mkWorld (comp w) (li_hide (loading w)) (timers w) (requests_in_flight w) (next_req w) (files w).

(** One effect: [loadingService.show(); next(req)], [setTimeout], a file. *)
Definition launch1 (e : effect S) (w : world) : world :=
  match e with
  | Subscribe c n er =>
      mkWorld (comp w) (li_show (loading w)) (timers w)
              (requests_in_flight w ++ [mkInflight (next_req w) _ c n er])
              (Datatypes.S (next_req w)) (files w)
  | SetTimeout d cb => set_timers (snd (setTimeout cb d (timers w))) w
  | Download d =>
      mkWorld (comp w) (loading w) (timers w) (requests_in_flight w) (next_req w) (files w ++ [d])
  end.

Fixpoint launch (es : list (effect S)) (w : world) : world :=
  match es with
  | [] => w
  | e :: es' => launch es' (launch1 e w)
  end.

(** Run a callback on the component and start what it started. *)
Definition run_cb (f : callback) (w : world) : world :=
  let '(s', es) := f (comp w) in launch es (set_comp s' w).

Inductive step : world -> world -> Prop :=
  | SAction a w : step w (run_cb (exec (run_action a)) w)
  | SRespond w pre p post (v : p_A p) :
      requests_in_flight w = pre ++ p :: post ->
      step w (finalize_hide (run_cb (p_next p v) (set_in_flight (pre ++ post) w)))
  | SFail w pre p post (e : HttpErrorResponse) :
      requests_in_flight w = pre ++ p :: post ->
      step w (finalize_hide (run_cb (p_error p (errorInterceptor e)) (set_in_flight (pre ++ post) w)))
  | SFire w cb q : fire (timers w) = Some (cb, q) -> step w (run_cb cb (set_timers q w))
  | SAdvance w t q : advance t (timers w) = Some q -> step w (set_timers q w).

(** The HTTP requests in flight, oldest first. *)
Definition pending_requests (w : world) : list http_request :=
  map (fun p => call_request (p_call p)) (requests_in_flight w).

(** A request that stands for "no request" where a list lookup needs a
    default. *)
Definition no_request : inflight :=
  mkInflight 0 unit (mkCall (mkRequest GET "" [] None)) (fun _ s => (s, [])) (fun _ s => (s, [])).

(** The backend answers the [k]-th request in flight with [v]. *)
Definition respond_nth (k : nat) (w : world)
    (v : p_A (nth k (requests_in_flight w) no_request)) : world :=
  finalize_hide (run_cb (p_next _ v)
    (set_in_flight (firstn k (requests_in_flight w) ++ skipn (Datatypes.S k) (requests_in_flight w)) w)).

(** The indicator is well formed and its level is the number of requests
    in flight plus [k]: [k] is 1 between the removal of an answered request
    and the [hide] of its [finalize]. *)
Definition level_off (k : nat) (w : world) : Prop :=
  li_wf (loading w) /\ li_level (loading w) = (length (requests_in_flight w) + k)%nat.

(** The loading invariant: the level is the number of requests in flight. *)
Definition loading_inv (w : world) : Prop := level_off 0 w.

(** ** Lemmas *)

Lemma launch_app e1 e2 w : launch (e1 ++ e2) w = launch e2 (launch e1 w).
Proof. revert w. induction e1 as [|e e1 IH]; intros w; [reflexivity|apply IH]. Qed.

Lemma launch1_level k e w : level_off k w -> level_off k (launch1 e w).
Proof.
  intros [Hwf Hl]. destruct e as [A c n er|d cb|d]; [|split; assumption..].
  split; cbn [launch1 loading requests_in_flight]; [apply li_wf_show, Hwf|]. rewrite li_level_show, Hl, length_app by exact Hwf.
  simpl. lia.
Qed.

Lemma launch_level k es w : level_off k w -> level_off k (launch es w).
Proof.
  revert w. induction es as [|e es IH]; intros w Hw; [exact Hw|apply IH, launch1_level, Hw].
Qed.

Lemma run_cb_level k f w : level_off k w -> level_off k (run_cb f w).
Proof. intros Hw. unfold run_cb. destruct (f (comp w)). apply launch_level, Hw. Qed.

(** Answering or failing the request [p]: remove it, run the callback,
    [hide]. *)
Lemma finish_level w pre p post f :
  loading_inv w -> requests_in_flight w = pre ++ p :: post ->
  loading_inv (finalize_hide (run_cb f (set_in_flight (pre ++ post) w))).
Proof.
  intros [Hwf Hl] Hp. rewrite Hp, length_app in Hl. simpl in Hl.
  destruct (run_cb_level 1 f (set_in_flight (pre ++ post) w)) as [Hwf' Hl'].
  { split; cbn [loading requests_in_flight set_in_flight]; [exact Hwf|rewrite length_app; lia]. }
  split; cbn [loading requests_in_flight finalize_hide]; [apply li_wf_hide, Hwf'|]. rewrite li_level_hide, Hl' by exact Hwf'. lia.
Qed.

Lemma step_inv w w' : loading_inv w -> step w w' -> loading_inv w'.
Proof.
  intros Hw Hs. destruct Hs as [a w|w pre p post v Hp|w pre p post e Hp|w cb q Hf|w t q Ha].
  - apply run_cb_level, Hw.
  - exact (finish_level _ _ _ _ _ Hw Hp).
  - exact (finish_level _ _ _ _ _ Hw Hp).
  - apply run_cb_level. exact Hw.
  - exact Hw.
Qed.

Lemma init_inv s0 t0 : loading_inv (init s0 t0).
Proof. split; [apply li_wf_init|apply li_level_init]. Qed.

Lemma rtc_step_inv w w' : loading_inv w -> rtc step w w' -> loading_inv w'.
Proof. intros Hw Hr. induction Hr; eauto using step_inv. Qed.

Lemma launch_in_flight es w :
  length (requests_in_flight (launch es w)) = (length (requests_in_flight w) + length (requests es))%nat.
Proof.
  revert w. induction es as [|[A c n er|d cb|d] es IH]; intros w; simpl; [lia|..];
    rewrite IH; simpl; rewrite ?length_app; simpl; lia.
Qed.

Lemma launch_pending es w :
  pending_requests (launch es w) = pending_requests w ++ requests es.
Proof.
  revert w. induction es as [|[A c n er|d cb|d] es IH]; intros w; cbn [launch requests].
  - rewrite app_nil_r. reflexivity.
  - rewrite IH. unfold pending_requests. cbn [launch1 requests_in_flight].
    rewrite map_app, <- app_assoc. reflexivity.
  - rewrite IH. reflexivity.
  - rewrite IH. reflexivity.
Qed.

Lemma launch_comp es w : comp (launch es w) = comp w.
Proof. revert w. induction es as [|[] es IH]; intros w; cbn [launch]; [reflexivity|rewrite IH; reflexivity..]. Qed.

(** A method the user calls: the fields it leaves and the requests it
    adds to those in flight. *)
Lemma run_cb_exec m w :
  comp (run_cb (exec m) w) = final m (comp w) /\
  pending_requests (run_cb (exec m) w) = pending_requests w ++ requests (started m (comp w)).
Proof.
  unfold run_cb, exec, final, started. destruct (m (comp w)) as [[r s'] es].
  rewrite launch_pending, launch_comp. split; reflexivity.
Qed.

Lemma visible_inv w :
  loading_inv w -> li_visible (loading w) = bool_decide (requests_in_flight w <> []).
Proof.
  intros [Hwf Hl]. rewrite li_visible_level by exact Hwf. rewrite Hl.
  apply bool_decide_ext. destruct (requests_in_flight w); simpl; split; try lia; congruence.
Qed.

Lemma nth_split_firstn {A} (l : list A) k d :
  (k < length l)%nat -> l = firstn k l ++ nth k l d :: skipn (Datatypes.S k) l.
Proof.
  revert k. induction l as [|x l IH]; intros [|k] Hk; simpl in *; try lia; [reflexivity|].
  f_equal. apply IH. lia.
Qed.

(** Answering a request in flight is a step of the page. *)
Lemma step_respond_nth k w v :
  (k < length (requests_in_flight w))%nat -> step w (respond_nth k w v).
Proof. intros Hk. apply SRespond. apply nth_split_firstn, Hk. Qed.

(** ** Properties *)

(** C23: the loading indicator counts the requests in flight.  In every
    state of the page reachable from its initial state, whatever the
    component's methods, the backend's answers and their order, and the
    timers, the indicator's level is the number of requests sent and not
    yet answered or failed, and the spinner is visible exactly when some
    request is in flight.  A request that is never answered keeps it
    visible. *)
Theorem loading_tracks_requests s0 t0 w :
  rtc step (init s0 t0) w ->
  li_level (loading w) = length (requests_in_flight w) /\
  li_visible (loading w) = bool_decide (requests_in_flight w <> []).
Proof.
  intros Hr. pose proof (rtc_step_inv _ _ (init_inv s0 t0) Hr) as Hw.
  split; [destruct Hw as [_ Hl]; lia|apply visible_inv, Hw].
Qed.

(** No flicker when a completion starts a reload.  When the backend
    answers a request whose [next] callback starts another request (a save
    followed by the reload of the list), the spinner is still visible after
    the [finalize] of the answered request: the callback runs before the
    [hide], so the reload's [show] comes first. *)
Theorem no_flicker_on_reload w pre p post (v : p_A p) :
  loading_inv w -> requests_in_flight w = pre ++ p :: post ->
  requests (snd (p_next p v (comp w))) <> [] ->
  li_visible (loading (finalize_hide (run_cb (p_next p v) (set_in_flight (pre ++ post) w)))) = true.
Proof.
  intros Hw Hp Hreq. rewrite visible_inv by exact (finish_level _ _ _ _ _ Hw Hp).
  apply bool_decide_eq_true. unfold run_cb. cbn [comp set_in_flight].
  destruct (p_next p v (comp w)) as [s' es] eqn:E. simpl in Hreq.
  cbn [finalize_hide requests_in_flight]. intros Hnil.
  pose proof (launch_in_flight es (set_comp s' (set_in_flight (pre ++ post) w))) as Hlen.
  rewrite Hnil in Hlen. destruct (requests es); [congruence|simpl in Hlen; lia].
Qed.

(** ** Invariants of the component's state

    A predicate [I] on the component that every action preserves together
    with all the callbacks it registers (at every depth) holds in every
    reachable state: the callbacks in flight and in the timer queue keep
    it, whatever the order of answers and timers. *)
Section ClosedInvariant.
Variable I : S -> Prop.

Definition page_inv (w : world) : Prop :=
  I (comp w) /\
  Forall (fun p => (forall a, cb_ok I (p_next p a)) /\ (forall x, cb_ok I (p_error p x)))
    (requests_in_flight w) /\
  Forall (fun t => cb_ok I (t_cb t)) (pending (timers w)).

Lemma launch_page_inv es w :
  (forall n, eff_ok I n es) -> page_inv w -> page_inv (launch es w).
Proof.
  revert w. induction es as [|e es IH]; intros w Hes Hw; [exact Hw|].
  destruct (eff_ok_cons I e es Hes) as [He Hes']. apply IH; [exact Hes'|].
  destruct Hw as (Hc & Hf & Ht). destruct e as [A c nx er|d cb|d]; simpl in He |- *.
  - split; [exact Hc|]. split; [|exact Ht]. apply Forall_app_2; [exact Hf|].
    constructor; [exact He|constructor].
  - split; [exact Hc|]. split; [exact Hf|]. simpl. apply Forall_app_2; [exact Ht|].
    constructor; [exact He|constructor].
  - split; [exact Hc|]. split; assumption.
Qed.

Lemma run_cb_page_inv f w : cb_ok I f -> page_inv w -> page_inv (run_cb f w).
Proof.
  intros Hf (Hc & Hfl & Ht). unfold run_cb.
  pose proof (fun n => Hf n (comp w) Hc) as Hn.
  destruct (f (comp w)) as [s' es]. simpl in Hn.
  apply launch_page_inv; [intros n; exact (proj2 (Hn n))|].
  split; [exact (proj1 (Hn 0%nat))|]. split; assumption.
Qed.

Lemma fire_page_inv w cb q :
  fire (timers w) = Some (cb, q) -> Forall (fun t => cb_ok I (t_cb t)) (pending (timers w)) ->
  cb_ok I cb /\ Forall (fun t => cb_ok I (t_cb t)) (pending q).
Proof. apply fire_Forall. Qed.

Lemma finish_page_inv w pre p post f :
  page_inv w -> requests_in_flight w = pre ++ p :: post ->
  ((forall a, cb_ok I (p_next p a)) /\ (forall x, cb_ok I (p_error p x)) -> cb_ok I f) ->
  page_inv (finalize_hide (run_cb f (set_in_flight (pre ++ post) w))).
Proof.
  intros (Hc & Hf & Ht) Hp Hcb. rewrite Hp in Hf.
  apply Forall_app in Hf as [Hpre Hrest]. apply Forall_cons in Hrest as [Hp' Hpost].
  assert (H' : page_inv (run_cb f (set_in_flight (pre ++ post) w))).
  { apply run_cb_page_inv; [exact (Hcb Hp')|].
    split; [exact Hc|]. split; [apply Forall_app_2; assumption|exact Ht]. }
  destruct H' as (Hc' & Hf' & Ht'). split; [exact Hc'|]. split; assumption.
Qed.

Hypothesis actions_ok : forall a, comp_ok I (run_action a).

Lemma step_page_inv w w' : page_inv w -> step w w' -> page_inv w'.
Proof.
  intros Hw Hs. destruct Hs as [a w|w pre p post v Hp|w pre p post e Hp|w cb q Hf|w t q Ha].
  - apply run_cb_page_inv; [apply cb_ok_exec, actions_ok|exact Hw].
  - apply (finish_page_inv w pre p post); [exact Hw|exact Hp|]. intros [Hn _]. apply Hn.
  - apply (finish_page_inv w pre p post); [exact Hw|exact Hp|]. intros [_ He]. apply He.
  - destruct Hw as (Hc & Hfl & Ht). destruct (fire_page_inv w cb q Hf Ht) as [Hcb Hq].
    apply run_cb_page_inv; [exact Hcb|]. split; [exact Hc|]. split; assumption.
  - destruct Hw as (Hc & Hfl & Ht). split; [exact Hc|]. split; [exact Hfl|].
    simpl. rewrite (advance_pending _ _ _ Ha). exact Ht.
Qed.

(** The invariant holds in every state reachable from a state where it
    holds. *)
Lemma reachable_closed_inv s0 t0 w :
  I s0 -> rtc step (init s0 t0) w -> I (comp w).
Proof.
  intros H0 Hr. enough (Hw : page_inv w) by exact (proj1 Hw).
  assert (Hi : page_inv (init s0 t0)) by (split; [exact H0|split; constructor]).
  clear H0. induction Hr as [w1|w1 w2 w3 Hs _ IH]; [exact Hi|].
  exact (IH (step_page_inv _ _ Hi Hs)).
Qed.
End ClosedInvariant.

(** ** The components' messages *)
Section Mensaje.
Context `{HasMensajeLaws S}.

(** C25: a message is cleared before its time.  Every component's
    [mostrarMensaje] shows a message and starts a 5000 ms timer that
    clears the message field, without cancelling the timer of an earlier
    message.  On any page with no timer pending, when a message [m1] is
    shown and, [d] ms later ([0 < d < 5000]), a message [m2], the next
    timer to fire is the first one, 5000 ms after [m1]: it clears [m2]
    after only [5000 - d] ms. *)
Theorem mensaje_cleared_early (w : world) m1 t1 m2 t2 d :
  pending (timers w) = [] -> 0 < d < 5000 ->
  let w1 := run_cb (exec (mostrarMensaje m1 t1)) w in
  exists q, advance (now (timers w) + d) (timers w1) = Some q /\
  let w2 := run_cb (exec (mostrarMensaje m2 t2)) (set_timers q w1) in
  get_mensaje (comp w2) = m2 /\
  exists cb q', fire (timers w2) = Some (cb, q') /\ now q' = now (timers w) + 5000 /\
    get_mensaje (comp (run_cb cb (set_timers q' w2))) = ""%string.
Proof.
  intros Hp Hd w1.
  destruct w as [s l [t0 i pend] fl nr fs]. cbn in Hp. subst pend.
  eexists. split.
  { unfold advance. cbn. rewrite Z.max_r by lia.
    replace (t0 <=? t0 + d) with true by lia. replace (t0 + d <=? t0 + 5000) with true by lia.
    reflexivity. }
  cbn. rewrite mensaje_set_tipo, get_set_mensaje. split; [reflexivity|].
  unfold fire. cbn. rewrite !Z.max_r by lia.
  replace (t0 + d + 5000 <? t0 + 5000) with false by lia.
  eexists _, _. split; [reflexivity|]. cbn. split; [lia|].
  apply get_set_mensaje.
Qed.
End Mensaje.

End Page.

(** ** A page with one button

    The smallest instance of the section: a component without fields whose
    only method deletes a client and, when the deletion succeeds, reloads
    the client list (the shape of the components' [eliminar*] methods),
    with [LoadingService] as the indicator. *)
#[local] Existing Instances LoadingService.indicator LoadingService.indicator_laws.

Definition load_clients : Comp unit unit :=
  subscribe ApiService.getClientes (fun _ => ret tt) (fun _ => ret tt).

Definition delete_then_reload (_ : unit) : Comp unit unit :=
  subscribe (ApiService.deleteCliente 1) (fun _ => load_clients) (fun _ => ret tt).

Definition clicked : world (S:=unit) (T:=LoadingService.t) :=
  run_cb (exec (delete_then_reload tt)) (init tt 0).

Definition delete_request : inflight (S:=unit) :=
  mkInflight 0 unit (ApiService.deleteCliente 1) (fun _ => exec load_clients) (fun _ => exec (ret tt)).

Lemma loading_tracks_requests_witness :
  rtc (step delete_then_reload) (init tt 0) clicked /\
  LoadingService.abs (loading clicked) = 1%nat /\
  LoadingService.isLoading (loading clicked) = true.
Proof.
  assert (Hr : rtc (step delete_then_reload) (init tt 0) clicked) by (apply rtc_once, SAction).
  split; [exact Hr|].
  exact (loading_tracks_requests delete_then_reload tt 0 clicked Hr).
Defined.

Lemma no_flicker_on_reload_witness :
  loading_inv clicked /\
  requests_in_flight clicked = [] ++ delete_request :: [] /\
  requests (snd (p_next delete_request tt (comp clicked))) = [call_request ApiService.getClientes] /\
  LoadingService.isLoading
    (loading (finalize_hide (run_cb (p_next delete_request tt) (set_in_flight [] clicked)))) = true.
Proof.
  assert (Hw : loading_inv clicked) by (split; [vm_compute; split; [discriminate|reflexivity]|reflexivity]).
  split; [exact Hw|]. split; [reflexivity|]. split; [reflexivity|].
  apply (no_flicker_on_reload clicked [] delete_request [] tt Hw); [reflexivity|discriminate].
Defined.
