(* ===== verification/Drain.v ===== *)
(** Draining a page: the backend's answers cannot go on for ever.

    A request's completion may start other requests (a save reloads the
    list), so answering requests does not shrink the list in flight by
    itself.  Each request has a depth: the length of the chain of
    requests its callbacks can still start ([eff_bd] of [Effects.v]).  A
    user action or a timer starts requests of depth below a bound [D]; a
    completion of a request of depth [d] starts only requests of depth
    below [d].  The numbers of requests in flight at each depth, read from
    the deepest, decrease in the lexicographic order at every answer, and
    that order on vectors of a fixed length is well founded ([lex_wf]).

    [backend_step] is the part of the page's [step] that the backend
    controls: answering or failing a request in flight.  [settles w]
    states that every sequence of such steps from [w] is finite and that
    one of them empties the list in flight, after which the spinner is
    hidden.  [reachable_settles] proves it of every reachable state of a
    page whose actions are bounded. *)

From S2P Require Import Prelude Loading Models Api ErrorInterceptor Timers Effects Page.
From stdpp Require Import relations.

(** ** The lexicographic order on vectors of counts *)

Fixpoint lex (xs ys : list nat) : Prop :=
  match xs, ys with
  | x :: xs', y :: ys' => (x < y /\ length xs' = length ys') \/ (x = y /\ lex xs' ys')
  | _, _ => False
  end.

(** How many requests in flight have each depth below [D], the deepest
    first. *)
Definition depth_counts (D : nat) (ds : list nat) : list nat :=
  map (fun j => count_occ Nat.eq_dec ds j) (rev (seq 0 D)).

Lemma lex_length xs ys : lex xs ys -> length xs = length ys.
Proof.
  revert ys. induction xs as [|x xs IH]; intros [|y ys]; simpl; try tauto.
  intros [[_ H]|[_ H]]; f_equal; [exact H|apply IH, H].
Qed.

Lemma lex_acc n : forall xs, length xs = n -> Acc lex xs.
Proof.
  induction n as [|n IHn]; intros xs Hl.
  - destruct xs; [|discriminate]. constructor. intros [|y ys]; simpl; tauto.
  - destruct xs as [|x xs]; [discriminate|]. injection Hl as Hl.
    revert xs Hl. induction x as [x IHx] using lt_wf_ind. intros xs Hl.
    pose proof (IHn xs Hl) as Ha. revert Hl. induction Ha as [xs _ IHa]. intros Hl.
    constructor. intros [|y ys] H; [contradiction|]. destruct H as [[Hy Hys]|[-> Hys]].
    + apply IHx; [exact Hy|congruence].
    + apply IHa; [exact Hys|]. rewrite (lex_length _ _ Hys). exact Hl.
Qed.

Lemma lex_wf : well_founded lex.
Proof. intros xs. exact (lex_acc (length xs) xs eq_refl). Qed.

Lemma lex_map (f g : nat -> nat) hi j lo :
  Forall (fun i => f i = g i) hi -> f j < g j ->
  lex (map f (hi ++ j :: lo)) (map g (hi ++ j :: lo)).
Proof.
  induction 1 as [|i hi Hi _ IH]; intros Hj; simpl.
  - left. split; [exact Hj|rewrite !length_map; reflexivity].
  - right. split; [exact Hi|apply IH, Hj].
Qed.

Lemma count_occ_below dn d j :
  Forall (fun x => x < d) dn -> d <= j -> count_occ Nat.eq_dec dn j = 0.
Proof.
  intros Hdn Hj. apply count_occ_not_In. intros Hin.
  rewrite Forall_forall in Hdn. specialize (Hdn j (proj2 (list_elem_of_In _ _) Hin)). lia.
Qed.

(** Answering a request of depth [d] removes it and adds requests of
    smaller depths: the counts decrease. *)
Lemma depth_counts_lt D dpre d dpost dn :
  d < D -> Forall (fun x => x < d) dn ->
  lex (depth_counts D ((dpre ++ dpost) ++ dn)) (depth_counts D (dpre ++ d :: dpost)).
Proof.
  intros Hd Hdn. unfold depth_counts.
  assert (Hs : rev (seq 0 D) = rev (seq (Datatypes.S d) (D - Datatypes.S d)) ++ d :: rev (seq 0 d)).
  { replace D with (d + Datatypes.S (D - Datatypes.S d)) at 1 by lia.
    rewrite seq_app, rev_app_distr. simpl. rewrite <- app_assoc. reflexivity. }
  rewrite Hs. apply lex_map.
  - apply Forall_forall. intros i Hi. apply list_elem_of_In, in_rev, in_seq in Hi.
    rewrite !count_occ_app, (count_occ_below dn d i Hdn) by lia. simpl.
    destruct (Nat.eq_dec d i); [lia|]. lia.
  - rewrite !count_occ_app, (count_occ_below dn d d Hdn) by lia. simpl.
    destruct (Nat.eq_dec d d); [lia|congruence].
Qed.

(** ** Bounded requests in flight *)

Section Drain.
Context {S : Type} {T : Type} `{LoadingIndicatorLaws T}.
Variable D : nat.

Abbreviation pworld := (@world S T).

(** Request [p] has depth [d]: its callbacks start requests of depth
    below [d]. *)
Definition req_bd (p : @inflight S) (d : nat) : Prop :=
  (forall a, cb_bd D d (p_next p a)) /\ (forall x, cb_bd D d (p_error p x)).

(** [ds] lists the depths of the requests in flight, all below [D]. *)
Definition inflight_bd (w : pworld) (ds : list nat) : Prop :=
  Forall2 req_bd (requests_in_flight w) ds /\ Forall (fun d => d < D) ds.

(** The pending timers start requests of depth below [D]. *)
Definition timers_bd (w : pworld) : Prop :=
  Forall (fun t => cb_bd D D (t_cb t)) (pending (timers w)).

Definition drain_inv (w : pworld) : Prop := (exists ds, inflight_bd w ds) /\ timers_bd w.

(** The backend answers or fails a request in flight. *)
Inductive backend_step : pworld -> pworld -> Prop :=
  | BRespond w pre p post (v : p_A p) :
      requests_in_flight w = pre ++ p :: post ->
      backend_step w (finalize_hide (run_cb (p_next p v) (set_in_flight (pre ++ post) w)))
  | BFail w pre p post (e : HttpErrorResponse) :
      requests_in_flight w = pre ++ p :: post ->
      backend_step w (finalize_hide (run_cb (p_error p (errorInterceptor e)) (set_in_flight (pre ++ post) w))).

(** Every sequence of answers from [w] is finite, and answering all the
    requests in flight hides the spinner. *)
Definition settles (w : pworld) : Prop :=
  Acc (fun w2 w1 => backend_step w1 w2) w /\
  exists w', rtc backend_step w w' /\ requests_in_flight w' = [] /\ li_visible (loading w') = false.

(** ** Lemmas *)

Lemma launch_bd d es w ds :
  d <= D -> (forall n, eff_bd D n d es) -> inflight_bd w ds -> timers_bd w ->
  exists dn, inflight_bd (launch es w) (ds ++ dn) /\ Forall (fun x => x < d) dn /\
             timers_bd (launch es w).
Proof.
  revert w ds. induction es as [|e es IH]; intros w ds Hd Hes Hw Ht.
  - exists []. rewrite app_nil_r. split; [exact Hw|split; [constructor|exact Ht]].
  - destruct (eff_bd_cons D d e es Hes) as [He Hes']. cbn [launch].
    destruct e as [A c nx er|t cb|f]; cbn [head_bd] in He.
    + destruct d as [|d']; [contradiction|]. destruct Hw as [Hf Hlt].
      destruct (IH (launch1 (Subscribe c nx er) w) (ds ++ [d'])) as (dn & H1 & H2 & H3);
        [lia|exact Hes'| |exact Ht|].
      * split; cbn [launch1 requests_in_flight].
        -- apply Forall2_app; [exact Hf|]. repeat constructor; apply He.
        -- apply Forall_app_2; [exact Hlt|]. repeat constructor. simpl; lia.
      * exists (d' :: dn). rewrite <- app_assoc in H1. split; [exact H1|]. split; [|exact H3].
        constructor; [simpl; lia|]. eapply Forall_impl; [exact H2|]. simpl; lia.
    + apply IH; [exact Hd|exact Hes'|exact Hw|]. unfold timers_bd. cbn.
      apply Forall_app_2; [exact Ht|]. repeat constructor. exact He.
    + apply IH; [exact Hd|exact Hes'|exact Hw|exact Ht].
Qed.

Lemma run_cb_bd d f w ds :
  d <= D -> cb_bd D d f -> inflight_bd w ds -> timers_bd w ->
  exists dn, inflight_bd (run_cb f w) (ds ++ dn) /\ Forall (fun x => x < d) dn /\
             timers_bd (run_cb f w).
Proof.
  intros Hd Hf Hw Ht. unfold run_cb. pose proof (fun n => Hf n (comp w)) as Hn.
  destruct (f (comp w)) as [s' es]. apply launch_bd; assumption.
Qed.

(** Answering or failing the request [p]: its depth [d] leaves the list,
    requests of smaller depths join it. *)
Lemma finish_bd w pre p post f ds :
  inflight_bd w ds -> timers_bd w -> requests_in_flight w = pre ++ p :: post ->
  (forall d, req_bd p d -> cb_bd D d f) ->
  exists dpre d dpost dn, ds = dpre ++ d :: dpost /\ d < D /\ Forall (fun x => x < d) dn /\
    inflight_bd (finalize_hide (run_cb f (set_in_flight (pre ++ post) w))) ((dpre ++ dpost) ++ dn) /\
    timers_bd (finalize_hide (run_cb f (set_in_flight (pre ++ post) w))).
Proof.
  intros [Hf Hlt] Ht Hp Hcb. rewrite Hp in Hf.
  apply Forall2_app_inv_l in Hf as (dpre & drest & Hpre & Hrest & ->).
  apply Forall2_cons_inv_l in Hrest as (d & dpost & Hd & Hpost & ->).
  apply Forall_app in Hlt as [Hlt1 Hlt2]. apply Forall_cons in Hlt2 as [Hdl Hlt2].
  destruct (run_cb_bd d f (set_in_flight (pre ++ post) w) (dpre ++ dpost)) as (dn & H1 & H2 & H3).
  - lia.
  - exact (Hcb d Hd).
  - split; [apply Forall2_app; assumption|apply Forall_app_2; assumption].
  - exact Ht.
  - exists dpre, d, dpost, dn. auto.
Qed.

Lemma backend_step_bd w w' ds :
  inflight_bd w ds -> timers_bd w -> backend_step w w' ->
  exists ds', inflight_bd w' ds' /\ timers_bd w' /\
              lex (depth_counts D ds') (depth_counts D ds).
Proof.
  intros Hw Ht Hs.
  destruct Hs as [w pre p post v Hp|w pre p post e Hp];
    [destruct (finish_bd w pre p post (p_next p v) ds Hw Ht Hp) as (dpre & d & dpost & dn & -> & Hd & Hdn & H1 & H2);
       [intros d [Hn _]; apply Hn|]
    |destruct (finish_bd w pre p post (p_error p (errorInterceptor e)) ds Hw Ht Hp)
       as (dpre & d & dpost & dn & -> & Hd & Hdn & H1 & H2); [intros d [_ He]; apply He|]];
    exists ((dpre ++ dpost) ++ dn); (split; [exact H1|split; [exact H2|apply depth_counts_lt; assumption]]).
Qed.

(** The backend cannot answer for ever. *)
Lemma backend_acc w ds :
  inflight_bd w ds -> timers_bd w -> Acc (fun w2 w1 => backend_step w1 w2) w.
Proof.
  remember (depth_counts D ds) as v eqn:Hv. revert w ds Hv.
  induction v as [v IH] using (well_founded_ind lex_wf). intros w ds -> Hw Ht.
  constructor. intros w' Hs.
  destruct (backend_step_bd w w' ds Hw Ht Hs) as (ds' & Hw' & Ht' & Hlt).
  exact (IH _ Hlt w' ds' eq_refl Hw' Ht').
Qed.

(** A failure of the first request in flight is always possible. *)
Lemma drain_exists w ds :
  inflight_bd w ds -> timers_bd w ->
  exists w', rtc backend_step w w' /\ requests_in_flight w' = [].
Proof.
  intros Hw Ht. pose proof (backend_acc w ds Hw Ht) as Ha. revert ds Hw Ht.
  induction Ha as [w _ IH]. intros ds Hw Ht.
  destruct (requests_in_flight w) as [|p post] eqn:E; [exists w; split; [apply rtc_refl|exact E]|].
  pose (e := mkHttpError 0 NullBody "" None).
  assert (Hs : backend_step w (finalize_hide (run_cb (p_error p (errorInterceptor e))
                                                  (set_in_flight ([] ++ post) w))))
    by (apply BFail; exact E).
  destruct (backend_step_bd _ _ ds Hw Ht Hs) as (ds' & Hw' & Ht' & _).
  destruct (IH _ Hs ds' Hw' Ht') as (w' & Hr & Hnil).
  exists w'. split; [eapply rtc_l; [exact Hs|exact Hr]|exact Hnil].
Qed.

Section Reachable.
Context {action : Type} (run_action : action -> Comp S unit).
Hypothesis actions_bd : forall a, comp_bd D D (run_action a).

Lemma backend_step_step w w' : backend_step w w' -> step run_action w w'.
Proof. intros Hs. destruct Hs as [w pre p post v Hp|w pre p post e Hp]; [apply SRespond|apply SFail]; exact Hp. Qed.

Lemma step_drain_inv w w' : drain_inv w -> step run_action w w' -> drain_inv w'.
Proof.
  intros Hd Hs.
  destruct Hs as [a w|w pre p post v Hp|w pre p post e Hp|w cb q Hf|w t q Ha];
    destruct Hd as [[ds Hw] Ht].
  - destruct (run_cb_bd D (exec (run_action a)) w ds) as (dn & H1 & _ & H2);
      [lia|apply cb_bd_exec, actions_bd|exact Hw|exact Ht|].
    split; [exists (ds ++ dn); exact H1|exact H2].
  - destruct (backend_step_bd w _ ds Hw Ht (BRespond w pre p post v Hp)) as (ds' & H1 & H2 & _).
    split; [exists ds'; exact H1|exact H2].
  - destruct (backend_step_bd w _ ds Hw Ht (BFail w pre p post e Hp)) as (ds' & H1 & H2 & _).
    split; [exists ds'; exact H1|exact H2].
  - destruct (fire_Forall (cb_bd D D) (timers w) cb q Hf Ht) as [Hcb Hq].
    destruct (run_cb_bd D cb (set_timers q w) ds) as (dn & H1 & _ & H2);
      [lia|exact Hcb|exact Hw|exact Hq|].
    split; [exists (ds ++ dn); exact H1|exact H2].
  - split; [exists ds; exact Hw|]. unfold timers_bd. simpl.
    rewrite (advance_pending _ _ _ Ha). exact Ht.
Qed.

Lemma rtc_backend_loading w w' : loading_inv w -> rtc backend_step w w' -> loading_inv w'.
Proof.
  intros Hw Hr. apply (rtc_step_inv run_action w w' Hw).
  exact (rtc_subrel _ _ _ _ backend_step_step Hr).
Qed.

(** Every state of the page reachable from [s0] settles. *)
Definition settles_from (s0 : S) : Prop :=
  forall t0 w, rtc (step run_action) (init s0 t0) w -> settles w.

Lemma reachable_settles s0 : settles_from s0.
Proof.
  intros t0 w Hr.
  assert (Hd : drain_inv w).
  { assert (H0 : drain_inv (init s0 t0)) by (split; [exists []; split; constructor|constructor]).
    pose proof Hr as Hr0. clear Hr. induction Hr0 as [w1|w1 w2 w3 Hs _ IH]; [exact H0|].
    exact (IH (step_drain_inv _ _ H0 Hs)). }
  destruct Hd as [[ds Hw] Ht]. split; [exact (backend_acc w ds Hw Ht)|].
  destruct (drain_exists w ds Hw Ht) as (w' & Hr' & Hnil). exists w'.
  split; [exact Hr'|]. split; [exact Hnil|].
  rewrite (visible_inv w' (rtc_backend_loading w w' (rtc_step_inv run_action _ _ (init_inv s0 t0) Hr) Hr')).
  rewrite Hnil. apply bool_decide_eq_false. congruence.
Qed.
End Reachable.
End Drain.
