(* ===== verification/MovimientosPage.v ===== *)
(** The movements page at run time: [MovimientosComponent] inside the page
    model of [Page.v], with [LoadingService] as the indicator.

    The user's actions are the template's bindings and buttons (the
    template is not under [src/]; the actions are those the specification
    describes): loading the page, submitting the form, deleting a movement
    after the confirmation dialog, and typing in the inputs.

    The component's [mostrarMensaje] starts a fresh [setTimeout] at every
    message and never cancels the previous one, unlike
    [NotificationService.show] (C7).  The trace below shows the effect: a
    message shown at 3000 ms is cleared at 5000 ms by the timer of the
    message shown at 0 ms.

    [realizarMovimiento] does not disable itself while its request is in
    flight: submitting twice sends the movement twice (C28). *)

From S2P Require Import Prelude Loading Models Api Timers Effects Movimientos Page.
From stdpp Require Import relations.

Open Scope Z_scope.

Module MovimientosPage.
Import Movimientos.

#[local] Existing Instances LoadingService.indicator LoadingService.indicator_laws.

Inductive mov_action :=
  | ANgOnInit
  | ARealizar
  | AEliminar (i : Z) (confirmado : bool)
  | AInputTipo (t : string)
  | AInputValor (v : Z)
  | AInputCuenta (n : string)
  | AInputBusqueda (b : string).

Definition run_action (a : mov_action) : Comp state unit :=
  match a with
  | ANgOnInit => ngOnInit
  | ARealizar => realizarMovimiento
  | AEliminar i c => eliminarMovimiento i c
  | AInputTipo t => input_tipoMovimiento t
  | AInputValor v => input_valor v
  | AInputCuenta n => input_numeroCuenta n
  | AInputBusqueda b => input_busqueda b
  end.

Definition pworld : Type := world (S:=state) (T:=LoadingService.t).

(** The user acts. *)
Definition act (a : mov_action) (w : pworld) : pworld := run_cb (exec (run_action a)) w.

(** Time passes to [t] (unchanged when a timer is due before). *)
Definition wait (t : Z) (w : pworld) : pworld :=
  match advance t (timers w) with Some q => set_timers q w | None => w end.

(** The page opens at time 0 with the component's initial fields. *)
Definition w0 : pworld := Page.init Movimientos.init 0.

(** At 0 ms the user submits the empty form; then fills in an account and
    the type "Deposito" with value 0, and submits again at 3000 ms. *)
Definition w_first : pworld := act ARealizar w0.

Definition w_filled : pworld := act (AInputTipo "Deposito") (act (AInputCuenta "478758") w_first).

Definition w_second : pworld := act ARealizar (wait 3000 w_filled).

(** A save racing with the page's first load.  The page opens and loads
    the movements and the accounts (requests 0 and 1); before those
    answers arrive the user registers a deposit of 100 (request 2).  The
    backend answers the creation, the component reloads the list
    (request 3), the reload answers with the new movement, and only then
    does the first load (sent before the creation) answer with the list
    as it was. *)
Definition m_old : Movimiento := mkMovimiento (Some 1) (Some "2026-01-05") "Deposito" 50 (Some 150) "478758".
Definition m_new : Movimiento := mkMovimiento (Some 2) (Some "2026-01-15") "Deposito" 100 (Some 250) "478758".

Definition r_open : pworld := act ANgOnInit w0.
Definition r_form : pworld :=
  act (AInputValor 100) (act (AInputTipo "Deposito") (act (AInputCuenta "478758") r_open)).
Definition r_saved : pworld := act ARealizar r_form.
Definition r_created : pworld := respond_nth 2 r_saved (m_new : Movimiento).
Definition r_reloaded : pworld := respond_nth 2 r_created ([m_old; m_new] : list Movimiento).
Definition r_late_load : pworld := respond_nth 0 r_reloaded ([m_old] : list Movimiento).
Definition r_settled : pworld := respond_nth 0 r_late_load ([] : list Cuenta).

(** ** Lemmas *)

Lemma rtc_act a w w' : rtc (step run_action) (act a w) w' -> rtc (step run_action) w w'.
Proof. intros H. eapply rtc_l; [|exact H]. apply SAction. Qed.

Lemma trace_reaches : rtc (step run_action) w0 w_second.
Proof.
  apply (rtc_act ARealizar). eapply rtc_l; [apply (SAction _ (AInputCuenta "478758"))|].
  eapply rtc_l; [apply (SAction _ (AInputTipo "Deposito"))|].
  eapply rtc_l; [apply (SAdvance _ _ 3000 (mkQueue 3000 2 (pending (timers w_filled)))); reflexivity|].
  apply rtc_once, SAction.
Qed.

Lemma race_trace : rtc (step run_action) w0 r_settled.
Proof.
  unfold r_settled. eapply rtc_r; [|apply step_respond_nth; vm_compute; lia].
  unfold r_late_load. eapply rtc_r; [|apply step_respond_nth; vm_compute; lia].
  unfold r_reloaded. eapply rtc_r; [|apply step_respond_nth; vm_compute; lia].
  unfold r_created. eapply rtc_r; [|apply step_respond_nth; vm_compute; lia].
  unfold r_saved, r_form. do 4 (eapply rtc_r; [|apply SAction]).
  unfold r_open. apply rtc_once, SAction.
Qed.

(** ** Properties *)

(** The general theorem of [Page.v] on this page: the two messages of the
    run above, 3000 ms apart. *)
Lemma mensaje_cleared_early_witness :
  pending (timers w0) = [] /\ 0 < 3000 < 5000 /\
  (let w1 := run_cb (exec (mostrarMensaje "Complete todos los campos" MError)) w0 in
   exists q, advance (now (timers w0) + 3000) (timers w1) = Some q /\
   let w2 := run_cb (exec (mostrarMensaje "El valor no puede ser cero" MError)) (set_timers q w1) in
   get_mensaje (comp w2) = "El valor no puede ser cero"%string /\
   exists cb q', fire (timers w2) = Some (cb, q') /\ now q' = now (timers w0) + 5000 /\
     get_mensaje (comp (run_cb cb (set_timers q' w2))) = ""%string).
Proof.
  split; [reflexivity|]. split; [lia|].
  apply mensaje_cleared_early; [reflexivity|lia].
Defined.

(** A message is cleared before its time, on the movements page.  Every
    message of the component is meant to stay 5000 ms, but
    [mostrarMensaje] does not cancel the timer of the previous message: after the empty form is
    submitted at 0 ms ("Complete todos los campos") and a zero value at
    3000 ms ("El valor no puede ser cero"), the next timer to fire is the
    first message's, at 5000 ms, and it clears the second message after
    2000 ms. *)
Lemma mensaje_cleared_early_run :
  rtc (step run_action) w0 w_second /\
  now (timers w_second) = 3000 /\
  mensaje (comp w_second) = "El valor no puede ser cero"%string /\
  exists cb q, fire (timers w_second) = Some (cb, q) /\
    now q = 5000 /\
    mensaje (comp (run_cb cb (set_timers q w_second))) = ""%string.
Proof.
  split; [exact trace_reaches|]. split; [reflexivity|]. split; [reflexivity|].
  eexists _, _. split; [reflexivity|]. split; reflexivity.
Qed.

(** After a save, the list can end up without the saved movement.
    The completion of a save reloads the list, but an earlier load still
    in flight is not cancelled and its answer is applied whenever it
    arrives: in the run above, once every request is answered and the
    spinner is off, the reload had shown the new movement and the late
    answer of the first load (request 0, sent before the creation) has
    replaced the list by one without it. *)
Theorem movimientos_stale_after_save :
  rtc (step run_action) w0 r_settled /\
  requests_in_flight r_settled = [] /\
  LoadingService.isLoading (loading r_settled) = false /\
  movimientos (comp r_reloaded) = [m_old; m_new] /\
  p_id (nth 0 (requests_in_flight r_reloaded) no_request) = 0%nat /\
  movimientos (comp r_settled) = [m_old] /\
  ~ In m_new (movimientos (comp r_settled)).
Proof.
  split; [exact race_trace|].
  assert (Hl : movimientos (comp r_settled) = [m_old]) by (vm_compute; reflexivity).
  split; [vm_compute; reflexivity|]. split; [vm_compute; reflexivity|].
  split; [vm_compute; reflexivity|]. split; [vm_compute; reflexivity|].
  split; [exact Hl|]. rewrite Hl. intros [H|[]]. discriminate.
Qed.

(** C28: a double submit registers the movement twice.
    [realizarMovimiento] changes no field when it sends the form (the form
    is cleared only by the success callback) and nothing marks a submission
    in progress, so a second click before the backend answers sends the
    same [POST /api/movimientos] again: from any state of the page whose
    form is complete, two submissions leave the fields as they were and
    add two identical creations to the requests in flight. *)
Theorem double_submit_posts_twice (w : pworld) :
  let m := nuevoMovimiento (comp w) in
  mov_numeroCuenta m <> ""%string -> tipoMovimiento m <> ""%string -> valor m <> 0 ->
  comp (act ARealizar (act ARealizar w)) = comp w /\
  pending_requests (act ARealizar (act ARealizar w)) =
    pending_requests w ++ [call_request (ApiService.createMovimiento m);
                           call_request (ApiService.createMovimiento m)].
Proof.
  intros m H1 H2 H3. destruct (realizarMovimiento_submits (comp w) H1 H2 H3) as (Hf & Hr & _).
  unfold act. cbn [run_action].
  destruct (run_cb_exec realizarMovimiento w) as [Hc1 Hp1].
  destruct (run_cb_exec realizarMovimiento (run_cb (exec realizarMovimiento) w)) as [Hc2 Hp2].
  rewrite Hc1, !Hf in Hc2. rewrite Hp2, Hc1, Hf, Hp1, Hr, <- app_assoc.
  split; [exact Hc2|reflexivity].
Qed.

Lemma double_submit_posts_twice_witness :
  let m := nuevoMovimiento (comp r_form) in
  mov_numeroCuenta m <> ""%string /\ tipoMovimiento m <> ""%string /\ valor m = 100 /\
  pending_requests (act ARealizar (act ARealizar r_form)) =
    pending_requests r_form ++ [call_request (ApiService.createMovimiento m);
                                call_request (ApiService.createMovimiento m)].
Proof.
  intros m. assert (Hv : valor m = 100) by reflexivity.
  assert (H1 : mov_numeroCuenta m <> ""%string) by discriminate.
  assert (H2 : tipoMovimiento m <> ""%string) by discriminate.
  split; [exact H1|]. split; [exact H2|]. split; [exact Hv|].
  apply (double_submit_posts_twice r_form H1 H2). cbv zeta. fold m. rewrite Hv. discriminate.
Defined.

End MovimientosPage.
