(* ===== verification/ClientesPage.v ===== *)
(** The customers page at run time: [ClientesComponent] inside the page
    model of [Page.v], with [LoadingService] as the indicator.

    The user's actions are the template's bindings and buttons (the
    template is not under [src/]; the actions are those the specification
    describes): loading the page, selecting a row, saving, deleting after
    the confirmation dialog, cancelling, typing in the form and in the
    search box.

    The edit mode of the form is two fields, [modoEdicion] and
    [clienteSeleccionado], which [seleccionarCliente] and [cancelar] set
    together; C38 shows they stay consistent in every reachable state,
    whatever the answers and the timers do in between. *)

From S2P Require Import Prelude Loading Models Api Timers Effects Clientes Page.
From stdpp Require Import relations.

Open Scope Z_scope.

Module ClientesPage.
Import Clientes.

#[local] Existing Instances LoadingService.indicator LoadingService.indicator_laws.

Inductive cli_action :=
  | ANgOnInit
  | ASeleccionar (c : Cliente)
  | AGuardar
  | AEliminar (i : Z) (confirmado : bool)
  | ACancelar
  | AInputCliente (c : Cliente)
  | ABusqueda (b : string).

Definition run_action (a : cli_action) : Comp state unit :=
  match a with
  | ANgOnInit => ngOnInit
  | ASeleccionar c => seleccionarCliente c
  | AGuardar => guardarCliente
  | AEliminar i c => eliminarCliente i c
  | ACancelar => cancelar
  | AInputCliente c => input_nuevoCliente c
  | ABusqueda b => input_busqueda b
  end.

(** The form is in edit mode exactly when a customer is selected. *)
Definition edit_inv (s : state) : Prop :=
  modoEdicion s = true <-> clienteSeleccionado s <> None.

(** ** Lemmas *)

(** Each field update keeps the invariant. *)
Ltac edit_inv_solve :=
  unfold edit_inv in *; simpl; first [assumption | split; intros; congruence].

Lemma inv_set_mensaje m s : edit_inv s -> edit_inv (set_mensaje m s).
Proof. intros H. edit_inv_solve. Qed.

Lemma inv_set_mensajeTipo t s : edit_inv s -> edit_inv (set_mensajeTipo t s).
Proof. intros H. edit_inv_solve. Qed.

#[local] Hint Resolve inv_set_mensaje inv_set_mensajeTipo : bank.

Lemma actions_ok a : comp_ok edit_inv (run_action a).
Proof.
  destruct a; simpl;
    unfold ngOnInit, cargarClientes, seleccionarCliente, guardarCliente, validarCliente,
      eliminarCliente, cancelar, input_nuevoCliente, input_busqueda;
    comp_ok_solve; edit_inv_solve.
Qed.

(** ** Properties *)

(** C38: the edit mode and the selection agree in every reachable state.
    From the initial fields, after any actions of the user, any answers
    of the backend in any order and any timers, [modoEdicion] is true
    exactly when [clienteSeleccionado] holds a customer: an update is
    never attempted without a selected customer, and a selected customer
    is always being edited. *)
Theorem edit_mode_consistent t0 w :
  rtc (step run_action) (Page.init Clientes.init t0) w ->
  modoEdicion (comp w) = true <-> clienteSeleccionado (comp w) <> None.
Proof.
  intros Hr. apply (reachable_closed_inv run_action edit_inv actions_ok Clientes.init t0 w);
    [|exact Hr].
  unfold edit_inv. simpl. split; [discriminate|congruence].
Qed.

Definition c_ana : Cliente := mkCliente (Some 7) "Ana" "F" 30 "0102" "Quito" "0991" (Some "x") true.

Lemma edit_mode_consistent_witness :
  let w := run_cb (exec (run_action (ASeleccionar c_ana))) (Page.init Clientes.init 0) in
  rtc (step run_action) (Page.init Clientes.init 0) w /\
  (modoEdicion (comp w) = true <-> clienteSeleccionado (comp w) <> None).
Proof.
  intros w. assert (Hr : rtc (step run_action) (Page.init Clientes.init 0) w)
    by (apply rtc_once, SAction).
  split; [exact Hr|exact (edit_mode_consistent 0 w Hr)].
Defined.

End ClientesPage.
