(* ===== verification/CuentasPage.v ===== *)
(** The accounts page at run time: [CuentasComponent] inside the page
    model of [Page.v], with [LoadingService] as the indicator.

    The user's actions are the template's bindings and buttons (the
    template is not under [src/]; the actions are those the specification
    describes): loading the page, selecting a row, saving, deleting after
    the confirmation dialog, cancelling, typing in the form and in the
    search box.

    The completion of a save ends with [cancelar()], which leaves the edit
    mode and empties the form, whatever the user did since the click: an
    edit of another account started while the save was in flight is
    discarded when the answer arrives (the run below). *)

From S2P Require Import Prelude Loading Models Api Timers Effects Cuentas Page.
From stdpp Require Import relations.

Open Scope Z_scope.

Module CuentasPage.
Import Cuentas.

#[local] Existing Instances LoadingService.indicator LoadingService.indicator_laws.

Inductive cta_action :=
  | ANgOnInit
  | ASeleccionar (c : Cuenta)
  | AGuardar
  | AEliminar (i : Z) (confirmado : bool)
  | ACancelar
  | AInputCuenta (c : Cuenta)
  | ABusqueda (b : string).

Definition run_action (a : cta_action) : Comp state unit :=
  match a with
  | ANgOnInit => ngOnInit
  | ASeleccionar c => seleccionarCuenta c
  | AGuardar => guardarCuenta
  | AEliminar i c => eliminarCuenta i c
  | ACancelar => cancelar
  | AInputCuenta c => input_nuevaCuenta c
  | ABusqueda b => input_busqueda b
  end.

Definition pworld : Type := world (S:=state) (T:=LoadingService.t).

Definition act (a : cta_action) (w : pworld) : pworld := run_cb (exec (run_action a)) w.

Definition w0 : pworld := Page.init Cuentas.init 0.

(** Two accounts of the list. *)
Definition c_a : Cuenta := mkCuenta (Some 1) "478758" "Ahorros" 100 true 1 (Some "Ana").
Definition c_b : Cuenta := mkCuenta (Some 2) "225487" "Corriente" 50 true 2 (Some "Luis").
Definition c_b_edited : Cuenta := mkCuenta (Some 2) "225487" "Ahorros" 50 true 2 (Some "Luis").

(** The user edits account 1 and saves it (request 0); before the answer
    arrives, selects account 2 and changes its type; then the backend
    answers the update of account 1. *)
Definition k_saving : pworld := act AGuardar (act (ASeleccionar c_a) w0).
Definition k_editing : pworld := act (AInputCuenta c_b_edited) (act (ASeleccionar c_b) k_saving).
Definition k_answered : pworld := respond_nth 0 k_editing (c_a : Cuenta).

(** The form is in edit mode exactly when an account is selected. *)
Definition edit_inv (s : state) : Prop :=
  modoEdicion s = true <-> cuentaSeleccionada s <> None.

(** ** Lemmas *)

Ltac edit_inv_solve :=
  unfold edit_inv in *; simpl; first [assumption | split; intros; congruence].

Lemma cta_inv_set_mensaje m s : edit_inv s -> edit_inv (set_mensaje m s).
Proof. intros H. edit_inv_solve. Qed.

Lemma cta_inv_set_mensajeTipo t s : edit_inv s -> edit_inv (set_mensajeTipo t s).
Proof. intros H. edit_inv_solve. Qed.

#[local] Hint Resolve cta_inv_set_mensaje cta_inv_set_mensajeTipo : bank.

Lemma cta_actions_ok a : comp_ok edit_inv (run_action a).
Proof.
  destruct a; simpl;
    unfold ngOnInit, cargarCuentas, cargarClientes, seleccionarCuenta, guardarCuenta,
      eliminarCuenta, cancelar, input_nuevaCuenta, input_busqueda;
    comp_ok_solve; edit_inv_solve.
Qed.

Lemma save_race_trace : rtc (step run_action) w0 k_answered.
Proof.
  unfold k_answered. eapply rtc_r; [|apply step_respond_nth; vm_compute; lia].
  unfold k_editing, k_saving. do 3 (eapply rtc_r; [|apply SAction]). apply rtc_once, SAction.
Qed.

(** The answer to an earlier save discards the edit in progress: before
    it, the form holds the user's changes to account 2 in edit mode;
    after it, the page is out of edit mode with an empty form. *)
Lemma save_completion_discards_edit :
  rtc (step run_action) w0 k_answered /\
  modoEdicion (comp k_editing) = true /\ cuentaSeleccionada (comp k_editing) = Some c_b /\
  nuevaCuenta (comp k_editing) = c_b_edited /\
  modoEdicion (comp k_answered) = false /\ cuentaSeleccionada (comp k_answered) = None /\
  nuevaCuenta (comp k_answered) = inicializarCuenta.
Proof.
  split; [exact save_race_trace|].
  repeat split; vm_compute; reflexivity.
Qed.

(** ** Properties *)

(** C16: the edit mode and the selection of the accounts page agree in
    every reachable state.  From the initial fields, after any actions of
    the user, any answers of the backend in any order and any timers,
    [modoEdicion] is true exactly when [cuentaSeleccionada] holds an
    account: [seleccionarCuenta] and [cancelar], the completion of a save
    included, set the two fields together. *)
Theorem cuentas_edit_mode_consistent t0 w :
  rtc (step run_action) (Page.init Cuentas.init t0) w ->
  modoEdicion (comp w) = true <-> cuentaSeleccionada (comp w) <> None.
Proof.
  intros Hr. apply (reachable_closed_inv run_action edit_inv cta_actions_ok Cuentas.init t0 w);
    [|exact Hr].
  unfold edit_inv. simpl. split; [discriminate|congruence].
Qed.

Lemma cuentas_edit_mode_consistent_witness :
  rtc (step run_action) (Page.init Cuentas.init 0) k_answered /\
  (modoEdicion (comp k_answered) = true <-> cuentaSeleccionada (comp k_answered) <> None).
Proof.
  split; [exact save_race_trace|exact (cuentas_edit_mode_consistent 0 k_answered save_race_trace)].
Defined.

End CuentasPage.
