(* ===== verification/ReportesPage.v ===== *)
(** The reports page at run time: [ReportesComponent] inside the page
    model of [Page.v], with [LoadingService] as the indicator.

    The user's actions are the template's bindings and buttons (the
    template is not under [src/]; the actions are those the specification
    describes); the actions that read the clock take the time of the call
    and the browser's zone offset.

    [generarReporte] neither cancels a report request still in flight nor
    checks, when an answer arrives, that it belongs to the last request:
    every answer overwrites [reporteData] and clears [cargando].  The run
    below generates a report, widens the range, generates again, and
    receives the two answers in the opposite order. *)

From S2P Require Import Prelude Loading Models Api Timers Effects Dates Reportes Page.
From stdpp Require Import relations.

Open Scope Z_scope.

Module ReportesPage.
Import Reportes.

#[local] Existing Instances LoadingService.indicator LoadingService.indicator_laws.

Inductive rep_action :=
  | AInit (now : Z)
  | ASeleccionar (i : option Z)
  | AFechaInicio (f : string)
  | AFechaFin (f : string)
  | AGenerar (now off : Z)
  | AExportarPDF (now : Z)
  | AExportarJSON (now : Z).

Definition run_action (a : rep_action) : Comp state unit :=
  match a with
  | AInit now => ngOnInit now
  | ASeleccionar i => input_clienteSeleccionado i
  | AFechaInicio f => input_fechaInicio f
  | AFechaFin f => input_fechaFin f
  | AGenerar now off => generarReporte now off
  | AExportarPDF now => exportarPDF now
  | AExportarJSON now => exportarJSON now
  end.

Definition pworld : Type := world (S:=state) (T:=LoadingService.t).

Definition act (a : rep_action) (w : pworld) : pworld := run_cb (exec (run_action a)) w.

(** 2026-01-15T10:00:00Z, in a zone at UTC-5. *)
Definition now : Z := 1768471200000.
Definition off : Z := -18000000.

Definition w0 : pworld := Page.init Reportes.init now.

(** The customer 1 and the range 2026-01-01 to 2026-01-10: request 0. *)
Definition q_first : pworld :=
  act (AGenerar now off) (act (AFechaFin "2026-01-10")
    (act (AFechaInicio "2026-01-01") (act (ASeleccionar (Some 1)) w0))).

(** The range widened to 2026-01-14: request 1. *)
Definition q_second : pworld := act (AGenerar now off) (act (AFechaFin "2026-01-14") q_first).

Definition row (fecha : string) (v : Z) : ReporteMovimiento :=
  mkReporte fecha "Jose Lema" "478758" "Ahorros" 2000 true v (2000 + v).

Definition rows_first : list ReporteMovimiento := [row "2026-01-05" 100].
Definition rows_second : list ReporteMovimiento := [row "2026-01-05" 100; row "2026-01-12" (-40)].

(** The second request is answered first, then the first. *)
Definition q_answered_second : pworld := respond_nth 1 q_second rows_second.
Definition q_answered_both : pworld := respond_nth 0 q_answered_second rows_first.

(** The export on the final state. *)
Definition q_exported : pworld := act (AExportarPDF now) q_answered_both.

(** ** Lemmas *)

Lemma report_race_trace : rtc (step run_action) w0 q_exported.
Proof.
  unfold q_exported. eapply rtc_r; [|apply SAction].
  unfold q_answered_both. eapply rtc_r; [|apply step_respond_nth; vm_compute; lia].
  unfold q_answered_second. eapply rtc_r; [|apply step_respond_nth; vm_compute; lia].
  unfold q_second. do 2 (eapply rtc_r; [|apply SAction]).
  unfold q_first. do 3 (eapply rtc_r; [|apply SAction]).
  apply rtc_once, SAction.
Qed.

(** ** Properties *)

(** A late answer replaces a newer report.  The page sends the
    report for 1 to 10 January, then, after the range is widened, the
    report for 1 to 14 January.  When the second answer arrives first,
    [cargando] goes off while the first request is still in flight; when
    the first answer arrives, it replaces the newer rows, and the PDF then
    exported states the period 1 to 14 January over the rows of 1 to 10
    January, with their totals. *)
Theorem stale_report_race :
  rtc (step run_action) w0 q_exported /\
  map (fun p => call_request (p_call p)) (requests_in_flight q_second) =
    [call_request (ApiService.getReporte 1 "2026-01-01T05:00:00.000Z" "2026-01-11T04:59:59.000Z");
     call_request (ApiService.getReporte 1 "2026-01-01T05:00:00.000Z" "2026-01-15T04:59:59.000Z")] /\
  cargando (comp q_answered_second) = false /\
  length (requests_in_flight q_answered_second) = 1%nat /\
  reporteData (comp q_answered_both) = rows_first /\
  fechaFin (comp q_answered_both) = "2026-01-14"%string /\
  exists archivo cabecera,
    files q_exported =
      [PdfDownload archivo cabecera ("2026-01-01", "2026-01-14")%string rows_first 100 0 100].
Proof.
  split; [exact report_race_trace|].
  do 5 (split; [vm_compute; reflexivity|]).
  do 2 eexists. vm_compute. reflexivity.
Qed.

End ReportesPage.
