(* ===== verification/Liveness.v ===== *)
(** The spinner of every page goes off once the backend has answered.

    The four pages are bounded in the sense of [Drain.v]: a user action
    starts requests whose completions start at most one more round of
    requests (a save or a deletion reloads the list; a load starts
    nothing), and the components' timers only clear the message.  So on
    every page, from every reachable state, any sequence of answers and
    failures of the backend is finite, and answering the requests in
    flight empties the list and hides the spinner. *)

From S2P Require Import Prelude Loading Models Api Timers Effects.
From S2P Require Import Movimientos Clientes Cuentas Reportes Page Drain.
From S2P Require Import MovimientosPage ClientesPage CuentasPage ReportesPage.

#[local] Existing Instances LoadingService.indicator LoadingService.indicator_laws.

(** A page settles with [LoadingService] as its indicator: every state
    reachable from [s0] settles ([Drain.settles]). *)
Definition page_settles {S A} (run_action : A -> Comp S unit) (s0 : S) : Prop :=
  settles_from (T:=LoadingService.t) run_action s0.

(** ** Lemmas: every action is bounded by two rounds of requests *)

Lemma movimientos_actions_bd a : comp_bd 2 2 (MovimientosPage.run_action a).
Proof.
  destruct a; simpl;
    unfold Movimientos.ngOnInit, Movimientos.cargarMovimientos, Movimientos.cargarCuentas,
      Movimientos.realizarMovimiento, Movimientos.limpiarFormulario, Movimientos.eliminarMovimiento,
      Movimientos.input_tipoMovimiento, Movimientos.onTipoMovimientoChange, Movimientos.input_valor,
      Movimientos.input_numeroCuenta, Movimientos.input_busqueda;
    comp_bd_solve.
Qed.

Lemma clientes_actions_bd a : comp_bd 2 2 (ClientesPage.run_action a).
Proof.
  destruct a; simpl;
    unfold Clientes.ngOnInit, Clientes.cargarClientes, Clientes.seleccionarCliente,
      Clientes.guardarCliente, Clientes.validarCliente, Clientes.eliminarCliente, Clientes.cancelar,
      Clientes.input_nuevoCliente, Clientes.input_busqueda;
    comp_bd_solve.
Qed.

Lemma cuentas_actions_bd a : comp_bd 2 2 (CuentasPage.run_action a).
Proof.
  destruct a; simpl;
    unfold Cuentas.ngOnInit, Cuentas.cargarCuentas, Cuentas.cargarClientes, Cuentas.seleccionarCuenta,
      Cuentas.guardarCuenta, Cuentas.eliminarCuenta, Cuentas.cancelar, Cuentas.input_nuevaCuenta,
      Cuentas.input_busqueda;
    comp_bd_solve.
Qed.

Lemma reportes_actions_bd a : comp_bd 2 2 (ReportesPage.run_action a).
Proof.
  destruct a; simpl;
    unfold Reportes.ngOnInit, Reportes.cargarClientes, Reportes.setFechasPorDefecto,
      Reportes.generarReporte, Reportes.reporte_next, Reportes.reporte_error, Reportes.exportarPDF,
      Reportes.exportarJSON, Reportes.input_clienteSeleccionado, Reportes.input_fechaInicio,
      Reportes.input_fechaFin;
    comp_bd_solve.
Qed.

(** ** Properties *)

(** C32: the spinner always goes off once the backend has answered.  On
    each of the four pages, from every state reachable from the
    component's initial fields (whatever the user did, in whatever order
    the backend answered, whatever the timers did), every sequence of
    answers and failures of the backend is finite, and answering the
    requests in flight one after the other ends with no request in flight
    and [isLoading] false: a completion's reload is answered in turn and
    starts nothing more. *)
Theorem pages_settle :
  page_settles MovimientosPage.run_action Movimientos.init /\
  page_settles ClientesPage.run_action Clientes.init /\
  page_settles CuentasPage.run_action Cuentas.init /\
  page_settles ReportesPage.run_action Reportes.init.
Proof.
  unfold page_settles. split; [|split; [|split]]; apply (reachable_settles 2);
    auto using movimientos_actions_bd, clientes_actions_bd, cuentas_actions_bd, reportes_actions_bd.
Qed.
